(** * The reconciliation engine of k8s-bigip-ctlr (pkg/appmanager/appManager.go)

    A shallow embedding of the parts of [appManager.go] that decide when a
    configuration is emitted, how the sync statistics are accumulated, how
    TLS profiles are stored, how virtual servers are (de)activated and how
    node updates and namespace informers are handled.  The first part of the
    properties settles the statements of the specification (C1 to C10); the
    second part (X1 to X30) states what the code itself shows about the
    functions around them.

    Conventions.
    - Go [int], [int32] values are [Z]; the only wrap-around that can occur
      in the modelled code is the clamping done by [strconv.ParseInt], which
      is written out.
    - Go maps are [gmap]s, Go slices are lists.  A [nil] slice and an empty
      slice are both the empty list, except for [Manager.oldNodes], where
      [reflect.DeepEqual] observes the difference and the model keeps it.
    - [*ResourceConfig] pointers are locations into an explicit heap, so
      that the sharing of one configuration between several store keys is
      visible.
    - A run-time panic (index or slice bound out of range) is the result
      [None] of the state monad [M]. *)

From stdpp Require Import gmap strings list fin_maps pretty sorting.
From Stdlib Require Import ZArith Ascii.

Local Open Scope string_scope.
Local Open Scope list_scope.
Local Open Scope Z_scope.

(** ** Go standard library: strconv *)

Module strconv.

Inductive NumError := ErrSyntax | ErrRange.

(** [strconv.ParseBool]: accepts 1, t, T, TRUE, true, True, 0, f, F,
    FALSE, false, False; any other value is an error. *)
Definition ParseBool (str : string) : option bool :=
  if bool_decide (str = "1") || bool_decide (str = "t")
     || bool_decide (str = "T") || bool_decide (str = "TRUE")
     || bool_decide (str = "true") || bool_decide (str = "True")
  then Some true
  else if bool_decide (str = "0") || bool_decide (str = "f")
     || bool_decide (str = "F") || bool_decide (str = "FALSE")
     || bool_decide (str = "false") || bool_decide (str = "False")
  then Some false
  else None.

Definition digit (c : ascii) : option Z :=
  let n := Z.of_nat (nat_of_ascii c) in
  if (48 <=? n) && (n <=? 57) then Some (n - 48) else None.

(** The digit loop of [ParseUint(s, 10, 32)]: the first character that is
    not a decimal digit is a syntax error (value 0); the first overflow of
    the 32-bit range is a range error (value [2^32-1]). *)
Fixpoint ParseUint_loop (cs : string) (n : Z) : Z * option NumError :=
  match cs with
  | EmptyString => (n, None)
  | String c cs' =>
      match digit c with
      | None => (0, Some ErrSyntax)
      | Some d =>
          let n1 := n * 10 + d in
          if 2 ^ 32 - 1 <? n1 then (2 ^ 32 - 1, Some ErrRange)
          else ParseUint_loop cs' n1
      end
  end.

Definition ParseUint (s : string) : Z * option NumError :=
  match s with
  | EmptyString => (0, Some ErrSyntax)
  | _ => ParseUint_loop s 0
  end.

(** [strconv.ParseInt(s, 10, 32)]. *)
Definition ParseInt (s : string) : Z * option NumError :=
  match s with
  | EmptyString => (0, Some ErrSyntax)
  | String c rest =>
      let neg := bool_decide (c = "-"%char) in
      let s' := if bool_decide (c = "+"%char) || neg then rest else s in
      match ParseUint s' with
      | (_, Some ErrSyntax) => (0, Some ErrSyntax)
      | (un, _) =>
          let cutoff := 2 ^ 31 in
          if negb neg && (cutoff <=? un) then (cutoff - 1, Some ErrRange)
          else if neg && (cutoff <? un) then (- cutoff, Some ErrRange)
          else (if neg then - un else un, None)
      end
  end.

End strconv.

(** ** Constants *)

Definition ingressSslRedirect : string := "ingress.kubernetes.io/ssl-redirect".
Definition ingressAllowHttp : string := "ingress.kubernetes.io/allow-http".
Definition httpPortAnnotation : string := "virtual-server.f5.com/http-port".
Definition httpsPortAnnotation : string := "virtual-server.f5.com/https-port".

(** Modelled from the spec: [DEFAULT_HTTP_PORT], declared outside
    appManager.go; the spec gives [httpPort=80]. *)
Definition DEFAULT_HTTP_PORT : Z := 80.

(** Modelled from the spec: [DEFAULT_HTTPS_PORT], declared outside
    appManager.go; the spec gives [httpsPort=443]. *)
Definition DEFAULT_HTTPS_PORT : Z := 443.

(** [DEFAULT_PARTITION] is declared outside appManager.go, and the spec
    only calls it the default partition: its value is given neither by the
    source nor by the spec.  The string below stands in for it; every
    statement refers to the constant by name and holds for any value. *)
Definition DEFAULT_PARTITION : string := "Common".

(** ** Kubernetes objects, as far as the engine reads them *)

Module IngressTLS.
Record t := mk { SecretName : string }.
End IngressTLS.

Module Ingress.
Record t := mk {
  Namespace : string;
  Name : string;
  Annotations : gmap string string;
  TLS : list IngressTLS.t;
}.
End Ingress.

Module Secret.
(** [Data] is [map[string][]byte]; the byte strings are only ever
    converted to [string]. *)
Record t := mk {
  Name : string;
  Data : gmap string string;
}.
End Secret.

(** ** Annotations and the ports of an Ingress *)

Definition getBooleanAnnotation
    (annotations : gmap string string) (key : string) (defaultValue : bool)
    : bool :=
  match annotations !! key with
  | None => defaultValue
  | Some val =>
      match strconv.ParseBool val with
      | None => defaultValue
      | Some bVal => bVal
      end
  end.

Module portStruct.
Record t := mk { protocol : string; port : Z }.
End portStruct.

(** The [if port, ok := annotations[key]; ok { p, _ := ParseInt(port, 10, 32);
    x = int32(p) } else { x = dflt }] idiom shared by [virtualPorts] and
    [handleIngressTls]. *)
Definition portAnnotation
    (annotations : gmap string string) (key : string) (dflt : Z) : Z :=
  match annotations !! key with
  | Some port => fst (strconv.ParseInt port)
  | None => dflt
  end.

Definition virtualPorts (ing : Ingress.t) : list portStruct.t :=
  let httpPort :=
    portAnnotation (Ingress.Annotations ing) httpPortAnnotation
      DEFAULT_HTTP_PORT in
  let httpsPort :=
    portAnnotation (Ingress.Annotations ing) httpsPortAnnotation
      DEFAULT_HTTPS_PORT in
  let sslRedirect :=
    getBooleanAnnotation (Ingress.Annotations ing) ingressSslRedirect true in
  let allowHttp :=
    getBooleanAnnotation (Ingress.Annotations ing) ingressAllowHttp false in
  let http := portStruct.mk "http" httpPort in
  let https := portStruct.mk "https" httpsPort in
  if bool_decide (0 < List.length (Ingress.TLS ing))%nat then
    if sslRedirect || allowHttp then [http; https] else [https]
  else [http].

(** ** Data model *)

Module serviceQueueKey.
Record t := mk { Namespace : string; ServiceName : string }.
End serviceQueueKey.

(** The types [serviceKey], [nameRef], [Member], [Pool], [ProfileRef],
    [CustomProfile], [Virtual] and [ResourceConfig] are declared outside
    appManager.go.  Their records below have the fields that appManager.go
    reads or writes, with the meaning the spec's data model gives them. *)

Module serviceKey.
(** Modelled from the spec: [serviceKey], which identifies a backend. *)
Record t := mk {
  ServiceName : string;
  ServicePort : Z;
  Namespace : string;
}.
#[global] Instance eq_dec : EqDecision t.
Proof. solve_decision. Defined.
#[global] Instance countable : Countable t.
Proof.
  refine (inj_countable'
            (λ k, (ServiceName k, ServicePort k, Namespace k))
            (λ p, mk p.1.1 p.1.2 p.2) _).
  by intros [].
Defined.
End serviceKey.

Module secretKey.
Record t := mk {
  Name : string;
  Namespace : string;
  ResourceName : string;
}.
#[global] Instance eq_dec : EqDecision t.
Proof. solve_decision. Defined.
#[global] Instance countable : Countable t.
Proof.
  refine (inj_countable'
            (λ k, (Name k, Namespace k, ResourceName k))
            (λ p, mk p.1.1 p.1.2 p.2) _).
  by intros [].
Defined.
End secretKey.

Module nameRef.
(** Modelled from the spec: [nameRef], the key of iRules and data groups. *)
Record t := mk { Name : string; Partition : string }.
#[global] Instance eq_dec : EqDecision t.
Proof. solve_decision. Defined.
#[global] Instance countable : Countable t.
Proof.
  refine (inj_countable' (λ k, (Name k, Partition k))
            (λ p, mk p.1 p.2) _).
  by intros [].
Defined.
End nameRef.

Module Member.
(** Modelled from the spec: [Member], a pool member. *)
Record t := mk { Address : string; Port : Z; Session : string }.
#[global] Instance eq_dec : EqDecision t.
Proof. solve_decision. Defined.
End Member.

Module Pool.
(** Modelled from the spec: [Pool], the members bound to a service and
    port. *)
Record t := mk {
  Name : string;
  ServiceName : string;
  ServicePort : Z;
  Members : list Member.t;
}.
#[global] Instance eq_dec : EqDecision t.
Proof. solve_decision. Defined.
(** The zero value [Pool{}]. *)
Definition zero : t := mk "" "" 0 [].
Definition set_Members (ms : list Member.t) (p : t) : t :=
  mk (Name p) (ServiceName p) (ServicePort p) ms.
End Pool.

(** Modelled from the spec: the profile contexts [customProfileClient] and
    [customProfileServer]. *)
Inductive ProfileContext := customProfileClient | customProfileServer.
#[global] Instance ProfileContext_eq_dec : EqDecision ProfileContext.
Proof. solve_decision. Defined.

Module ProfileRef.
(** Modelled from the spec: [ProfileRef], a profile a virtual refers to. *)
Record t := mk {
  Name : string;
  Partition : string;
  Context : ProfileContext;
}.
#[global] Instance eq_dec : EqDecision t.
Proof. solve_decision. Defined.
End ProfileRef.

Module CustomProfile.
(** Modelled from the spec: [CustomProfile], a TLS profile materialized from
    a Secret or an inline certificate. *)
Record t := mk {
  Name : string;
  Partition : string;
  Context : ProfileContext;
  Cert : string;
  Key : string;
  ServerName : string;
}.
#[global] Instance eq_dec : EqDecision t.
Proof. solve_decision. Defined.
End CustomProfile.

(** Modelled from the spec: [NewCustomProfile] is declared outside
    appManager.go; it builds the profile of a [ProfileRef] around a
    certificate, without key or server name. *)
Definition NewCustomProfile (profile : ProfileRef.t) (cert : string)
    : CustomProfile.t :=
  CustomProfile.mk (ProfileRef.Name profile) (ProfileRef.Partition profile)
    (ProfileRef.Context profile) cert "" "".

Module virtualAddress.
(** Modelled from the spec: the bind address and port of a virtual. *)
Record t := mk { BindAddr : string; Port : Z }.
#[global] Instance eq_dec : EqDecision t.
Proof. solve_decision. Defined.
End virtualAddress.

Module Virtual.
(** Modelled from the spec: [Virtual]; [VirtualAddress] is a pointer, absent
    in pool-only mode. *)
Record t := mk {
  VirtualServerName : string;
  Partition : string;
  VirtualAddress : option virtualAddress.t;
  IApp : string;
  FrontendSslProfileNames : list string;
  Profiles : list ProfileRef.t;
  IRules : list string;
}.
#[global] Instance eq_dec : EqDecision t.
Proof. solve_decision. Defined.
End Virtual.

Module Rule.
(** Modelled from the spec: a policy rule, with the pools of its actions. *)
Record t := mk { Name : string; Ordinal : Z; ActionPools : list string }.
#[global] Instance eq_dec : EqDecision t.
Proof. solve_decision. Defined.
End Rule.

Module Policy.
(** Modelled from the spec: [Policy], a named list of rules. *)
Record t := mk { Name : string; Partition : string; Rules : list Rule.t }.
#[global] Instance eq_dec : EqDecision t.
Proof. solve_decision. Defined.
End Policy.

Module Monitor.
(** Modelled from the spec: a health monitor. *)
Record t := mk { Name : string; Protocol : string; Send : string }.
#[global] Instance eq_dec : EqDecision t.
Proof. solve_decision. Defined.
End Monitor.

Module MetaData.
(** Modelled from the spec: the [MetaData] of a [ResourceConfig]. *)
Record t := mk { Active : bool; NodePort : Z; ResourceType : string }.
#[global] Instance eq_dec : EqDecision t.
Proof. solve_decision. Defined.
End MetaData.

Module ResourceConfig.
(** Modelled from the spec: [ResourceConfig], the canonical representation
    of one virtual server. *)
Record t := mk {
  MetaData : MetaData.t;
  Virtual : Virtual.t;
  Pools : list Pool.t;
  Policies : list Policy.t;
  Monitors : list Monitor.t;
}.
#[global] Instance eq_dec : EqDecision t.
Proof. solve_decision. Defined.

Definition set_Active (b : bool) (c : t) : t :=
  mk (MetaData.mk b (MetaData.NodePort (MetaData c))
        (MetaData.ResourceType (MetaData c)))
     (Virtual c) (Pools c) (Policies c) (Monitors c).
Definition set_NodePort (p : Z) (c : t) : t :=
  mk (MetaData.mk (MetaData.Active (MetaData c)) p
        (MetaData.ResourceType (MetaData c)))
     (Virtual c) (Pools c) (Policies c) (Monitors c).
Definition set_Virtual (v : Virtual.t) (c : t) : t :=
  mk (MetaData c) v (Pools c) (Policies c) (Monitors c).
Definition set_Pools (ps : list Pool.t) (c : t) : t :=
  mk (MetaData c) (Virtual c) ps (Policies c) (Monitors c).

(** [c.Pools[index].Members = ms]; [None] is the index-out-of-range
    panic. *)
Definition set_PoolMembers (index : nat) (ms : list Member.t) (c : t)
    : option t :=
  match Pools c !! index with
  | Some p => Some (set_Pools (<[index := Pool.set_Members ms p]> (Pools c)) c)
  | None => None
  end.
End ResourceConfig.

(** *** Kubernetes service, endpoints and node objects *)

Inductive ServiceType :=
  ServiceTypeClusterIP | ServiceTypeNodePort | ServiceTypeLoadBalancer
  | ServiceTypeExternalName.
#[global] Instance ServiceType_eq_dec : EqDecision ServiceType.
Proof. solve_decision. Defined.

Module ServicePort.
Record t := mk { Name : string; Port : Z; NodePort : Z }.
End ServicePort.

Module Service.
(** [Type_] is [Spec.Type], [Ports] is [Spec.Ports]. *)
Record t := mk { Type_ : ServiceType; Ports : list ServicePort.t }.
End Service.

Module EndpointPort.
Record t := mk { Name : string; Port : Z }.
End EndpointPort.

Module EndpointSubset.
Record t := mk { Addresses : list string; Ports : list EndpointPort.t }.
End EndpointSubset.

Module Endpoints.
Record t := mk { Subsets : list EndpointSubset.t }.
End Endpoints.

Inductive NodeAddressType := NodeHostName | NodeExternalIP | NodeInternalIP.
#[global] Instance NodeAddressType_eq_dec : EqDecision NodeAddressType.
Proof. solve_decision. Defined.

Module NodeAddress.
Record t := mk { Type_ : NodeAddressType; Address : string }.
End NodeAddress.

Module Node.
Record t := mk { Unschedulable : bool; Addresses : list NodeAddress.t }.
End Node.

Inductive TLSTerminationType :=
  TLSTerminationEdge | TLSTerminationPassthrough | TLSTerminationReencrypt.
#[global] Instance TLSTerminationType_eq_dec : EqDecision TLSTerminationType.
Proof. solve_decision. Defined.

Module TLSConfig.
Record t := mk {
  Termination : TLSTerminationType;
  Certificate : string;
  Key : string;
  DestinationCACertificate : string;
}.
End TLSConfig.

Module Route.
(** [To] is [Spec.To.Name], [Host] is [Spec.Host], [TLS] is [Spec.TLS]. *)
Record t := mk {
  Namespace : string;
  Name : string;
  Host : string;
  To : string;
  TLS : option TLSConfig.t;
}.
End Route.

(** *** Helpers that live outside appManager.go

    appManager.go calls these methods of [Virtual] and these formatting
    functions but does not define them; they are an interface of the
    development. *)
Class VirtualOps := {
  formatIngressSslProfileName : string → string;
  AddFrontendSslProfileName : string → Virtual.t → Virtual.t;
  AddOrUpdateProfile : ProfileRef.t → Virtual.t → Virtual.t;
  ReferencesProfile : Virtual.t → CustomProfile.t → bool;
  AddIRule : string → Virtual.t → Virtual.t;
  httpRedirectIRuleName : string;
  httpRedirectIRule : Z → string;
  formatRouteRuleName : Route.t → string;
}.

(** ** Informers *)

Module appInformer.
(** The five caches of a namespace bundle, as far as the sync worker reads
    them: services and endpoints by their ["namespace/name"] key, and
    whether a route informer exists. *)
Record t := mk {
  namespace : string;
  cfgMapSelector : string;
  resyncPeriod : Z;
  svcInformer : gmap string Service.t;
  endptInformer : gmap string Endpoints.t;
  routeInformer : bool;
}.
End appInformer.

Module nsInformer.
Record t := mk { labelSelector : string; resyncPeriod : Z }.
End nsInformer.

(** ** The manager and its surroundings *)

Definition loc := positive.
Definition ResourceMap := gmap Z (list loc).

Module Event.
(** An event recorded on an Ingress (the message text is not kept). *)
Record t := mk { Namespace : string; Name : string; Reason : string }.
End Event.

Module vsSyncStats.
Record t := mk {
  vsFound : Z;
  vsUpdated : Z;
  vsDeleted : Z;
  cpUpdated : Z;
  dgUpdated : Z;
}.
(** [var stats vsSyncStats] *)
Definition zero : t := mk 0 0 0 0 0.
Definition set_vsDeleted (n : Z) (s : t) : t :=
  mk (vsFound s) (vsUpdated s) n (cpUpdated s) (dgUpdated s).
Definition add_cpUpdated (n : Z) (s : t) : t :=
  mk (vsFound s) (vsUpdated s) (vsDeleted s) (cpUpdated s + n) (dgUpdated s).
End vsSyncStats.

(** The state the engine runs in.  [heap] is the memory holding the
    [ResourceConfig] objects that [*ResourceConfig] values point to;
    [resources] .. [nsInformer] are the fields of the Go [Manager];
    the remaining fields are the outside world as the engine sees it:
    the Secrets and Ingresses served by [kubeClient], the readable files, and
    what the engine has done to it: the events recorded, the number of
    documents handed to the config writer, the number of file reads. *)
Record Manager := mkManager {
  heap : gmap loc ResourceConfig.t;
  (* Manager fields *)
  resources : gmap (serviceKey.t * string) loc;
  customProfiles : gmap secretKey.t CustomProfile.t;
  irulesMap : gmap nameRef.t string;
  routeClientV1 : bool;
  initialState : bool;
  useNodeInternal : bool;
  isNodePort : bool;
  oldNodes : option (list string);
  vsQueue : list serviceQueueKey.t;
  appInformers : gmap string appInformer.t;
  nsQueue : list string;
  nsInformer : option nsInformer.t;
  (* outside world *)
  kubeSecrets : gmap (string * string) Secret.t;
  kubeIngresses : gmap (string * string) Ingress.t;
  files : gmap string string;
  events : list Event.t;
  written : nat;
  caReads : nat;
}.

Definition set_heap (h : gmap loc ResourceConfig.t) (m : Manager) : Manager :=
  mkManager h (resources m) (customProfiles m) (irulesMap m)
    (routeClientV1 m) (initialState m) (useNodeInternal m) (isNodePort m)
    (oldNodes m) (vsQueue m) (appInformers m) (nsQueue m) (nsInformer m)
    (kubeSecrets m) (kubeIngresses m) (files m) (events m)
    (written m) (caReads m).
Definition set_resources (r : gmap (serviceKey.t * string) loc) (m : Manager)
    : Manager :=
  mkManager (heap m) r (customProfiles m) (irulesMap m)
    (routeClientV1 m) (initialState m) (useNodeInternal m) (isNodePort m)
    (oldNodes m) (vsQueue m) (appInformers m) (nsQueue m) (nsInformer m)
    (kubeSecrets m) (kubeIngresses m) (files m) (events m)
    (written m) (caReads m).
Definition set_customProfiles (p : gmap secretKey.t CustomProfile.t)
    (m : Manager) : Manager :=
  mkManager (heap m) (resources m) p (irulesMap m)
    (routeClientV1 m) (initialState m) (useNodeInternal m) (isNodePort m)
    (oldNodes m) (vsQueue m) (appInformers m) (nsQueue m) (nsInformer m)
    (kubeSecrets m) (kubeIngresses m) (files m) (events m)
    (written m) (caReads m).
Definition set_irulesMap (i : gmap nameRef.t string) (m : Manager) : Manager :=
  mkManager (heap m) (resources m) (customProfiles m) i
    (routeClientV1 m) (initialState m) (useNodeInternal m) (isNodePort m)
    (oldNodes m) (vsQueue m) (appInformers m) (nsQueue m) (nsInformer m)
    (kubeSecrets m) (kubeIngresses m) (files m) (events m)
    (written m) (caReads m).
Definition set_oldNodes (o : option (list string)) (m : Manager) : Manager :=
  mkManager (heap m) (resources m) (customProfiles m) (irulesMap m)
    (routeClientV1 m) (initialState m) (useNodeInternal m) (isNodePort m)
    o (vsQueue m) (appInformers m) (nsQueue m) (nsInformer m)
    (kubeSecrets m) (kubeIngresses m) (files m) (events m)
    (written m) (caReads m).
Definition set_appInformers (a : gmap string appInformer.t) (m : Manager)
    : Manager :=
  mkManager (heap m) (resources m) (customProfiles m) (irulesMap m)
    (routeClientV1 m) (initialState m) (useNodeInternal m) (isNodePort m)
    (oldNodes m) (vsQueue m) a (nsQueue m) (nsInformer m)
    (kubeSecrets m) (kubeIngresses m) (files m) (events m)
    (written m) (caReads m).
Definition set_nsInformer (n : option nsInformer.t) (m : Manager) : Manager :=
  mkManager (heap m) (resources m) (customProfiles m) (irulesMap m)
    (routeClientV1 m) (initialState m) (useNodeInternal m) (isNodePort m)
    (oldNodes m) (vsQueue m) (appInformers m) (nsQueue m) n
    (kubeSecrets m) (kubeIngresses m) (files m) (events m)
    (written m) (caReads m).
Definition set_events (e : list Event.t) (m : Manager) : Manager :=
  mkManager (heap m) (resources m) (customProfiles m) (irulesMap m)
    (routeClientV1 m) (initialState m) (useNodeInternal m) (isNodePort m)
    (oldNodes m) (vsQueue m) (appInformers m) (nsQueue m) (nsInformer m)
    (kubeSecrets m) (kubeIngresses m) (files m) e
    (written m) (caReads m).
Definition set_written (w : nat) (m : Manager) : Manager :=
  mkManager (heap m) (resources m) (customProfiles m) (irulesMap m)
    (routeClientV1 m) (initialState m) (useNodeInternal m) (isNodePort m)
    (oldNodes m) (vsQueue m) (appInformers m) (nsQueue m) (nsInformer m)
    (kubeSecrets m) (kubeIngresses m) (files m) (events m)
    w (caReads m).
Definition set_caReads (r : nat) (m : Manager) : Manager :=
  mkManager (heap m) (resources m) (customProfiles m) (irulesMap m)
    (routeClientV1 m) (initialState m) (useNodeInternal m) (isNodePort m)
    (oldNodes m) (vsQueue m) (appInformers m) (nsQueue m) (nsInformer m)
    (kubeSecrets m) (kubeIngresses m) (files m) (events m)
    (written m) r.

(** *** The monad of the engine: state, with [None] for a panic *)

Definition M (A : Type) : Type := Manager → option (A * Manager).

#[global] Instance M_ret : MRet M := λ A a m, Some (a, m).
#[global] Instance M_bind : MBind M :=
  λ A B k c m, match c m with
               | Some (a, m') => k a m'
               | None => None
               end.
Definition panic {A} : M A := λ _, None.
Definition get : M Manager := λ m, Some (m, m).
Definition modify (f : Manager → Manager) : M unit := λ m, Some (tt, f m).
(** An [option] whose [None] is a panic (nil dereference, index out of
    range). *)
Definition lift {A} (o : option A) : M A :=
  match o with Some a => mret a | None => panic end.

(** [for _, x := range xs { body }] over an immutable list. *)
Fixpoint forEach {A} (xs : list A) (body : A → M unit) : M unit :=
  match xs with
  | [] => mret tt
  | x :: xs' => body x ;; forEach xs' body
  end.

(** Like [forEach], threading a loop-carried value. *)
Fixpoint foldM {A S} (xs : list A) (body : S → A → M S) (s : S) : M S :=
  match xs with
  | [] => mret s
  | x :: xs' => s' ← body s x; foldM xs' body s'
  end.

(** ** Errors returned by the modelled functions *)

Inductive error :=
  | ErrSecretField (secretName field : string)
      (* "Invalid Secret '%v': '<field>' field not specified." *)
  | ErrWatchingAll
      (* "Cannot add additional namespaces when already watching all." *)
  | ErrWatchingSpecific
      (* "Cannot watch all namespaces when already watching specific ones." *)
  | ErrHaveLabelInformer
      (* "Already have a namespace label informer added." *)
  | ErrInformersSetUp
      (* "Cannot set a namespace label informer when informers have been
         setup for one or more namespaces." *)
  | ErrNodeListType
      (* "poll update unexpected type, interface is not []v1.Node" *)
  | ErrLookup (msg : string)
      (* an error of an informer index, passed on by a sub-sync *).

(** ** Go slices under in-place removal

    A removal loop [for j, x := range s { if p(x) { s = remove(s, j) } }]
    ranges over the slice as it was when the loop began, reading element [j]
    of the shared backing array at iteration [j], while the body shifts the
    tail of the current slice one place to the left and shortens it.  The
    state of such a loop is the backing array [arr] (of the initial length)
    and the current length [len]. *)

(** Remove position [j] of the current slice.  [zero] is the value written
    to the vacated last position ([copy] followed by [s[len(s)-1] = zero]), or
    [None] when that position is left as it was
    ([append(s[:j], s[j+1:]...)]).  The slice expression [s[j+1:]] panics
    when [j+1 > len(s)]. *)
Definition sliceRemoveAt {A} (zero : option A) (j : nat)
    (arr : list A) (len : nat) : option (list A * nat) :=
  if decide (j + 1 ≤ len)%nat then
    let vacated :=
      match zero with
      | Some z => [z]
      | None => take 1 (drop (len - 1) arr)
      end in
    Some (take j arr ++ drop (j + 1) (take len arr) ++ vacated ++ drop len arr,
          (len - 1)%nat)
  else None.

Fixpoint sliceRemoveLoop {A} (zero : option A) (p : A → option bool)
    (js : list nat) (arr : list A) (len : nat) : option (list A * nat) :=
  match js with
  | [] => Some (arr, len)
  | j :: js' =>
      x ← arr !! j;
      b ← p x;
      if b : bool then
        '(arr', len') ← sliceRemoveAt zero j arr len;
        sliceRemoveLoop zero p js' arr' len'
      else sliceRemoveLoop zero p js' arr len
  end.

(** The whole loop, from the slice [s] to the slice it leaves. *)
Definition sliceRemoveAll {A} (zero : option A) (p : A → option bool)
    (s : list A) : option (list A) :=
  '(arr, len) ← sliceRemoveLoop zero p (seq 0 (length s)) s (length s);
  Some (take len arr).

(** ** The resource store

    The type [Resources] and its methods [Get], [Assign], [Delete],
    [ForEach] and [GetAllWithName] are declared outside appManager.go.  The
    spec describes the store as a guarded mapping
    (serviceKey → resourceName → ResourceConfig) with reverse lookup by
    resource name; the values are pointers.  The store is the finite map
    from (serviceKey, resourceName) to the location of the config; the order
    in which [ForEach] and [GetAllWithName] enumerate it is the order of
    [map_to_list]. *)

(** [*rsCfg]: reading and writing the object a pointer refers to.  Go
    pointers are nil or valid; a location missing from the heap stands for
    a nil pointer. *)
Definition deref (l : loc) : M ResourceConfig.t :=
  λ m, match heap m !! l with Some c => Some (c, m) | None => None end.

Definition store (l : loc) (c : ResourceConfig.t) : M unit :=
  modify (λ m, set_heap (<[l := c]> (heap m)) m).

(** Modelled from the spec: [Resources.Get], the config stored under a key
    and resource name, if any. *)
Definition Resources_Get (key : serviceKey.t) (name : string)
    : M (option loc) :=
  λ m, Some (resources m !! (key, name), m).

(** Modelled from the spec: [Resources.Assign], which stores the pointer
    under the key and resource name. *)
Definition Resources_Assign (key : serviceKey.t) (name : string) (cfg : loc)
    : M unit :=
  modify (λ m, set_resources (<[(key, name) := cfg]> (resources m)) m).

(** Modelled from the spec: [Resources.Delete], which removes the entry and
    tells whether there was one.  ([Delete] with an empty name, which only
    [syncNamespace] uses, is not modelled.) *)
Definition Resources_Delete (key : serviceKey.t) (name : string) : M bool :=
  λ m, match resources m !! (key, name) with
       | Some _ => Some (true, set_resources (delete (key, name) (resources m)) m)
       | None => Some (false, m)
       end.

(** Modelled from the spec: the entries that [Resources.ForEach] visits. *)
Definition Resources_entries (m : Manager) : list (serviceKey.t * string * loc) :=
  map_to_list (resources m).

(** Modelled from the spec: [Resources.GetAllWithName], the configs stored
    under a resource name, with their keys. *)
Definition Resources_GetAllWithName (name : string)
    : M (list (loc * serviceKey.t)) :=
  λ m, Some (omap (λ e : serviceKey.t * string * loc,
                     if decide (e.1.2 = name) then Some (e.2, e.1.1) else None)
                  (Resources_entries m), m).

(** ** Config emission *)

(** Modelled from the spec: [outputConfigLocked], declared outside
    appManager.go.  The emitter serializes the stores into one document and
    hands it to the writer; the model counts the documents handed over.
    Whatever else the emitter does to the manager is not modelled. *)
Definition outputConfigLocked : M unit :=
  modify (λ m, set_written (S (written m)) m).

(** Modelled from the spec: [outputConfig], the emitter called without the
    resources lock held. *)
Definition outputConfig : M unit := outputConfigLocked.

(** ** TLS profiles *)

Definition handleSslProfile (rsCfg : loc) (secret : Secret.t)
    (namespace : string) : M (option error * bool) :=
  match Secret.Data secret !! "tls.crt" with
  | None => mret (Some (ErrSecretField (Secret.Name secret) "tls.crt"), false)
  | Some crt =>
  match Secret.Data secret !! "tls.key" with
  | None => mret (Some (ErrSecretField (Secret.Name secret) "tls.key"), false)
  | Some key =>
      c ← deref rsCfg;
      let cp :=
        CustomProfile.mk (Secret.Name secret)
          (Virtual.Partition (ResourceConfig.Virtual c))
          customProfileClient crt key "" in
      let skey :=
        secretKey.mk (CustomProfile.Name cp) namespace
          (Virtual.VirtualServerName (ResourceConfig.Virtual c)) in
      m ← get;
      match customProfiles m !! skey with
      | Some prof =>
          if decide (prof ≠ cp) then
            modify (λ m, set_customProfiles (<[skey := cp]> (customProfiles m)) m);;
            mret (None, true)
          else mret (None, false)
      | None =>
          modify (λ m, set_customProfiles (<[skey := cp]> (customProfiles m)) m);;
          mret (None, false)
      end
  end
  end.

Definition addIRule (name partition rule : string) : M unit :=
  modify (λ m, set_irulesMap
                 (<[nameRef.mk name partition := rule]> (irulesMap m)) m).

(** [rsCfg.Virtual.<method>(...)] for a method that updates the virtual. *)
Definition updateVirtual (rsCfg : loc) (f : Virtual.t → Virtual.t) : M unit :=
  c ← deref rsCfg;
  store rsCfg (ResourceConfig.set_Virtual (f (ResourceConfig.Virtual c)) c).

Section TLS.
Context `{VirtualOps}.

(** One iteration of the loop over [ing.Spec.TLS] on the HTTPS virtual.
    The loop-carried pair is [(cpUpdated, updateState)]. *)
Definition handleIngressTls_entry (rsCfg : loc) (ing : Ingress.t)
    (st : bool * bool) (tls : IngressTLS.t) : M (bool * bool) :=
  let '(cpUpdated, updateState) := st in
  m ← get;
  match kubeSecrets m !! (Ingress.Namespace ing, IngressTLS.SecretName tls) with
  | None =>
      let secretName :=
        formatIngressSslProfileName (IngressTLS.SecretName tls) in
      updateVirtual rsCfg (AddFrontendSslProfileName secretName);;
      mret (cpUpdated, updateState)
  | Some secret =>
      '(err, cpUpdated) ← handleSslProfile rsCfg secret (Ingress.Namespace ing);
      match err with
      | Some _ => mret (cpUpdated, updateState)
      | None =>
          let updateState := updateState || cpUpdated in
          c ← deref rsCfg;
          let secretName :=
            formatIngressSslProfileName
              (Virtual.Partition (ResourceConfig.Virtual c) +:+ "/"
                 +:+ IngressTLS.SecretName tls) in
          updateVirtual rsCfg (AddFrontendSslProfileName secretName);;
          mret (cpUpdated, updateState)
      end
  end.

(** Return value is whether or not a custom profile was updated.  (The
    policy block at the end of the Go function is guarded by
    [nil != rule], and [rule] is never assigned: it does nothing.) *)
Definition handleIngressTls (rsCfg : loc) (ing : Ingress.t) : M bool :=
  if decide (length (Ingress.TLS ing) = 0%nat) then mret false
  else
    c ← deref rsCfg;
    match Virtual.VirtualAddress (ResourceConfig.Virtual c) with
    | None => mret false
    | Some va =>
        if decide (virtualAddress.BindAddr va = "") then mret false
        else
          let httpsPort :=
            portAnnotation (Ingress.Annotations ing) httpsPortAnnotation
              DEFAULT_HTTPS_PORT in
          if decide (virtualAddress.Port va = httpsPort) then
            '(cpUpdated, updateState) ←
              foldM (Ingress.TLS ing) (handleIngressTls_entry rsCfg ing)
                (false, false);
            mret cpUpdated
          else
            let sslRedirect :=
              getBooleanAnnotation (Ingress.Annotations ing)
                ingressSslRedirect true in
            (if sslRedirect then
               let ruleName :=
                 "/" +:+ DEFAULT_PARTITION +:+ "/" +:+ httpRedirectIRuleName in
               ruleName ←
                 (if decide (httpsPort ≠ DEFAULT_HTTPS_PORT) then
                    let ruleName := ruleName +:+ "_" +:+ pretty httpsPort in
                    addIRule ruleName DEFAULT_PARTITION
                      (httpRedirectIRule httpsPort);;
                    mret ruleName
                  else mret ruleName);
               updateVirtual rsCfg (AddIRule ruleName)
             else mret tt);;
            mret false
    end.

(** The caller's use of the result in [syncIngresses]:
    [updated := handleIngressTls(rsCfg, ing); if updated { stats.cpUpdated += 1 }]. *)
Definition syncIngresses_tls (stats : vsSyncStats.t) (rsCfg : loc)
    (ing : Ingress.t) : M vsSyncStats.t :=
  updated ← handleIngressTls rsCfg ing;
  mret (if updated : bool then vsSyncStats.add_cpUpdated 1 stats else stats).

Definition defaultCertProfileName : string :=
  "openshift_route_cluster_default-server-ssl".
Definition defaultCertPath : string :=
  "/var/run/secrets/kubernetes.io/serviceaccount/service-ca.crt".

(** [ioutil.ReadFile(path)]; the reads are counted. *)
Definition ReadFile (path : string) : M (option string) :=
  λ m, Some (files m !! path, set_caReads (S (caReads m)) m).

Definition loadDefaultCert (namespace : string)
    : M (option ProfileRef.t * bool) :=
  let profileName := defaultCertProfileName in
  let profile :=
    ProfileRef.mk profileName DEFAULT_PARTITION customProfileServer in
  let skey := secretKey.mk profileName namespace "" in
  m ← get;
  let found := bool_decide (is_Some (customProfiles m !! skey)) in
  if negb found then
    let path := defaultCertPath in
    data ← ReadFile path;
    match data with
    | None => mret (None, false)
    | Some data =>
        modify (λ m, set_customProfiles
                       (<[skey := NewCustomProfile profile data]>
                          (customProfiles m)) m);;
        mret (Some profile, negb found)
    end
  else mret (Some profile, negb found).

(** [route.Spec.TLS] is dereferenced without a check: the caller only
    calls this for routes with a TLS section. *)
Definition setServerSslProfile (stats : vsSyncStats.t)
    (sKey : serviceQueueKey.t) (rsCfg : loc) (route : Route.t)
    : M vsSyncStats.t :=
  tls ← lift (Route.TLS route);
  if decide (TLSConfig.DestinationCACertificate tls ≠ "") then
    c ← deref rsCfg;
    let ruleName := formatRouteRuleName route in
    let profile :=
      ProfileRef.mk (ruleName +:+ "-server-ssl")
        (Virtual.Partition (ResourceConfig.Virtual c)) customProfileServer in
    let cp := NewCustomProfile profile (TLSConfig.DestinationCACertificate tls) in
    let skey :=
      secretKey.mk (CustomProfile.Name cp) (serviceQueueKey.Namespace sKey)
        (Virtual.VirtualServerName (ResourceConfig.Virtual c)) in
    m ← get;
    let stats :=
      match customProfiles m !! skey with
      | Some prof =>
          if decide (prof ≠ cp) then vsSyncStats.add_cpUpdated 1 stats
          else stats
      | None => stats
      end in
    modify (λ m, set_customProfiles (<[skey := cp]> (customProfiles m)) m);;
    updateVirtual rsCfg (AddOrUpdateProfile profile);;
    mret stats
  else
    '(profile, added) ← loadDefaultCert (serviceQueueKey.Namespace sKey);
    match profile with
    | Some profile => updateVirtual rsCfg (AddOrUpdateProfile profile)
    | None => mret tt
    end;;
    mret (if added : bool then vsSyncStats.add_cpUpdated 1 stats else stats).

(** Whether some stored config keeps the profile under [key] alive:
    the body of the [ForEach] in [deleteUnusedProfiles]. *)
Definition profileReferenced (m : Manager) (namespace : string)
    (key : secretKey.t) (profile : CustomProfile.t) : bool :=
  existsb
    (λ e : serviceKey.t * string * loc,
       match heap m !! e.2 with
       | Some rsCfg =>
           bool_decide
             (secretKey.ResourceName key
                = Virtual.VirtualServerName (ResourceConfig.Virtual rsCfg))
           && bool_decide (secretKey.Namespace key = namespace)
           && ReferencesProfile (ResourceConfig.Virtual rsCfg) profile
       | None => false
       end)
    (Resources_entries m).

Definition deleteUnusedProfiles (namespace : string) : M unit :=
  modify (λ m,
    set_customProfiles
      (filter (λ kp : secretKey.t * CustomProfile.t,
                 profileReferenced m namespace kp.1 kp.2 = true)
              (customProfiles m)) m).

End TLS.

(** ** Go standard library: strings *)

Module strings.
Definition HasSuffix (s suffix : string) : bool :=
  bool_decide (String.length suffix ≤ String.length s)%nat
  && bool_decide
       (String.substring (String.length s - String.length suffix)
          (String.length suffix) s = suffix).

(** [strings.Split(s, "_")[0]] *)
Fixpoint SplitUnderscoreFirst (s : string) : string :=
  match s with
  | EmptyString => EmptyString
  | String c rest =>
      if bool_decide (c = "_"%char) then EmptyString
      else String c (SplitUnderscoreFirst rest)
  end.

(** The slice expression [s[lo:hi]]; [None] is the out-of-range panic. *)
Definition slice (s : string) (lo hi : Z) : option string :=
  if decide (0 ≤ lo ∧ lo ≤ hi ∧ hi ≤ Z.of_nat (String.length s)) then
    Some (String.substring (Z.to_nat lo) (Z.to_nat (hi - lo)) s)
  else None.
End strings.

(** ** Events *)

Definition recordEvent (ing : Ingress.t) (reason : string) : M unit :=
  modify (λ m, set_events
                 (events m ++ [Event.mk (Ingress.Namespace ing)
                                 (Ingress.Name ing) reason]) m).

(** This function expects either an Ingress resource or the name of a VS
    for an Ingress. *)
Definition recordIngressEvent (ing : option Ingress.t)
    (reason rsName : string) : M unit :=
  match ing with
  | Some ing => recordEvent ing reason
  | None =>
      let namespace := strings.SplitUnderscoreFirst rsName in
      name ← lift (strings.slice rsName
                     (Z.of_nat (String.length namespace) + 1)
                     (Z.of_nat (String.length rsName)
                        - Z.of_nat (String.length "-ingress")));
      m ← get;
      match kubeIngresses m !! (namespace, name) with
      | None => mret tt
      | Some ing => recordEvent ing reason
      end
  end.

(** ** Pool members *)

Definition getEndpointsForService (portName : string)
    (eps : option Endpoints.t) : list Member.t :=
  match eps with
  | None => []
  | Some eps =>
      flat_map
        (λ subset,
           flat_map
             (λ p,
                if decide (portName = EndpointPort.Name p) then
                  map (λ addr, Member.mk addr (EndpointPort.Port p)
                                 "user-enabled")
                      (EndpointSubset.Addresses subset)
                else [])
             (EndpointSubset.Ports subset))
        (Endpoints.Subsets eps)
  end.

(** Return a copy of the node cache. *)
Definition getNodesFromCache : M (list string) :=
  m ← get; mret (default [] (oldNodes m)).

Definition getEndpointsForNodePort (nodePort : Z) : M (list Member.t) :=
  nodes ← getNodesFromCache;
  mret (map (λ v, Member.mk v nodePort "user-enabled") nodes).

(** [rsCfg.Pools[index].Members = ms] *)
Definition setPoolMembers (rsCfg : loc) (index : nat) (ms : list Member.t)
    : M unit :=
  c ← deref rsCfg;
  c' ← lift (ResourceConfig.set_PoolMembers index ms c);
  store rsCfg c'.

Definition updatePoolMembersForNodePort (svc : Service.t)
    (svcKey : serviceKey.t) (rsCfg : loc) (index : nat)
    : M (bool * string) :=
  if decide (Service.Type_ svc = ServiceTypeNodePort) then
    forEach (Service.Ports svc) (λ portSpec,
      if decide (ServicePort.Port portSpec = serviceKey.ServicePort svcKey)
      then
        c ← deref rsCfg;
        store rsCfg
          (ResourceConfig.set_NodePort (ServicePort.NodePort portSpec)
             (ResourceConfig.set_Active true c));;
        ms ← getEndpointsForNodePort (ServicePort.NodePort portSpec);
        setPoolMembers rsCfg index ms
      else mret tt);;
    mret (true, "")
  else mret (false, "IncorrectBackendServiceType").

Definition updatePoolMembersForCluster (svc : Service.t)
    (sKey : serviceKey.t) (rsCfg : loc) (appInf : appInformer.t)
    (index : nat) : M (bool * string) :=
  let svcKey :=
    serviceKey.Namespace sKey +:+ "/" +:+ serviceKey.ServiceName sKey in
  match appInformer.endptInformer appInf !! svcKey with
  | None => mret (false, "EndpointsNotFound")
  | Some eps =>
      forEach (Service.Ports svc) (λ portSpec,
        if decide (ServicePort.Port portSpec = serviceKey.ServicePort sKey)
        then
          let ipPorts :=
            getEndpointsForService (ServicePort.Name portSpec) (Some eps) in
          c ← deref rsCfg;
          store rsCfg (ResourceConfig.set_Active true c);;
          setPoolMembers rsCfg index ipPorts
        else mret tt);;
      mret (true, "")
  end.

Definition deactivateVirtualServer (sKey : serviceKey.t) (rsName : string)
    (rsCfg : loc) (index : nat) : M bool :=
  rs ← Resources_Get sKey rsName;
  updateConfig ←
    match rs with
    | Some rs =>
        c ← deref rsCfg;
        store rsCfg (ResourceConfig.set_Active false c);;
        setPoolMembers rsCfg index [];;
        (* reflect.DeepEqual(rs, rsCfg) compares what the pointers point to *)
        old ← deref rs;
        new ← deref rsCfg;
        mret (bool_decide (old ≠ new))
    | None =>
        (* We have a config map but not a server. *)
        mret true
    end;
  (if updateConfig : bool then Resources_Assign sKey rsName rsCfg
   else mret tt);;
  mret updateConfig.

Definition saveVirtualServer (sKey : serviceKey.t) (rsName : string)
    (newRsCfg : loc) : M bool :=
  oldRsCfg ← Resources_Get sKey rsName;
  unchanged ←
    match oldRsCfg with
    | Some oldRsCfg =>
        old ← deref oldRsCfg;
        new ← deref newRsCfg;
        mret (bool_decide (old = new))
    | None => mret false
    end;
  if unchanged : bool then mret false
  else Resources_Assign sKey rsName newRsCfg;; mret true.

(** ** handleConfigForType *)

(** The search for the pool of the queued service:
    [for i, pl := range rsCfg.Pools { if pl.ServiceName == ... { break } }]. *)
Definition findPool (svcName : string) (pools : list Pool.t)
    : option (nat * Pool.t) :=
  list_find (λ pl, Pool.ServiceName pl = svcName) pools.

(** The loop that removes the pools of a service from one stored config. *)
Definition removePools (svcName : string) (pools : list Pool.t)
    : option (list Pool.t) :=
  sliceRemoveAll (Some Pool.zero)
    (λ pool, Some (bool_decide (Pool.ServiceName pool = svcName))) pools.

(** "Match, remove from rsMap so we don't delete it at the end." *)
Definition consumeResourceMap (h : gmap loc ResourceConfig.t)
    (rsMap : ResourceMap) (port : Z) (rsName currRouteSvc svcName : string)
    : option ResourceMap :=
  let cfgList := default [] (rsMap !! port) in
  if decide (currRouteSvc = "" ∨ currRouteSvc = svcName) then
    if decide (length cfgList = 1)%nat then Some (delete port rsMap)
    else if decide (1 < length cfgList)%nat then
      cfgList' ←
        sliceRemoveAll None
          (λ val : loc,
             c ← h !! val;
             Some (bool_decide
                     (Virtual.VirtualServerName (ResourceConfig.Virtual c)
                        = rsName)))
          cfgList;
      Some (<[port := cfgList']> rsMap)
    else Some rsMap
  else Some rsMap.

(** Common handling function for ConfigMaps, Ingresses, and Routes.
    The result is [(ok, vsFound, vsUpdated)] together with [rsMap], which the
    Go code updates in place. *)
Definition handleConfigForType (rsCfg : loc) (sKey : serviceQueueKey.t)
    (rsMap : ResourceMap) (rsName : string) (svcPortMap : gset Z)
    (svc : option Service.t) (appInf : appInformer.t)
    (currRouteSvc : string) : M (bool * Z * Z * ResourceMap) :=
  let vsFound := 0 in
  let vsUpdated := 0 in
  c ← deref rsCfg;
  match findPool (serviceQueueKey.ServiceName sKey) (ResourceConfig.Pools c) with
  | None =>
      (* If the current cfg has no pool for this service, remove any pools
         associated with the service, across all stored keys for the
         resource *)
      cfgs ← Resources_GetAllWithName rsName;
      forEach cfgs (λ '(cfg, key),
        sc ← deref cfg;
        pools ← lift (removePools (serviceQueueKey.ServiceName sKey)
                        (ResourceConfig.Pools sc));
        store cfg (ResourceConfig.set_Pools pools sc);;
        Resources_Assign key rsName cfg);;
      mret (false, vsFound, vsUpdated, rsMap)
  | Some (plIdx, pool) =>
      let svcKey :=
        serviceKey.mk (Pool.ServiceName pool) (Pool.ServicePort pool)
          (serviceQueueKey.Namespace sKey) in
      m ← get;
      rsMap ← lift (consumeResourceMap (heap m) rsMap (Pool.ServicePort pool)
                      rsName currRouteSvc (serviceQueueKey.ServiceName sKey));
      vsUpdated ←
        (if decide (Pool.ServicePort pool ∉ svcPortMap) then
           b ← deactivateVirtualServer svcKey rsName rsCfg plIdx;
           mret (if b : bool then vsUpdated + 1 else vsUpdated)
         else mret vsUpdated);
      match svc with
      | None =>
          (* The service is gone, de-activate it in the config. *)
          b ← deactivateVirtualServer svcKey rsName rsCfg plIdx;
          let vsUpdated := if b : bool then vsUpdated + 1 else vsUpdated in
          (if strings.HasSuffix rsName "ingress" then
             recordIngressEvent None "ServiceNotFound" rsName
           else mret tt);;
          mret (false, vsFound, vsUpdated, rsMap)
      | Some svc =>
          (* Update pool members. *)
          let vsFound := vsFound + 1 in
          m ← get;
          '(correctBackend, reason) ←
            (if isNodePort m
             then updatePoolMembersForNodePort svc svcKey rsCfg plIdx
             else updatePoolMembersForCluster svc svcKey rsCfg appInf plIdx);
          (* This will only update the config if the vs actually changed. *)
          saved ← saveVirtualServer svcKey rsName rsCfg;
          if saved : bool then
            c ← deref rsCfg;
            (if negb correctBackend
                && strings.HasSuffix
                     (Virtual.VirtualServerName (ResourceConfig.Virtual c))
                     "ingress"
             then recordIngressEvent None reason
                    (Virtual.VirtualServerName (ResourceConfig.Virtual c))
             else mret tt);;
            mret (true, vsFound, vsUpdated + 1, rsMap)
          else mret (true, vsFound, vsUpdated, rsMap)
      end
  end.

(** ** The call sites of handleConfigForType in the three sub-syncs

    Each definition is the block of the loop body that calls
    [handleConfigForType] and accounts its results in [stats]; the [bool] of
    the result is [false] when the block ends in [continue]. *)





(** ** syncVirtualServer *)

(** rsMap stores all resources currently in Resources matching sKey,
    indexed by port. *)
Definition getResourcesForKey (sKey : serviceQueueKey.t) : M ResourceMap :=
  m ← get;
  mret (foldl
          (λ (rsMap : ResourceMap) (e : serviceKey.t * string * loc),
             let key := e.1.1 in
             if decide (serviceKey.Namespace key = serviceQueueKey.Namespace sKey
                        ∧ serviceKey.ServiceName key
                            = serviceQueueKey.ServiceName sKey)
             then <[serviceKey.ServicePort key :=
                      default [] (rsMap !! serviceKey.ServicePort key) ++ [e.2]]>
                    rsMap
             else rsMap)
          ∅ (Resources_entries m)).

Definition deleteUnusedResources (sKey : serviceQueueKey.t)
    (rsMap : ResourceMap) : M Z :=
  foldM (map_to_list rsMap)
    (λ rsDeleted '(port, cfgList),
       let tmpKey :=
         serviceKey.mk (serviceQueueKey.ServiceName sKey) port
           (serviceQueueKey.Namespace sKey) in
       foldM cfgList
         (λ rsDeleted cfg,
            c ← deref cfg;
            let rsName := Virtual.VirtualServerName (ResourceConfig.Virtual c) in
            deleted ← Resources_Delete tmpKey rsName;
            mret (if deleted : bool then rsDeleted + 1 else rsDeleted))
         rsDeleted)
    0.

(** The decision at the end of [syncVirtualServer]: whether the
    configuration is written. *)
Definition syncVirtualServer_output (stats : vsSyncStats.t) : M unit :=
  if decide (0 < vsSyncStats.vsUpdated stats ∨ 0 < vsSyncStats.vsDeleted stats
             ∨ 0 < vsSyncStats.cpUpdated stats
             ∨ 0 < vsSyncStats.dgUpdated stats)
  then outputConfig
  else
    m ← get;
    if decide (length (vsQueue m) = 0%nat ∧ length (nsQueue m) = 0%nat) then
      if negb (initialState m) then outputConfigLocked else mret tt
    else mret tt.

Definition watchingAllNamespacesLocked : M bool :=
  m ← get;
  if decide (size (appInformers m) = 0%nat) then
    (* Not watching any namespaces. *)
    mret false
  else mret (bool_decide (is_Some (appInformers m !! ""))).

Definition getNamespaceInformerLocked (ns : string)
    : M (option appInformer.t) :=
  watchingAll ← watchingAllNamespacesLocked;
  let toFind := if watchingAll : bool then "" else ns in
  m ← get;
  mret (appInformers m !! toFind).

Definition getNamespaceInformer (ns : string) : M (option appInformer.t) :=
  getNamespaceInformerLocked ns.

(** The three sub-syncs and [deleteUnusedRoutes] are defined in
    appManager.go over parsing, policy and data-group code that lives
    outside it; [syncVirtualServer] is modelled over any functions of their
    type. *)
Class SubSyncs := {
  syncConfigMaps :
    vsSyncStats.t → serviceQueueKey.t → ResourceMap → gset Z →
    option Service.t → appInformer.t →
    M (option error * vsSyncStats.t * ResourceMap);
  syncIngresses :
    vsSyncStats.t → serviceQueueKey.t → ResourceMap → gset Z →
    option Service.t → appInformer.t →
    M (option error * vsSyncStats.t * ResourceMap);
  syncRoutes :
    vsSyncStats.t → serviceQueueKey.t → ResourceMap → gset Z →
    option Service.t → appInformer.t →
    M (option error * vsSyncStats.t * ResourceMap);
  deleteUnusedRoutes : string → M unit;
}.

(** The outcome of the first part of [syncVirtualServer]: an early return
    with its result, or the statistics of the completed sub-syncs. *)
Inductive syncProgress :=
  | Returned (err : option error)
  | Synced (stats : vsSyncStats.t).

(** [syncVirtualServer] up to and including [deleteUnusedProfiles]: the
    lookups, the three sub-syncs and the garbage collection. *)
Definition syncVirtualServer_collect `{VirtualOps} `{SubSyncs}
    (sKey : serviceQueueKey.t) : M syncProgress :=
  appInf ← getNamespaceInformer (serviceQueueKey.Namespace sKey);
  match appInf with
  | None => mret (Returned None)
  | Some appInf =>
      (* Lookup the service *)
      let svcKey :=
        serviceQueueKey.Namespace sKey +:+ "/"
          +:+ serviceQueueKey.ServiceName sKey in
      let svc := appInformer.svcInformer appInf !! svcKey in
      let svcPortMap : gset Z :=
        match svc with
        | Some svc => list_to_set (ServicePort.Port <$> Service.Ports svc)
        | None => ∅
        end in
      rsMap ← getResourcesForKey sKey;
      let stats := vsSyncStats.zero in
      '(err, stats, rsMap) ←
        syncConfigMaps stats sKey rsMap svcPortMap svc appInf;
      match err with
      | Some e => mret (Returned (Some e))
      | None =>
      '(err, stats, rsMap) ←
        syncIngresses stats sKey rsMap svcPortMap svc appInf;
      match err with
      | Some e => mret (Returned (Some e))
      | None =>
      '(err, stats, rsMap) ←
        (if appInformer.routeInformer appInf
         then syncRoutes stats sKey rsMap svcPortMap svc appInf
         else mret (None, stats, rsMap));
      match err with
      | Some e => mret (Returned (Some e))
      | None =>
          stats ←
            (if decide (0 < size rsMap)%nat then
               n ← deleteUnusedResources sKey rsMap;
               deleteUnusedRoutes (serviceQueueKey.Namespace sKey);;
               mret (vsSyncStats.set_vsDeleted n stats)
             else mret stats);
          (* delete any custom profiles that are no longer referenced *)
          deleteUnusedProfiles (serviceQueueKey.Namespace sKey);;
          mret (Synced stats)
      end end end
  end.

Definition syncVirtualServer `{VirtualOps} `{SubSyncs}
    (sKey : serviceQueueKey.t) : M (option error) :=
  progress ← syncVirtualServer_collect sKey;
  match progress with
  | Returned err => mret err
  | Synced stats => syncVirtualServer_output stats;; mret None
  end.

(** ** Namespaces *)

Definition newAppInformer (namespace cfgMapSelector : string)
    (resyncPeriod : Z) : M appInformer.t :=
  m ← get;
  mret (appInformer.mk namespace cfgMapSelector resyncPeriod ∅ ∅
          (routeClientV1 m)).

Definition addNamespaceLocked (namespace cfgMapSelector : string)
    (resyncPeriod : Z) : M (option appInformer.t * option error) :=
  watchingAll ← watchingAllNamespacesLocked;
  if watchingAll : bool then mret (None, Some ErrWatchingAll)
  else
    m ← get;
    if decide (0 < size (appInformers m) ∧ "" = namespace)%nat then
      mret (None, Some ErrWatchingSpecific)
    else
      match appInformers m !! namespace with
      | Some appInf => mret (Some appInf, None)
      | None =>
          appInf ← newAppInformer namespace cfgMapSelector resyncPeriod;
          modify (λ m, set_appInformers
                         (<[namespace := appInf]> (appInformers m)) m);;
          mret (Some appInf, None)
      end.

Definition AddNamespace (namespace cfgMapSelector : string)
    (resyncPeriod : Z) : M (option error) :=
  '(_, err) ← addNamespaceLocked namespace cfgMapSelector resyncPeriod;
  mret err.

Definition AddNamespaceLabelInformer (labelSelector : string)
    (resyncPeriod : Z) : M (option error) :=
  m ← get;
  if decide (is_Some (nsInformer m)) then mret (Some ErrHaveLabelInformer)
  else if decide (0%nat ≠ size (appInformers m)) then
    mret (Some ErrInformersSetUp)
  else
    modify (set_nsInformer (Some (nsInformer.mk labelSelector resyncPeriod)));;
    mret None.

(** ** Node updates *)

(** [sort.Strings]: ascending byte-wise order. *)
Fixpoint sortInsert (x : string) (l : list string) : list string :=
  match l with
  | [] => [x]
  | y :: l' => if String.leb x y then x :: l else y :: sortInsert x l'
  end.
Definition sortStrings (l : list string) : list string :=
  foldr sortInsert [] l.

(** The loop of [getNodeAddresses]: the addresses of type [addrType] of the
    nodes that are not unschedulable. *)
Definition schedulableAddresses (addrType : NodeAddressType)
    (nodes : list Node.t) : list string :=
  flat_map
    (λ node,
       if Node.Unschedulable node then []
       else
         flat_map
           (λ addr,
              if decide (NodeAddress.Type_ addr = addrType)
              then [NodeAddress.Address addr] else [])
           (Node.Addresses node))
    nodes.

(** Get a list of Node addresses.  [obj] is [None] when the dynamic type of
    the argument is not [[]v1.Node]. *)
Definition getNodeAddresses (obj : option (list Node.t))
    : M (list string + error) :=
  match obj with
  | None => mret (inr ErrNodeListType)
  | Some nodes =>
      m ← get;
      let addrType :=
        if useNodeInternal m then NodeInternalIP else NodeExternalIP in
      mret (inl (schedulableAddresses addrType nodes))
  end.

(** The members written to pool 0 of a config by a node update. *)
Definition nodeMembers (newNodes : list string) (nodePort : Z)
    : list Member.t :=
  map (λ node, Member.mk node nodePort "user-enabled") newNodes.

(** Check for a change in Node state. *)
Definition ProcessNodeUpdate (obj : option (list Node.t))
    (err : option error) : M unit :=
  match err with
  | Some _ => mret tt
  | None =>
      r ← getNodeAddresses obj;
      match r with
      | inr _ => mret tt
      | inl newNodes =>
          let newNodes := sortStrings newNodes in
          m ← get;
          (* Only check for updates once we are in our initial state *)
          if initialState m then
            (* Compare last set of nodes with new one *)
            if decide (Some newNodes ≠ oldNodes m) then
              forEach (Resources_entries m) (λ e,
                let cfg := e.2 in
                c ← deref cfg;
                setPoolMembers cfg 0
                  (nodeMembers newNodes
                     (MetaData.NodePort (ResourceConfig.MetaData c))));;
              (* Output the Big-IP config *)
              outputConfigLocked;;
              (* Update node cache *)
              modify (set_oldNodes (Some newNodes))
            else mret tt
          else
            (* Initialize appMgr nodes on our first pass through *)
            modify (set_oldNodes (Some newNodes))
      end
  end.

(** ** Construction and sample data

    [NewManager] over the parameters that matter to the modelled code; the
    stores start empty, no namespace is watched and nothing has been written
    yet.  The outside world is given by the Secrets and Ingresses the API
    server holds and by the readable files. *)
Definition NewManager (routeClient useNodeInternal isNodePort initialState : bool)
    (secrets : gmap (string * string) Secret.t)
    (ingresses : gmap (string * string) Ingress.t)
    (files : gmap string string) : Manager :=
  mkManager ∅ ∅ ∅ ∅ routeClient initialState useNodeInternal isNodePort
    None [] ∅ [] None secrets ingresses files [] 0 0.

Definition set_vsQueue (q : list serviceQueueKey.t) (m : Manager) : Manager :=
  mkManager (heap m) (resources m) (customProfiles m) (irulesMap m)
    (routeClientV1 m) (initialState m) (useNodeInternal m) (isNodePort m)
    (oldNodes m) q (appInformers m) (nsQueue m) (nsInformer m)
    (kubeSecrets m) (kubeIngresses m) (files m) (events m)
    (written m) (caReads m).

(** A sample implementation of the helper interface, used to run the model
    on concrete inputs. *)
Definition sampleOps : VirtualOps := {|
  formatIngressSslProfileName := λ s, s;
  AddFrontendSslProfileName := λ n v,
    Virtual.mk (Virtual.VirtualServerName v) (Virtual.Partition v)
      (Virtual.VirtualAddress v) (Virtual.IApp v)
      (if decide (n ∈ Virtual.FrontendSslProfileNames v)
       then Virtual.FrontendSslProfileNames v
       else Virtual.FrontendSslProfileNames v ++ [n])
      (Virtual.Profiles v) (Virtual.IRules v);
  AddOrUpdateProfile := λ p v,
    Virtual.mk (Virtual.VirtualServerName v) (Virtual.Partition v)
      (Virtual.VirtualAddress v) (Virtual.IApp v)
      (Virtual.FrontendSslProfileNames v)
      (filter (λ q, ProfileRef.Name q ≠ ProfileRef.Name p
                    ∨ ProfileRef.Partition q ≠ ProfileRef.Partition p)
              (Virtual.Profiles v) ++ [p])
      (Virtual.IRules v);
  ReferencesProfile := λ v cp,
    bool_decide
      (ProfileRef.mk (CustomProfile.Name cp) (CustomProfile.Partition cp)
         (CustomProfile.Context cp) ∈ Virtual.Profiles v
       ∨ CustomProfile.Partition cp +:+ "/" +:+ CustomProfile.Name cp
           ∈ Virtual.FrontendSslProfileNames v);
  AddIRule := λ r v,
    Virtual.mk (Virtual.VirtualServerName v) (Virtual.Partition v)
      (Virtual.VirtualAddress v) (Virtual.IApp v)
      (Virtual.FrontendSslProfileNames v) (Virtual.Profiles v)
      (Virtual.IRules v ++ [r]);
  httpRedirectIRuleName := "http_redirect_irule";
  httpRedirectIRule := λ port, "redirect to " +:+ pretty port;
  formatRouteRuleName := λ r,
    "openshift_route_" +:+ Route.Namespace r +:+ "_" +:+ Route.Name r;
|}.

Definition sampleTlsIngress (annotations : gmap string string)
    (secretNames : list string) : Ingress.t :=
  Ingress.mk "ns1" "ing" annotations (IngressTLS.mk <$> secretNames).

Definition sampleVirtual (name : string) (port : Z) : Virtual.t :=
  Virtual.mk name "velcro" (Some (virtualAddress.mk "10.0.0.1" port)) ""
    [] [] [].

Definition sampleConfig (resourceType name : string) (port : Z)
    (pools : list Pool.t) : ResourceConfig.t :=
  ResourceConfig.mk (MetaData.mk false 0 resourceType)
    (sampleVirtual name port) pools [] [].

Definition samplePool (svc : string) (port : Z) (members : list Member.t)
    : Pool.t :=
  Pool.mk (svc +:+ "_" +:+ pretty port) svc port members.

(** A manager over the given objects and store entries. *)
Definition withStore (objects : list (loc * ResourceConfig.t))
    (entries : list (serviceKey.t * string * loc)) (m : Manager) : Manager :=
  set_resources (list_to_map entries) (set_heap (list_to_map objects) m).

Definition sampleSecret (name crt key : string) : Secret.t :=
  Secret.mk name (<["tls.crt" := crt]> (<["tls.key" := key]> ∅)).

(** A manager holding one HTTPS ingress candidate at location 1 and the
    profile of secret1 from an earlier certificate. *)
Definition tlsManager : Manager :=
  set_customProfiles
    {[ secretKey.mk "secret1" "ns1" "ns1_ing-ingress_443" :=
         CustomProfile.mk "secret1" "velcro" customProfileClient
           "old-cert" "key1" "" ]}
    (withStore
       [(1%positive,
         sampleConfig "ingress" "ns1_ing-ingress_443" 443
           [samplePool "svcA" 80 []])]
       []
       (NewManager false false true true
          (<[("ns1", "secret1") := sampleSecret "secret1" "new-cert" "key1"]>
             (<[("ns1", "secret2") := sampleSecret "secret2" "cert2" "key2"]> ∅))
          ∅ ∅)).

(** A manager watching the given namespaces. *)
Definition watching (namespaces : list string) (m : Manager) : Manager :=
  set_appInformers
    (list_to_map
       ((λ ns, (ns, appInformer.mk ns "f5type in (virtual-server)" 0 ∅ ∅ false))
          <$> namespaces)) m.

(** The condition under which the spec says the configuration is emitted:
    some counter among all five is non-zero, or both queues are empty and the
    initial-state flag is false. *)
Definition anyCounterOrIdle (stats : vsSyncStats.t) (m : Manager) : Prop :=
  (vsSyncStats.vsFound stats ≠ 0 ∨ vsSyncStats.vsUpdated stats ≠ 0
   ∨ vsSyncStats.vsDeleted stats ≠ 0 ∨ vsSyncStats.cpUpdated stats ≠ 0
   ∨ vsSyncStats.dgUpdated stats ≠ 0)
  ∨ (vsQueue m = [] ∧ nsQueue m = [] ∧ initialState m = false).

(** The condition the code tests: one of the four change counters is
    positive, or both queues are empty and the initial-state flag is false. *)
Definition changedOrIdle (stats : vsSyncStats.t) (m : Manager) : Prop :=
  (0 < vsSyncStats.vsUpdated stats ∨ 0 < vsSyncStats.vsDeleted stats
   ∨ 0 < vsSyncStats.cpUpdated stats ∨ 0 < vsSyncStats.dgUpdated stats)
  ∨ (vsQueue m = [] ∧ nsQueue m = [] ∧ initialState m = false).

(** The configuration was written exactly once between [m] and [m']. *)
Definition emitted (m m' : Manager) : Prop := written m' = S (written m).

Definition sampleInformer : appInformer.t :=
  appInformer.mk "ns1" "f5type in (virtual-server)" 0 ∅ ∅ false.

(** A multi-service Ingress virtual stored (location 2) with two pools of
    svcA and one of svcB, and a fresh candidate (location 1) parsed from the
    Ingress after its rules stopped referring to svcA. *)
Definition staleIngressManager : Manager :=
  withStore
    [(1%positive,
      sampleConfig "ingress" "ns1_ing-ingress_80" 80 [samplePool "svcB" 80 []]);
     (2%positive,
      sampleConfig "ingress" "ns1_ing-ingress_80" 80
        [samplePool "svcA" 80 []; samplePool "svcA" 8080 [];
         samplePool "svcB" 80 []])]
    [(serviceKey.mk "svcA" 80 "ns1", "ns1_ing-ingress_80", 2%positive)]
    (NewManager false false false true ∅ ∅ ∅).

(** The invariant of the spec's data model: a config that is not active has
    no members in any pool; for one config and for the whole store. *)
Definition inactiveNoMembers (c : ResourceConfig.t) : bool :=
  MetaData.Active (ResourceConfig.MetaData c)
  || forallb (λ p, bool_decide (Pool.Members p = [])) (ResourceConfig.Pools c).

Definition storeInactiveNoMembers (m : Manager) : bool :=
  forallb
    (λ e : serviceKey.t * string * loc,
       match heap m !! e.2 with
       | Some c => inactiveNoMembers c
       | None => true
       end)
    (Resources_entries m).

Definition activeRouteConfig (pools : list Pool.t) : ResourceConfig.t :=
  ResourceConfig.mk (MetaData.mk true 0 "route")
    (sampleVirtual "openshift_default_http" 80) pools [] [].

(** The shared HTTP virtual of two routes, to svcA and to svcB, stored
    (location 2) under both service keys, active, each pool with a member;
    and the candidate (location 1) built for the route to svcA from the
    stored config. *)
Definition routeManager : Manager :=
  withStore
    [(1%positive,
      activeRouteConfig
        [samplePool "svcA" 80 [Member.mk "10.2.0.1" 8080 "user-enabled"];
         samplePool "svcB" 80 [Member.mk "10.2.0.2" 8080 "user-enabled"]]);
     (2%positive,
      activeRouteConfig
        [samplePool "svcA" 80 [Member.mk "10.2.0.1" 8080 "user-enabled"];
         samplePool "svcB" 80 [Member.mk "10.2.0.2" 8080 "user-enabled"]])]
    [(serviceKey.mk "svcA" 80 "ns1", "openshift_default_http", 2%positive);
     (serviceKey.mk "svcB" 80 "ns1", "openshift_default_http", 2%positive)]
    (NewManager true false false true ∅ ∅ ∅).

(** A ConfigMap virtual parsed for the first time (location 1) while its
    service svcA does not exist. *)
Definition newConfigMapManager : Manager :=
  withStore
    [(1%positive,
      sampleConfig "configmap" "ns1_cm" 80 [samplePool "svcA" 80 []])]
    []
    (NewManager false false false true ∅ ∅ ∅).

(** What a node update does to one config. *)
Definition nodeUpdate (newNodes : list string) (c : ResourceConfig.t)
    : option ResourceConfig.t :=
  ResourceConfig.set_PoolMembers 0
    (nodeMembers newNodes (MetaData.NodePort (ResourceConfig.MetaData c))) c.

(** The sorted address list a node update computes from a node list. *)
Definition newNodeList (m : Manager) (nodes : list Node.t) : list string :=
  sortStrings
    (schedulableAddresses
       (if useNodeInternal m then NodeInternalIP else NodeExternalIP) nodes).

(** What the spec says a later call with a changed list achieves: the
    configuration is emitted, the baseline is the new list, and every stored
    config with a node port has exactly the new members in pool 0. *)
Definition nodeUpdateApplied (newNodes : list string) (m m' : Manager)
    : Prop :=
  emitted m m'
  ∧ oldNodes m' = Some newNodes
  ∧ ∀ e c, e ∈ Resources_entries m' → heap m' !! e.2 = Some c →
      0 < MetaData.NodePort (ResourceConfig.MetaData c) →
      ∃ p, ResourceConfig.Pools c !! 0%nat = Some p
           ∧ Pool.Members p
             = nodeMembers newNodes
                 (MetaData.NodePort (ResourceConfig.MetaData c)).

Definition sampleNode (unschedulable : bool) (internal external : string)
    : Node.t :=
  Node.mk unschedulable
    [NodeAddress.mk NodeInternalIP internal;
     NodeAddress.mk NodeExternalIP external].

(** A node-port ConfigMap virtual, stored and active on node 10.0.0.1. *)
Definition nodePortManager (initialState : bool) : Manager :=
  withStore
    [(1%positive,
      ResourceConfig.mk (MetaData.mk true 30080 "configmap")
        (sampleVirtual "ns1_cm" 80)
        [samplePool "svcA" 80 [Member.mk "10.0.0.1" 30080 "user-enabled"]]
        [] [])]
    [(serviceKey.mk "svcA" 80 "ns1", "ns1_cm", 1%positive)]
    (NewManager false true true initialState ∅ ∅ ∅).

(** What one run of [syncVirtualServer] does about the server-SSL profile of
    a reencrypt route: [syncRoutes] calls [setServerSslProfile] for the
    route's HTTPS virtual, and after the sub-syncs [syncVirtualServer] calls
    [deleteUnusedProfiles] for the namespace of the key.  [stats] starts at
    zero in every run. *)
Definition reencryptRoutePass `{VirtualOps} (sKey : serviceQueueKey.t)
    (rsCfg : loc) (route : Route.t) : M vsSyncStats.t :=
  stats ← setServerSslProfile vsSyncStats.zero sKey rsCfg route;
  deleteUnusedProfiles (serviceQueueKey.Namespace sKey);;
  mret stats.

Definition defaultCertKey (namespace : string) : secretKey.t :=
  secretKey.mk defaultCertProfileName namespace "".

(** A reencrypt route without destination CA certificate. *)
Definition sampleReencryptRoute : Route.t :=
  Route.mk "ns1" "r1" "a.example" "svcA"
    (Some (TLSConfig.mk TLSTerminationReencrypt "" "" "")).

(** The HTTPS virtual of the routes of ns1, stored and active; the cluster
    CA file is readable. *)
Definition reencryptManager : Manager :=
  withStore
    [(1%positive,
      ResourceConfig.mk (MetaData.mk true 0 "route")
        (sampleVirtual "openshift_default_https" 443)
        [samplePool "svcA" 443 [Member.mk "10.2.0.1" 8443 "user-enabled"]]
        [] [])]
    [(serviceKey.mk "svcA" 443 "ns1", "openshift_default_https", 1%positive)]
    (NewManager true false false true ∅ ∅
{[ defaultCertPath := "-----BEGIN CERTIFICATE-----" ]}).

(** What a pass needs of the state, and keeps: the CA file is readable with
    content [data], the default profile of the namespace is not stored, the
    candidate exists, and no stored config (nor the candidate) has the empty
    name. *)
Definition passReady (sKey : serviceQueueKey.t) (rsCfg : loc) (data : string)
    (m : Manager) : Prop :=
  files m !! defaultCertPath = Some data
  ∧ customProfiles m !! defaultCertKey (serviceQueueKey.Namespace sKey) = None
  ∧ (∃ c, heap m !! rsCfg = Some c
          ∧ Virtual.VirtualServerName (ResourceConfig.Virtual c) ≠ "")
  ∧ ∀ e c, e ∈ Resources_entries m → heap m !! e.2 = Some c →
      Virtual.VirtualServerName (ResourceConfig.Virtual c) ≠ "".

(** What the removal loop leaves of a slice: an element that satisfies [p]
    is removed, and the element after a removed one is kept without being
    examined. *)
Fixpoint removeSkipping {A} (p : A → bool) (l : list A) : list A :=
  match l with
  | [] => []
  | x :: l' =>
      if p x then
        match l' with
        | [] => []
        | y :: l'' => y :: removeSkipping p l''
        end
      else x :: removeSkipping p l'
  end.

(** Whether two neighbours in the list both satisfy [p]. *)
Fixpoint adjacentPair {A} (p : A → bool) (l : list A) : bool :=
  match l with
  | x :: (y :: _) as l' => (p x && p y) || adjacentPair p l'
  | _ => false
  end.

(** Sub-syncs of a namespace without ConfigMaps, Ingresses or Routes. *)
Definition idleSubSyncs : SubSyncs := {|
  syncConfigMaps := λ stats _ rsMap _ _ _, mret (None, stats, rsMap);
  syncIngresses := λ stats _ rsMap _ _ _, mret (None, stats, rsMap);
  syncRoutes := λ stats _ rsMap _ _ _, mret (None, stats, rsMap);
  deleteUnusedRoutes := λ _, mret tt;
|}.

(** ** Further functions of appManager.go *)

Definition DefaultConfigMapLabel : string := "f5type in (virtual-server)".

(** Errors of the namespace functions. *)
Inductive namespaceError :=
  | ErrNoInformers (namespace : string)
      (* "No informers exist for namespace %v\n" *)
  | ErrAddInformers (namespace : string) (cause : error)
      (* "Failed to add informers for namespace %v: %v" *).

Definition removeNamespaceLocked (namespace : string)
    : M (option namespaceError) :=
  m ← get;
  match appInformers m !! namespace with
  | None => mret (Some (ErrNoInformers namespace))
  | Some _ =>
      modify (λ m, set_appInformers (delete namespace (appInformers m)) m);;
      mret None
  end.

Definition removeNamespace (namespace : string) : M (option namespaceError) :=
  removeNamespaceLocked namespace.

(** The keys of the informer map, in the order the map is ranged over. *)
Definition GetWatchedNamespaces : M (list string) :=
  m ← get; mret ((map_to_list (appInformers m)).*1).

(** [appInf.stopInformers()] closes the stop channel of the bundle, which
    the model does not keep; on a nil [*appInformer] it panics. *)
Definition stopInformers (appInf : option appInformer.t) : M unit :=
  match appInf with
  | Some _ => mret tt
  | None => panic
  end.

(** Modelled from the spec: [Resources.Delete] with an empty resource name,
    the case that [Resources_Delete] above leaves out and that
    [syncNamespace] relies on: every config of the key is removed, and the
    result tells whether there was one. *)
Definition Resources_DeleteKey (key : serviceKey.t) : M bool :=
  λ m, Some (bool_decide
               (Exists (λ e : (serviceKey.t * string) * loc, e.1.1 = key)
                  (Resources_entries m)),
             set_resources
               (filter (λ e : (serviceKey.t * string) * loc, e.1.1 ≠ key)
                  (resources m)) m).

(** [nsCache] is the content of the namespace informer's index: the names
    of the namespaces that carry the label.  [GetByKey] on that index and
    [labels.Parse] of the constant [DefaultConfigMapLabel] do not fail, so
    their error returns are left out; [appInf.start()] and
    [appInf.waitForCacheSync()] only start and await the informers of the
    new bundle. *)
Definition syncNamespace (nsCache : gset string) (nsName : string)
    : M (option namespaceError) :=
  m ← get;
  _ ← lift (nsInformer m);
  let exists_ := bool_decide (nsName ∈ nsCache) in
  appInf ← getNamespaceInformerLocked nsName;
  let found := bool_decide (is_Some appInf) in
  if exists_ && found then mret None
  else if exists_ then
    (* exists but not found in informers map, add *)
    '(appInf, err) ← addNamespaceLocked nsName DefaultConfigMapLabel 0;
    match err with
    | Some err => mret (Some (ErrAddInformers nsName err))
    | None =>
        (* appInf.start(); appInf.waitForCacheSync() *)
        mret None
    end
  else
    (* does not exist but found in informers map, delete *)
    stopInformers appInf;;
    removeNamespaceLocked nsName;;
    m ← get;
    rsDeleted ←
      foldM (Resources_entries m)
        (λ rsDeleted e,
           if decide (serviceKey.Namespace e.1.1 = nsName) then
             deleted ← Resources_DeleteKey e.1.1;
             mret (if deleted : bool then rsDeleted + 1 else rsDeleted)
           else mret rsDeleted)
        0;
    (if decide (0 < rsDeleted) then outputConfigLocked else mret tt);;
    mret None.

Section RouteProfiles.
Context `{VirtualOps}.

Definition setClientSslProfile (stats : vsSyncStats.t)
    (sKey : serviceQueueKey.t) (rsCfg : loc) (route : Route.t)
    : M vsSyncStats.t :=
  tls ← lift (Route.TLS route);
  '(profileName, stats) ←
    (if decide (TLSConfig.Certificate tls ≠ "" ∧ TLSConfig.Key tls ≠ "") then
       c ← deref rsCfg;
       let cp :=
         CustomProfile.mk (Route.Name route +:+ "-https-cert")
           (Virtual.Partition (ResourceConfig.Virtual c))
           customProfileClient (TLSConfig.Certificate tls)
           (TLSConfig.Key tls) (Route.Host route) in
       let skey :=
         secretKey.mk (CustomProfile.Name cp) (serviceQueueKey.Namespace sKey)
           (Virtual.VirtualServerName (ResourceConfig.Virtual c)) in
       m ← get;
       let stats :=
         match customProfiles m !! skey with
         | Some prof =>
             if decide (prof ≠ cp) then vsSyncStats.add_cpUpdated 1 stats
             else stats
         | None => stats
         end in
       modify (λ m, set_customProfiles (<[skey := cp]> (customProfiles m)) m);;
       mret (CustomProfile.Partition cp +:+ "/" +:+ CustomProfile.Name cp,
             stats)
     else mret ("Common/clientssl", stats));
  updateVirtual rsCfg (AddFrontendSslProfileName profileName);;
  mret stats.

(** The "TLS Cert/Key" block of [syncRoutes]. *)
Definition syncRoutes_tls (stats : vsSyncStats.t) (sKey : serviceQueueKey.t)
    (rsCfg : loc) (route : Route.t) : M vsSyncStats.t :=
  match Route.TLS route with
  | None => mret stats
  | Some tls =>
      c ← deref rsCfg;
      va ← lift (Virtual.VirtualAddress (ResourceConfig.Virtual c));
      if decide (virtualAddress.Port va = DEFAULT_HTTPS_PORT) then
        match TLSConfig.Termination tls with
        | TLSTerminationEdge => setClientSslProfile stats sKey rsCfg route
        | TLSTerminationReencrypt =>
            stats ← setClientSslProfile stats sKey rsCfg route;
            setServerSslProfile stats sKey rsCfg route
        | TLSTerminationPassthrough => mret stats
        end
      else mret stats
  end.

End RouteProfiles.

(** The block of [syncRoutes] that stores the candidate under every key
    that holds a config of its name in its partition.
    [reflect.DeepEqual(cfg, rsCfg)] there compares a [*ResourceConfig] with a
    [ResourceConfig]; values of different types are never deeply equal, so
    the test [!reflect.DeepEqual(cfg, rsCfg)] always holds. *)
Definition syncRoutes_broadcast (rsCfg : loc) : M unit :=
  c ← deref rsCfg;
  cfgs ← Resources_GetAllWithName
           (Virtual.VirtualServerName (ResourceConfig.Virtual c));
  forEach cfgs (λ '(cfg, key),
    sc ← deref cfg;
    c ← deref rsCfg;
    if decide (Virtual.Partition (ResourceConfig.Virtual sc)
               = Virtual.Partition (ResourceConfig.Virtual c))
    then Resources_Assign key
           (Virtual.VirtualServerName (ResourceConfig.Virtual c)) rsCfg
    else mret tt).

(** Ascending byte-wise order on strings, as [sort.Strings] uses it. *)
Definition string_le (a b : string) : Prop := String.leb a b = true.

(** The namespaces of the informer map are the single entry for all
    namespaces, or specific ones. *)
Definition exclusiveWatch (m : Manager) : Prop :=
  is_Some (appInformers m !! "") → ∀ ns, is_Some (appInformers m !! ns) → ns = "".


(** A computation leaves a component of the manager as it found it. *)
Definition preserves {T A} (f : Manager → T) (c : M A) : Prop :=
  ∀ m a m', c m = Some (a, m') → f m' = f m.


(** * Properties *)

(** ** Running the monad *)

Ltac run :=
  unfold mbind, mret, M_bind, M_ret, get, modify, lift, panic, deref, store
    in *;
  cbn beta iota delta [fst snd] in *.

(** ** Loops in the monad *)

Lemma bind_run {A B} (c : M A) (k : A → M B) (m m1 : Manager) (a : A) :
  c m = Some (a, m1) → (c ≫= k) m = k a m1.
Proof. unfold mbind, M_bind. by intros ->. Qed.

Lemma foldM_app {A S} (xs ys : list A) (body : S → A → M S) (s : S)
    (m : Manager) :
  foldM (xs ++ ys) body s m
  = match foldM xs body s m with
    | Some (s', m') => foldM ys body s' m'
    | None => None
    end.
Proof.
  revert s m. induction xs as [|x xs IH]; intros s m; simpl.
  - reflexivity.
  - run. destruct (body s x m) as [[s' m']|]; [apply IH | reflexivity].
Qed.

(** ** The ports of an Ingress *)

(** C5.  [virtualPorts] returns [[http]] for an Ingress without TLS entries,
    [[http; https]] when it has TLS entries and sslRedirect or allowHttp is
    true, and [[https]] when it has TLS entries and both are false.
    sslRedirect is true and allowHttp is false unless the annotation is
    present and parses as a boolean; the http and https port numbers are 80
    and 443 unless the http-port and https-port annotations are present, in
    which case they are the parsed annotation values. *)
Theorem virtualPorts_cases (ing : Ingress.t) :
  let ann := Ingress.Annotations ing in
  let sslRedirect := getBooleanAnnotation ann ingressSslRedirect true in
  let allowHttp := getBooleanAnnotation ann ingressAllowHttp false in
  let httpPort :=
    match ann !! "virtual-server.f5.com/http-port" with
    | Some v => (strconv.ParseInt v).1
    | None => 80
    end in
  let httpsPort :=
    match ann !! "virtual-server.f5.com/https-port" with
    | Some v => (strconv.ParseInt v).1
    | None => 443
    end in
  let http := portStruct.mk "http" httpPort in
  let https := portStruct.mk "https" httpsPort in
  sslRedirect
  = match ann !! "ingress.kubernetes.io/ssl-redirect" with
    | Some v => default true (strconv.ParseBool v)
    | None => true
    end
  ∧ allowHttp
    = match ann !! "ingress.kubernetes.io/allow-http" with
      | Some v => default false (strconv.ParseBool v)
      | None => false
      end
  ∧ (Ingress.TLS ing = [] → virtualPorts ing = [http])
  ∧ (Ingress.TLS ing ≠ [] → sslRedirect = true ∨ allowHttp = true →
       virtualPorts ing = [http; https])
  ∧ (Ingress.TLS ing ≠ [] → sslRedirect = false → allowHttp = false →
       virtualPorts ing = [https]).
Proof.
  intros ann sslRedirect allowHttp httpPort httpsPort http https.
  split; [|split; [|split; [|split]]].
  - subst sslRedirect. unfold getBooleanAnnotation, ingressSslRedirect.
    destruct (ann !! _) as [v|]; [|reflexivity].
    destruct (strconv.ParseBool v); reflexivity.
  - subst allowHttp. unfold getBooleanAnnotation, ingressAllowHttp.
    destruct (ann !! _) as [v|]; [|reflexivity].
    destruct (strconv.ParseBool v); reflexivity.
  - intros Htls. unfold virtualPorts. rewrite Htls. reflexivity.
  - intros Htls Hor. unfold virtualPorts.
    destruct (Ingress.TLS ing) as [|t ts] eqn:E; [done|].
    rewrite bool_decide_eq_true_2 by (simpl; lia).
    fold ann. fold sslRedirect. fold allowHttp.
    destruct Hor as [-> | ->]; [reflexivity|].
    by rewrite orb_true_r.
  - intros Htls Hs Ha. unfold virtualPorts.
    destruct (Ingress.TLS ing) as [|t ts] eqn:E; [done|].
    rewrite bool_decide_eq_true_2 by (simpl; lia).
    fold ann. fold sslRedirect. fold allowHttp.
    by rewrite Hs, Ha.
Qed.

Lemma virtualPorts_cases_witness :
  virtualPorts
    (sampleTlsIngress
       (<["ingress.kubernetes.io/ssl-redirect" := "false"]>
          (<["virtual-server.f5.com/https-port" := "8443"]> ∅))
       ["secret1"])
  = [portStruct.mk "https" 8443].
Proof.
  destruct (virtualPorts_cases
              (sampleTlsIngress
                 (<["ingress.kubernetes.io/ssl-redirect" := "false"]>
                    (<["virtual-server.f5.com/https-port" := "8443"]> ∅))
                 ["secret1"])) as (_ & _ & _ & _ & H5).
  apply H5; [discriminate | vm_compute; reflexivity | vm_compute; reflexivity].
Defined.

(** ** handleSslProfile *)

(** C4.  [handleSslProfile] fails exactly when the Secret's data lacks
    [tls.crt] or [tls.key] (and then changes nothing).  On success the
    profile store holds, under the key (secret name, namespace,
    virtual-server name), the client-context profile built from the Secret,
    every other key is untouched, and [updated] is true exactly when an entry
    with that key existed before and differed from the new profile: a first
    insert and an overwrite with an identical profile return false. *)
Theorem handleSslProfile_spec (rsCfg : loc) (secret : Secret.t)
    (namespace : string) (m : Manager) (c : ResourceConfig.t) :
  heap m !! rsCfg = Some c →
  let cp :=
    CustomProfile.mk (Secret.Name secret)
      (Virtual.Partition (ResourceConfig.Virtual c)) customProfileClient
      (default "" (Secret.Data secret !! "tls.crt"))
      (default "" (Secret.Data secret !! "tls.key")) "" in
  let skey :=
    secretKey.mk (Secret.Name secret) namespace
      (Virtual.VirtualServerName (ResourceConfig.Virtual c)) in
  ∃ err updated m',
    handleSslProfile rsCfg secret namespace m = Some ((err, updated), m')
    ∧ (is_Some err ↔
         Secret.Data secret !! "tls.crt" = None
         ∨ Secret.Data secret !! "tls.key" = None)
    ∧ (is_Some err → updated = false ∧ m' = m)
    ∧ (err = None →
         customProfiles m' !! skey = Some cp
         ∧ CustomProfile.Context cp = customProfileClient
         ∧ (∀ k, k ≠ skey → customProfiles m' !! k = customProfiles m !! k)
         ∧ (updated = true ↔
              ∃ prof, customProfiles m !! skey = Some prof ∧ prof ≠ cp)).
Proof.
  intros Hc cp skey. unfold handleSslProfile.
  destruct (Secret.Data secret !! "tls.crt") as [crt|] eqn:Hcrt.
  2:{ eexists _, _, _. split; [reflexivity|].
      split; [split; [auto | intros _; by eexists] |].
      split; [done | discriminate]. }
  destruct (Secret.Data secret !! "tls.key") as [key|] eqn:Hkey.
  2:{ eexists _, _, _. split; [reflexivity|].
      split; [split; [auto | intros _; by eexists] |].
      split; [done | discriminate]. }
  subst cp skey. run. rewrite Hc. simpl.
  set (cp := CustomProfile.mk _ _ _ _ _ _).
  set (skey := secretKey.mk _ _ _).
  destruct (customProfiles m !! skey) as [prof|] eqn:Hprof.
  - destruct (decide (prof ≠ cp)) as [Hne|Heq].
    + eexists _, _, _. split; [reflexivity|].
      split; [split; [intros [? ?]; discriminate | intros [?|?]; discriminate]|].
      split; [intros [? ?]; discriminate|]. intros _.
      simpl. rewrite lookup_insert_eq.
      repeat split; try done.
      * intros k Hk. by rewrite lookup_insert_ne.
      * intros _. by exists prof.
    + apply dec_stable in Heq. subst prof.
      eexists _, _, _. split; [reflexivity|].
      split; [split; [intros [? ?]; discriminate | intros [?|?]; discriminate]|].
      split; [intros [? ?]; discriminate|]. intros _.
      repeat split; try done.
      intros (prof & Hp & Hne). congruence.
  - eexists _, _, _. split; [reflexivity|].
    split; [split; [intros [? ?]; discriminate | intros [?|?]; discriminate]|].
    split; [intros [? ?]; discriminate|]. intros _.
    simpl. rewrite lookup_insert_eq.
    repeat split; try done.
    + intros k Hk. by rewrite lookup_insert_ne.
    + intros (prof & Hp & _). discriminate.
Qed.

Lemma handleSslProfile_spec_witness :
  ∃ m',
    handleSslProfile 1%positive (sampleSecret "secret1" "new-cert" "key1")
      "ns1" tlsManager = Some ((None, true), m')
    ∧ customProfiles m'
        !! secretKey.mk "secret1" "ns1" "ns1_ing-ingress_443"
      = Some (CustomProfile.mk "secret1" "velcro" customProfileClient
                "new-cert" "key1" "").
Proof.
  destruct (handleSslProfile_spec 1%positive
              (sampleSecret "secret1" "new-cert" "key1") "ns1" tlsManager
              (sampleConfig "ingress" "ns1_ing-ingress_443" 443
                 [samplePool "svcA" 80 []]) eq_refl)
    as (err & updated & m' & Hrun & _ & _ & Hok).
  vm_compute in Hrun. injection Hrun as <- <- <-.
  eexists. split; [vm_compute; reflexivity|].
  vm_compute. reflexivity.
Defined.

(** ** Namespace informers *)

(** C9.  [AddNamespace] returns an error when called with the
    all-namespaces name while a specific namespace informer exists, and when
    called with a specific namespace while the all-namespaces informer
    exists; [AddNamespaceLabelInformer] returns an error while any namespace
    informer exists or when a label informer is already installed.  In each
    of these cases the manager, and so the informer set, is unchanged. *)
Theorem informer_conflicts_rejected (m : Manager) :
  (∀ ns cfgMapSelector resyncPeriod,
     (ns = "" ∧ ∃ n, n ≠ "" ∧ is_Some (appInformers m !! n))
     ∨ (ns ≠ "" ∧ is_Some (appInformers m !! "")) →
     ∃ e, AddNamespace ns cfgMapSelector resyncPeriod m = Some (Some e, m))
  ∧ (∀ labelSelector resyncPeriod,
       (∃ n, is_Some (appInformers m !! n)) ∨ is_Some (nsInformer m) →
       ∃ e, AddNamespaceLabelInformer labelSelector resyncPeriod m
            = Some (Some e, m)).
Proof.
  split.
  - intros ns sel rp Hcase.
    assert (Hsize : size (appInformers m) ≠ 0%nat).
    { intros Hz. apply map_size_empty_inv in Hz.
      destruct Hcase as [(_ & n & _ & [x Hx]) | (_ & [x Hx])];
        rewrite Hz, lookup_empty in Hx; discriminate. }
    unfold AddNamespace, addNamespaceLocked, watchingAllNamespacesLocked.
    run. destruct (decide (size (appInformers m) = 0%nat)) as [?|_]; [done|].
    destruct (bool_decide (is_Some (appInformers m !! ""))) eqn:Hall.
    + by exists ErrWatchingAll.
    + apply bool_decide_eq_false in Hall.
      destruct Hcase as [(-> & _) | (_ & Hw)]; [|done].
      destruct (decide _) as [_|Hn]; [by exists ErrWatchingSpecific|].
      exfalso. apply Hn. split; [lia | done].
  - intros sel rp Hcase. unfold AddNamespaceLabelInformer. run.
    destruct (decide (is_Some (nsInformer m))) as [_|Hno];
      [by exists ErrHaveLabelInformer|].
    destruct Hcase as [(n & [x Hx]) | ?]; [|done].
    destruct (decide (0%nat ≠ size (appInformers m))) as [_|Hz];
      [by exists ErrInformersSetUp|].
    apply dec_stable in Hz. symmetry in Hz. apply map_size_empty_inv in Hz.
    rewrite Hz, lookup_empty in Hx. discriminate.
Qed.

Lemma informer_conflicts_rejected_witness :
  let m := watching ["ns1"; "ns2"] (NewManager false false true false ∅ ∅ ∅) in
  AddNamespace "" "f5type in (virtual-server)" 0 m
    = Some (Some ErrWatchingSpecific, m)
  ∧ AddNamespaceLabelInformer "watched=yes" 0 m
    = Some (Some ErrInformersSetUp, m).
Proof.
  intros m.
  destruct (informer_conflicts_rejected m) as [Hadd Hlabel].
  split.
  - destruct (Hadd "" "f5type in (virtual-server)" 0) as [e He].
    { left. split; [reflexivity|]. exists "ns1".
      split; [discriminate | vm_compute; eauto]. }
    rewrite He. vm_compute in He. by injection He as <-.
  - destruct (Hlabel "watched=yes" 0) as [e He].
    { left. exists "ns1". vm_compute. eauto. }
    rewrite He. vm_compute in He. by injection He as <-.
Defined.

(** ** The emission decision of syncVirtualServer *)

Lemma syncVirtualServer_output_run (stats : vsSyncStats.t) (m : Manager) :
  syncVirtualServer_output stats m
  = Some (tt, if decide (changedOrIdle stats m)
              then set_written (S (written m)) m else m).
Proof.
  unfold syncVirtualServer_output, changedOrIdle, outputConfig,
    outputConfigLocked. run.
  destruct (decide (0 < vsSyncStats.vsUpdated stats ∨ _)) as [Hc|Hc].
  - rewrite decide_True by (by left). reflexivity.
  - destruct (decide (length (vsQueue m) = 0%nat ∧ _)) as [[Hv Hn]|Hq].
    + apply length_zero_iff_nil in Hv, Hn.
      destruct (initialState m) eqn:Hi; simpl.
      * rewrite decide_False; [done|]. intros [?|(_ & _ & ?)]; done.
      * rewrite decide_True; [done|]. by right.
    + rewrite decide_False; [done|].
      intros [?|(Hv & Hn & _)]; [done|]. apply Hq. by rewrite Hv, Hn.
Qed.

(** C1, as the code has it.  When the three sub-syncs and the garbage
    collection of [syncVirtualServer] have completed with statistics [stats],
    the configuration is written (once) if and only if one of the counters
    vsUpdated, vsDeleted, cpUpdated, dgUpdated is greater than zero, or else
    both queues are empty and the initial-state flag is false; otherwise
    nothing further happens.  vsFound is not consulted. *)
Theorem syncVirtualServer_emits_iff_changed_or_idle `{VirtualOps} `{SubSyncs}
    (sKey : serviceQueueKey.t) (stats : vsSyncStats.t) (m m0 : Manager) :
  syncVirtualServer_collect sKey m = Some (Synced stats, m0) →
  ∃ m', syncVirtualServer sKey m = Some (None, m')
        ∧ (emitted m0 m' ↔ changedOrIdle stats m0)
        ∧ (¬ changedOrIdle stats m0 → m' = m0).
Proof.
  intros Hcollect. unfold syncVirtualServer.
  rewrite (bind_run _ _ _ _ _ Hcollect).
  rewrite (bind_run _ _ _ _ _ (syncVirtualServer_output_run stats m0)).
  eexists. split; [reflexivity|].
  destruct (decide (changedOrIdle stats m0)) as [Hc|Hc].
  - split; [|done]. split; [done|]. intros _. reflexivity.
  - split; [|done]. split; [|done]. unfold emitted. lia.
Qed.

Lemma syncVirtualServer_emits_iff_changed_or_idle_witness :
  let m := watching ["ns1"] (NewManager false false false false ∅ ∅ ∅) in
  ∃ m', @syncVirtualServer sampleOps idleSubSyncs
          (serviceQueueKey.mk "ns1" "svcA") m = Some (None, m')
        ∧ written m' = 1%nat.
Proof.
  intros m.
  destruct (@syncVirtualServer_collect sampleOps idleSubSyncs
              (serviceQueueKey.mk "ns1" "svcA") m)
    as [[progress m0]|] eqn:Hcollect; [|vm_compute in Hcollect; discriminate].
  pose proof Hcollect as Hval. vm_compute in Hval.
  injection Hval as Hprogress Hm0. subst progress.
  destruct (@syncVirtualServer_emits_iff_changed_or_idle sampleOps idleSubSyncs
              (serviceQueueKey.mk "ns1" "svcA") vsSyncStats.zero m m0 Hcollect)
    as (m' & Hrun & Hemit & _).
  exists m'. split; [exact Hrun|].
  assert (Hidle : changedOrIdle vsSyncStats.zero m0).
  { right. rewrite <- Hm0. repeat split. }
  apply Hemit in Hidle. unfold emitted in Hidle. rewrite Hidle.
  rewrite <- Hm0. reflexivity.
Defined.

(** C1, as stated, fails: with vsFound = 1, every other counter zero and a
    key still waiting in the virtual-server queue, the stated condition
    holds and nothing is written. *)
Lemma syncVirtualServer_output_ignores_vsFound :
  let stats := vsSyncStats.mk 1 0 0 0 0 in
  let m := set_vsQueue [serviceQueueKey.mk "ns1" "svcB"]
             (NewManager false false true false ∅ ∅ ∅) in
  ¬ (∀ m', syncVirtualServer_output stats m = Some (tt, m') →
           (emitted m m' ↔ anyCounterOrIdle stats m)).
Proof.
  intros stats m Hclaim.
  specialize (Hclaim m eq_refl).
  assert (Hany : anyCounterOrIdle stats m) by (left; left; discriminate).
  apply Hclaim in Hany. unfold emitted in Hany. simpl in Hany. lia.
Qed.

(** ** handleIngressTls *)

Lemma handleSslProfile_heap (rsCfg : loc) (secret : Secret.t)
    (namespace : string) (m m' : Manager) (err : option error) (upd : bool) :
  handleSslProfile rsCfg secret namespace m = Some ((err, upd), m') →
  heap m' = heap m ∧ (err = None → is_Some (heap m !! rsCfg)).
Proof.
  unfold handleSslProfile.
  destruct (Secret.Data secret !! "tls.crt");
    [|intros [= <- <- <-]; split; [done | discriminate]].
  destruct (Secret.Data secret !! "tls.key");
    [|intros [= <- <- <-]; split; [done | discriminate]].
  run. destruct (heap m !! rsCfg) as [c|] eqn:Hc; [|discriminate].
  destruct (customProfiles m !! _) as [prof|].
  - destruct (decide _); intros [= <- <- <-]; split; eauto.
  - intros [= <- <- <-]; split; eauto.
Qed.

Lemma handleSslProfile_kubeSecrets (rsCfg : loc) (secret : Secret.t)
    (namespace : string) (m m' : Manager) (r : option error * bool) :
  handleSslProfile rsCfg secret namespace m = Some (r, m') →
  kubeSecrets m' = kubeSecrets m.
Proof.
  unfold handleSslProfile.
  destruct (Secret.Data secret !! "tls.crt"); [|by intros [= <- <-]].
  destruct (Secret.Data secret !! "tls.key"); [|by intros [= <- <-]].
  run. destruct (heap m !! rsCfg) as [c|]; [|discriminate].
  destruct (customProfiles m !! _) as [prof|].
  - destruct (decide _); by intros [= <- <-].
  - by intros [= <- <-].
Qed.

Lemma handleSslProfile_returns (rsCfg : loc) (secret : Secret.t)
    (namespace : string) (m : Manager) :
  is_Some (heap m !! rsCfg) →
  ∃ r m', handleSslProfile rsCfg secret namespace m = Some (r, m').
Proof.
  intros [c Hc]. unfold handleSslProfile.
  destruct (Secret.Data secret !! "tls.crt"); [|by eexists _, _].
  destruct (Secret.Data secret !! "tls.key"); [|by eexists _, _].
  run. rewrite Hc.
  destruct (customProfiles m !! _) as [prof|]; [|by eexists _, _].
  destruct (decide _); by eexists _, _.
Qed.

Section IngressTls.
Context `{VirtualOps}.

Lemma updateVirtual_run (rsCfg : loc) (f : Virtual.t → Virtual.t)
    (m : Manager) (c : ResourceConfig.t) :
  heap m !! rsCfg = Some c →
  updateVirtual rsCfg f m
  = Some (tt, set_heap
                (<[rsCfg := ResourceConfig.set_Virtual
                              (f (ResourceConfig.Virtual c)) c]> (heap m)) m).
Proof. intros Hc. unfold updateVirtual. run. by rewrite Hc. Qed.

(** An entry whose Secret is not found only attaches the profile name to
    the virtual: the loop-carried pair stays as it is. *)
Lemma handleIngressTls_entry_no_secret (rsCfg : loc) (ing : Ingress.t)
    (st : bool * bool) (tls : IngressTLS.t) (m : Manager) :
  is_Some (heap m !! rsCfg) →
  kubeSecrets m !! (Ingress.Namespace ing, IngressTLS.SecretName tls) = None →
  ∃ m', handleIngressTls_entry rsCfg ing st tls m = Some (st, m')
        ∧ kubeSecrets m' = kubeSecrets m ∧ is_Some (heap m' !! rsCfg).
Proof.
  intros [c Hc] Hnone. destruct st as [cpUpdated updateState].
  unfold handleIngressTls_entry.
  rewrite (bind_run _ _ m m m) by reflexivity. rewrite Hnone.
  rewrite (bind_run _ _ _ _ _ (updateVirtual_run _ _ _ _ Hc)).
  eexists. split; [reflexivity|]. split; [done|].
  cbn [heap set_heap]. rewrite lookup_insert_eq. eauto.
Qed.

Lemma handleIngressTls_entries_without_secret (rsCfg : loc) (ing : Ingress.t)
    (st : bool * bool) (post : list IngressTLS.t) : ∀ m,
  is_Some (heap m !! rsCfg) →
  (∀ t, t ∈ post →
     kubeSecrets m !! (Ingress.Namespace ing, IngressTLS.SecretName t) = None) →
  ∃ m', foldM post (handleIngressTls_entry rsCfg ing) st m = Some (st, m').
Proof.
  induction post as [|t post IH]; intros m Hheap Hnone.
  - by exists m.
  - destruct (handleIngressTls_entry_no_secret rsCfg ing st t m Hheap)
      as (m1 & Hstep & Hsec & Hheap1); [apply Hnone; by left|].
    cbn [foldM]. rewrite (bind_run _ _ _ _ _ Hstep).
    apply IH; [done|]. intros t' Ht'. rewrite Hsec. apply Hnone. by right.
Qed.

Lemma handleIngressTls_entry_keeps (rsCfg : loc) (ing : Ingress.t)
    (st st' : bool * bool) (tls : IngressTLS.t) (m m' : Manager) :
  handleIngressTls_entry rsCfg ing st tls m = Some (st', m') →
  kubeSecrets m' = kubeSecrets m
  ∧ (is_Some (heap m !! rsCfg) → is_Some (heap m' !! rsCfg)).
Proof.
  destruct st as [cpUpdated updateState]. unfold handleIngressTls_entry.
  rewrite (bind_run _ _ m m m) by reflexivity.
  destruct (kubeSecrets m !! _) as [secret|].
  - unfold mbind at 1, M_bind at 1.
    destruct (handleSslProfile rsCfg secret (Ingress.Namespace ing) m)
      as [[[err upd] m1]|] eqn:Hssl; [|done].
    pose proof (handleSslProfile_kubeSecrets _ _ _ _ _ _ Hssl) as Hsec.
    destruct (handleSslProfile_heap _ _ _ _ _ _ _ Hssl) as [Hheap _].
    destruct err as [e|].
    + intros [= <- <-]. split; [done|]. by rewrite Hheap.
    + unfold mbind at 1, M_bind at 1, deref at 1.
      destruct (heap m1 !! rsCfg) as [c1|] eqn:Hc1; [|done].
      rewrite (bind_run _ _ _ _ _ (updateVirtual_run _ _ _ _ Hc1)).
      intros [= <- <-]. split; [done|]. intros _.
      cbn [heap set_heap]. rewrite lookup_insert_eq. eauto.
  - unfold mbind at 1, M_bind at 1, updateVirtual, mbind at 1, M_bind at 1,
      deref at 1.
    destruct (heap m !! rsCfg) as [c0|] eqn:Hc0; [|done].
    unfold store, modify. intros [= <- <-]. split; [done|]. intros _.
    cbn [heap set_heap]. rewrite lookup_insert_eq. eauto.
Qed.

Lemma handleIngressTls_entries_keep (rsCfg : loc) (ing : Ingress.t)
    (pre : list IngressTLS.t) : ∀ st st' m m',
  foldM pre (handleIngressTls_entry rsCfg ing) st m = Some (st', m') →
  kubeSecrets m' = kubeSecrets m
  ∧ (is_Some (heap m !! rsCfg) → is_Some (heap m' !! rsCfg)).
Proof.
  induction pre as [|t pre IH]; intros st st' m m'.
  - by intros [= <- <-].
  - cbn [foldM]. unfold mbind at 1, M_bind at 1.
    destruct (handleIngressTls_entry rsCfg ing st t m) as [[st1 m1]|] eqn:Hstep;
      [|done].
    intros Hrest. apply handleIngressTls_entry_keeps in Hstep as [Hsec Hheap].
    apply IH in Hrest as [Hsec' Hheap']. split; [congruence|auto].
Qed.

Lemma handleIngressTls_entry_returns (rsCfg : loc) (ing : Ingress.t)
    (st : bool * bool) (tls : IngressTLS.t) (m : Manager) :
  is_Some (heap m !! rsCfg) →
  ∃ st' m', handleIngressTls_entry rsCfg ing st tls m = Some (st', m').
Proof.
  intros [c Hc].
  destruct (kubeSecrets m !! (Ingress.Namespace ing, IngressTLS.SecretName tls))
    as [secret|] eqn:Hsecret.
  - destruct st as [cpUpdated updateState]. unfold handleIngressTls_entry.
    rewrite (bind_run _ _ m m m) by reflexivity. rewrite Hsecret.
    destruct (handleSslProfile_returns rsCfg secret (Ingress.Namespace ing) m)
      as ([err upd] & m1 & Hssl); [eauto|].
    rewrite (bind_run _ _ _ _ _ Hssl).
    destruct (handleSslProfile_heap _ _ _ _ _ _ _ Hssl) as [Hheap _].
    destruct err as [e|]; [by eexists _, _|].
    rewrite <- Hheap in Hc.
    rewrite (bind_run _ _ m1 m1 c) by (unfold deref; by rewrite Hc).
    rewrite (bind_run _ _ _ _ _ (updateVirtual_run _ _ _ _ Hc)).
    by eexists _, _.
  - destruct (handleIngressTls_entry_no_secret rsCfg ing st tls m)
      as (m' & Hstep & _); eauto.
Qed.

Lemma handleIngressTls_entries_return (rsCfg : loc) (ing : Ingress.t)
    (l : list IngressTLS.t) : ∀ st m,
  is_Some (heap m !! rsCfg) →
  ∃ st' m', foldM l (handleIngressTls_entry rsCfg ing) st m = Some (st', m').
Proof.
  induction l as [|t l IH]; intros st m Hheap.
  - by exists st, m.
  - destruct (handleIngressTls_entry_returns rsCfg ing st t m Hheap)
      as (st1 & m1 & Hstep).
    cbn [foldM]. rewrite (bind_run _ _ _ _ _ Hstep). apply IH.
    by apply (handleIngressTls_entry_keeps _ _ _ _ _ _ _ Hstep).
Qed.

(** C10, as the code has it.  On the HTTPS virtual of an Ingress,
    [handleIngressTls] returns the update status that [handleSslProfile]
    reports for the last TLS entry whose Secret is found, whatever the
    entries before it reported and however many entries without a Secret
    follow it; the caller adds 1 to [cpUpdated] exactly when that status is
    true.  So when an earlier entry changed a profile
    ([changedBefore = true]) and the last entry with a Secret did not, the
    result is false and the caller leaves [cpUpdated] as it was.  When no
    entry's Secret is found the result is false.  The function returns in
    every case, and so do the runs of the earlier entries and of
    [handleSslProfile] that the first part names. *)
Theorem handleIngressTls_returns_last_found (rsCfg : loc) (ing : Ingress.t)
    (m : Manager) (c : ResourceConfig.t) (va : virtualAddress.t) :
  heap m !! rsCfg = Some c →
  Virtual.VirtualAddress (ResourceConfig.Virtual c) = Some va →
  virtualAddress.BindAddr va ≠ "" →
  virtualAddress.Port va
    = portAnnotation (Ingress.Annotations ing)
        "virtual-server.f5.com/https-port" 443 →
  (∀ (pre : list IngressTLS.t) (last : IngressTLS.t)
     (post : list IngressTLS.t) (secret : Secret.t) (m1 m2 : Manager)
     (cpBefore changedBefore : bool) (err : option error) (upd : bool),
     Ingress.TLS ing = pre ++ last :: post →
     foldM pre (handleIngressTls_entry rsCfg ing) (false, false) m
       = Some ((cpBefore, changedBefore), m1) →
     kubeSecrets m !! (Ingress.Namespace ing, IngressTLS.SecretName last)
       = Some secret →
     handleSslProfile rsCfg secret (Ingress.Namespace ing) m1
       = Some ((err, upd), m2) →
     (∀ t, t ∈ post →
        kubeSecrets m !! (Ingress.Namespace ing, IngressTLS.SecretName t)
        = None) →
     ∃ m3,
       handleIngressTls rsCfg ing m = Some (upd, m3)
       ∧ (∀ stats,
            syncIngresses_tls stats rsCfg ing m
            = Some (if upd then vsSyncStats.add_cpUpdated 1 stats else stats,
                    m3))
       ∧ (changedBefore = true → upd = false →
            ∀ stats, ∃ stats',
              syncIngresses_tls stats rsCfg ing m = Some (stats', m3)
              ∧ vsSyncStats.cpUpdated stats' = vsSyncStats.cpUpdated stats))
  ∧ ((∀ t, t ∈ Ingress.TLS ing →
        kubeSecrets m !! (Ingress.Namespace ing, IngressTLS.SecretName t)
        = None) →
     ∃ m3,
       handleIngressTls rsCfg ing m = Some (false, m3)
       ∧ ∀ stats, syncIngresses_tls stats rsCfg ing m = Some (stats, m3))
  ∧ (∃ upd m3, handleIngressTls rsCfg ing m = Some (upd, m3))
  ∧ (∀ pre, ∃ st m1,
       foldM pre (handleIngressTls_entry rsCfg ing) (false, false) m
       = Some (st, m1)
       ∧ ∀ secret, ∃ r m2,
           handleSslProfile rsCfg secret (Ingress.Namespace ing) m1
           = Some (r, m2)).
Proof.
  intros Hc Hva Hbind Hport.
  assert (Hstart : Ingress.TLS ing ≠ [] →
            handleIngressTls rsCfg ing m
            = ('(cpUpdated, updateState) ←
                 foldM (Ingress.TLS ing) (handleIngressTls_entry rsCfg ing)
                   (false, false);
               mret cpUpdated) m).
  { intros Hne. unfold handleIngressTls.
    rewrite decide_False by (by destruct (Ingress.TLS ing)).
    rewrite (bind_run _ _ m m c) by (unfold deref; by rewrite Hc).
    rewrite Hva. rewrite decide_False by done.
    by rewrite decide_True by (rewrite Hport; reflexivity). }
  assert (Hcaller : ∀ upd m3, handleIngressTls rsCfg ing m = Some (upd, m3) →
            ∀ stats,
              syncIngresses_tls stats rsCfg ing m
              = Some (if upd then vsSyncStats.add_cpUpdated 1 stats else stats,
                      m3)).
  { intros upd m3 Hrun stats. unfold syncIngresses_tls.
    by rewrite (bind_run _ _ _ _ _ Hrun). }
  split; [|split; [|split]].
  - intros pre last post secret m1 m2 cpBefore changedBefore err upd
      Htls Hpre Hsecret Hlast Hpost.
    assert (Hrun : ∃ m3, handleIngressTls rsCfg ing m = Some (upd, m3)).
    { rewrite Hstart by (rewrite Htls; by destruct pre).
      destruct (handleIngressTls_entries_keep _ _ _ _ _ _ _ Hpre)
        as [Hsec1 Hheap1].
      destruct (handleSslProfile_heap _ _ _ _ _ _ _ Hlast) as [Hheap2 Hsome].
      pose proof (handleSslProfile_kubeSecrets _ _ _ _ _ _ Hlast) as Hsec2.
      assert (∃ st m2',
                handleIngressTls_entry rsCfg ing (cpBefore, changedBefore)
                  last m1 = Some ((upd, st), m2')
                ∧ kubeSecrets m2' = kubeSecrets m
                ∧ is_Some (heap m2' !! rsCfg)) as (st & m2' & Hstep & Hsec & Hh).
      { unfold handleIngressTls_entry.
        rewrite (bind_run _ _ m1 m1 m1) by reflexivity.
        rewrite Hsec1, Hsecret. rewrite (bind_run _ _ _ _ _ Hlast).
        destruct err as [e|].
        - eexists _, m2. split; [reflexivity|]. split; [by rewrite Hsec2|].
          rewrite Hheap2. apply Hheap1. eauto.
        - destruct (Hsome eq_refl) as [c1 Hc1]. rewrite <- Hheap2 in Hc1.
          rewrite (bind_run _ _ m2 m2 c1) by (unfold deref; by rewrite Hc1).
          rewrite (bind_run _ _ _ _ _ (updateVirtual_run _ _ _ _ Hc1)).
          eexists _, _. split; [reflexivity|].
          split; [cbn [kubeSecrets set_heap]; by rewrite Hsec2|].
          cbn [heap set_heap]. rewrite lookup_insert_eq. eauto. }
      destruct (handleIngressTls_entries_without_secret rsCfg ing (upd, st)
                  post m2' Hh) as [m3 Hrest].
      { intros t Ht. rewrite Hsec. by apply Hpost. }
      exists m3. unfold mbind at 1, M_bind at 1.
      rewrite Htls, foldM_app, Hpre. cbn [foldM].
      rewrite (bind_run _ _ _ _ _ Hstep), Hrest. done. }
    destruct Hrun as [m3 Hrun]. exists m3. split; [exact Hrun|].
    split; [by apply Hcaller|].
    intros _ -> stats. exists stats. by rewrite (Hcaller _ _ Hrun).
  - intros Hnone.
    assert (Hrun : ∃ m3, handleIngressTls rsCfg ing m = Some (false, m3)).
    { destruct (Ingress.TLS ing) as [|t ts] eqn:Htls.
      - exists m. unfold handleIngressTls. by rewrite Htls.
      - rewrite Hstart by done.
        destruct (handleIngressTls_entries_without_secret rsCfg ing
                    (false, false) (t :: ts) m) as [m3 Hrest]; [eauto|done|].
        exists m3. unfold mbind, M_bind. by rewrite Hrest. }
    destruct Hrun as [m3 Hrun]. exists m3. split; [exact Hrun|].
    intros stats. by rewrite (Hcaller _ _ Hrun).
  - destruct (Ingress.TLS ing) as [|t ts] eqn:Htls.
    + exists false, m. unfold handleIngressTls. by rewrite Htls.
    + rewrite Hstart by done.
      destruct (handleIngressTls_entries_return rsCfg ing (t :: ts)
                  (false, false) m) as ([cp us] & m3 & Hrest); [eauto|].
      exists cp, m3. unfold mbind, M_bind. by rewrite Hrest.
  - intros pre.
    destruct (handleIngressTls_entries_return rsCfg ing pre (false, false) m)
      as (st & m1 & Hpre); [eauto|].
    exists st, m1. split; [exact Hpre|]. intros secret.
    apply handleSslProfile_returns.
    apply (handleIngressTls_entries_keep _ _ _ _ _ _ _ Hpre). eauto.
Qed.

End IngressTls.

Lemma handleIngressTls_returns_last_found_witness :
  let ing := sampleTlsIngress ∅ ["secret1"; "secret2"; "nosuchsecret"] in
  ∃ m3,
    @handleIngressTls sampleOps 1%positive ing tlsManager = Some (false, m3)
    ∧ ∀ stats, ∃ stats',
        @syncIngresses_tls sampleOps stats 1%positive ing tlsManager
        = Some (stats', m3)
        ∧ vsSyncStats.cpUpdated stats' = vsSyncStats.cpUpdated stats.
Proof.
  intros ing.
  destruct (foldM [IngressTLS.mk "secret1"]
              (@handleIngressTls_entry sampleOps 1%positive ing)
              (false, false) tlsManager)
    as [[[cpBefore changedBefore] m1]|] eqn:Hpre;
    [|vm_compute in Hpre; discriminate].
  pose proof Hpre as Hval. vm_compute in Hval.
  injection Hval as Hcp Hch Hm1. subst cpBefore changedBefore.
  destruct (handleSslProfile 1%positive
              (sampleSecret "secret2" "cert2" "key2") "ns1" m1)
    as [[[err upd] m2]|] eqn:Hlast;
    [|rewrite <- Hm1 in Hlast; vm_compute in Hlast; discriminate].
  pose proof Hlast as Hval. rewrite <- Hm1 in Hval. vm_compute in Hval.
  injection Hval as Herr Hupd _. subst err upd.
  destruct (@handleIngressTls_returns_last_found sampleOps 1%positive ing
              tlsManager
              (sampleConfig "ingress" "ns1_ing-ingress_443" 443
                 [samplePool "svcA" 80 []])
              (virtualAddress.mk "10.0.0.1" 443))
    as [Hfound _];
    [reflexivity | reflexivity | discriminate | reflexivity |].
  destruct (Hfound [IngressTLS.mk "secret1"] (IngressTLS.mk "secret2")
              [IngressTLS.mk "nosuchsecret"]
              (sampleSecret "secret2" "cert2" "key2") m1 m2
              true true None false)
    as (m3 & Hrun & _ & Hcaller);
    [reflexivity | exact Hpre | reflexivity | exact Hlast | |].
  - intros t Ht. apply list_elem_of_singleton in Ht. subst t. reflexivity.
  - exists m3. split; [exact Hrun|]. exact (Hcaller eq_refl eq_refl).
Defined.

(** C10, as stated, fails.  The TLS list names secret1, whose stored
    profile carries an older certificate, and then a Secret that does not
    exist.  The first entry changes the profile; the last entry changes
    none, and its [continue] leaves [cpUpdated] at the value of the first:
    [handleIngressTls] returns true and the caller counts the change. *)
Lemma handleIngressTls_keeps_status_over_missing_secret :
  let ing := sampleTlsIngress ∅ ["secret1"; "nosuchsecret"] in
  let key name := secretKey.mk name "ns1" "ns1_ing-ingress_443" in
  ¬ (∀ upd m3 stats',
       @handleIngressTls sampleOps 1%positive ing tlsManager = Some (upd, m3) →
       @syncIngresses_tls sampleOps vsSyncStats.zero 1%positive ing tlsManager
       = Some (stats', m3) →
       customProfiles m3 !! key "secret1"
       ≠ customProfiles tlsManager !! key "secret1" →
       customProfiles m3 !! key "nosuchsecret"
       = customProfiles tlsManager !! key "nosuchsecret" →
       upd = false ∧ vsSyncStats.cpUpdated stats' = 0).
Proof.
  intros ing key Hclaim.
  destruct (@handleIngressTls sampleOps 1%positive ing tlsManager)
    as [[upd m3]|] eqn:Hrun; [|vm_compute in Hrun; discriminate].
  destruct (@syncIngresses_tls sampleOps vsSyncStats.zero 1%positive ing
              tlsManager) as [[stats' m3']|] eqn:Hcaller;
    [|vm_compute in Hcaller; discriminate].
  assert (m3' = m3) as ->.
  { unfold syncIngresses_tls in Hcaller.
    rewrite (bind_run _ _ _ _ _ Hrun) in Hcaller. by injection Hcaller. }
  specialize (Hclaim upd m3 stats' eq_refl eq_refl).
  vm_compute in Hrun. injection Hrun as Hupd Hm3. subst m3.
  destruct Hclaim as [Hfalse _].
  - vm_compute. discriminate.
  - vm_compute. reflexivity.
  - rewrite <- Hupd in Hfalse. discriminate Hfalse.
Qed.

(** ** Deactivation *)

(** C3, as the code has it.  When a config is stored under the key,
    [deactivateVirtualServer] leaves under that key a config equal to the
    candidate with [Active] false and with the members of the pool at
    [index] (the pool of the queued service) removed; the pools at the other
    indices keep whatever members the candidate carried.  The result tells
    whether the stored object was replaced. *)
Theorem deactivateVirtualServer_clears_indexed_pool
    (sKey : serviceKey.t) (rsName : string) (rsCfg rs : loc) (index : nat)
    (m : Manager) (c old : ResourceConfig.t) (p : Pool.t) :
  resources m !! (sKey, rsName) = Some rs →
  heap m !! rs = Some old →
  heap m !! rsCfg = Some c →
  ResourceConfig.Pools c !! index = Some p →
  let c' :=
    ResourceConfig.set_Pools
      (<[index := Pool.set_Members [] p]> (ResourceConfig.Pools c))
      (ResourceConfig.set_Active false c) in
  ∃ m' l',
    deactivateVirtualServer sKey rsName rsCfg index m
      = Some (bool_decide (rs ≠ rsCfg ∧ old ≠ c'), m')
    ∧ resources m' !! (sKey, rsName) = Some l'
    ∧ heap m' !! l' = Some c'
    ∧ MetaData.Active (ResourceConfig.MetaData c') = false
    ∧ Pool.Members <$> ResourceConfig.Pools c' !! index = Some []
    ∧ (∀ j, j ≠ index →
         ResourceConfig.Pools c' !! j = ResourceConfig.Pools c !! j).
Proof.
  intros Hrs Hold Hc Hp c'.
  assert (Hshape :
    MetaData.Active (ResourceConfig.MetaData c') = false
    ∧ Pool.Members <$> ResourceConfig.Pools c' !! index = Some []
    ∧ (∀ j, j ≠ index →
         ResourceConfig.Pools c' !! j = ResourceConfig.Pools c !! j)).
  { split; [reflexivity|]. split.
    - simpl. rewrite list_lookup_insert_eq by (by eapply lookup_lt_Some).
      reflexivity.
    - intros j Hj. simpl. by rewrite list_lookup_insert_ne. }
  unfold deactivateVirtualServer, Resources_Get, Resources_Assign,
    setPoolMembers, ResourceConfig.set_PoolMembers.
  run. rewrite Hrs. simpl. rewrite Hc. simpl.
  rewrite lookup_insert_eq. simpl. rewrite Hp. simpl.
  rewrite insert_insert_eq. fold c'.
  destruct (decide (rs = rsCfg)) as [->|Hne].
  - repeat (rewrite lookup_insert_eq; simpl).
    rewrite (bool_decide_eq_false_2 (c' ≠ c')) by (intros Hn; by apply Hn).
    rewrite bool_decide_eq_false_2 by (intros [Hn _]; by apply Hn).
    simpl. eexists _, rsCfg. split; [reflexivity|]. simpl.
    split; [exact Hrs|]. split; [apply lookup_insert_eq | exact Hshape].
  - rewrite lookup_insert_ne by done. rewrite Hold. simpl.
    repeat (rewrite lookup_insert_eq; simpl).
    destruct (decide (old = c')) as [->|Hdiff].
    + rewrite (bool_decide_eq_false_2 (c' ≠ c')) by (intros Hn; by apply Hn).
      rewrite bool_decide_eq_false_2 by (intros [_ Hn]; by apply Hn).
      simpl. eexists _, rs. split; [reflexivity|]. simpl.
      split; [exact Hrs|].
      split; [by rewrite lookup_insert_ne | exact Hshape].
    + rewrite (bool_decide_eq_true_2 (old ≠ c')) by done.
      rewrite bool_decide_eq_true_2 by done.
      simpl. eexists _, rsCfg. split; [reflexivity|]. simpl.
      split; [apply lookup_insert_eq|].
      split; [apply lookup_insert_eq | exact Hshape].
Qed.

Lemma deactivateVirtualServer_clears_indexed_pool_witness :
  ∃ m' l' c',
    deactivateVirtualServer (serviceKey.mk "svcA" 80 "ns1")
      "openshift_default_http" 1%positive 0 routeManager = Some (true, m')
    ∧ resources m' !! (serviceKey.mk "svcA" 80 "ns1", "openshift_default_http")
      = Some l'
    ∧ heap m' !! l' = Some c'
    ∧ MetaData.Active (ResourceConfig.MetaData c') = false
    ∧ ResourceConfig.Pools c'
      = [samplePool "svcA" 80 [];
         samplePool "svcB" 80 [Member.mk "10.2.0.2" 8080 "user-enabled"]].
Proof.
  destruct (deactivateVirtualServer_clears_indexed_pool
              (serviceKey.mk "svcA" 80 "ns1") "openshift_default_http"
              1%positive 2%positive 0 routeManager
              (activeRouteConfig
                 [samplePool "svcA" 80 [Member.mk "10.2.0.1" 8080 "user-enabled"];
                  samplePool "svcB" 80 [Member.mk "10.2.0.2" 8080 "user-enabled"]])
              (activeRouteConfig
                 [samplePool "svcA" 80 [Member.mk "10.2.0.1" 8080 "user-enabled"];
                  samplePool "svcB" 80 [Member.mk "10.2.0.2" 8080 "user-enabled"]])
              (samplePool "svcA" 80 [Member.mk "10.2.0.1" 8080 "user-enabled"])
              eq_refl eq_refl eq_refl eq_refl)
    as (m' & l' & Hrun & Hres & Hheap & Hact & _ & _).
  match type of Hrun with
  | _ = Some (?b, _) =>
      assert (Hb : b = true) by (vm_compute; reflexivity); rewrite Hb in Hrun
  end.
  eexists m', l', _. split; [exact Hrun|]. split; [exact Hres|].
  split; [exact Hheap|]. split; [exact Hact|]. vm_compute. reflexivity.
Defined.

(** C3, as stated, fails.  Two routes share the HTTP virtual; it is stored,
    active, with a member in each pool.  When the service of the first route
    disappears, [handleConfigForType] deactivates the candidate and stores
    it: the stored config is then inactive while the pool of the other
    service still has its member. *)
Lemma inactive_config_keeps_other_pool_members :
  ¬ (storeInactiveNoMembers routeManager = true →
     ∀ r m',
       handleConfigForType 1%positive (serviceQueueKey.mk "ns1" "svcA")
         {[ 80 := [2%positive] ]} "openshift_default_http" ∅ None
         sampleInformer "svcA" routeManager = Some (r, m') →
       storeInactiveNoMembers m' = true).
Proof.
  intros Hclaim.
  destruct (handleConfigForType 1%positive (serviceQueueKey.mk "ns1" "svcA")
              {[ 80 := [2%positive] ]} "openshift_default_http" ∅ None
              sampleInformer "svcA" routeManager) as [[r m']|] eqn:Hrun;
    [|vm_compute in Hrun; discriminate].
  specialize (Hclaim eq_refl r m' eq_refl).
  vm_compute in Hrun. injection Hrun as _ Hm'. subst m'.
  vm_compute in Hclaim. discriminate.
Qed.

(** ** handleConfigForType without a pool for the queued service *)

Section SliceLoop.
Context {A : Type} (z : A) (p : A → bool).
Hypothesis zero_kept : p z = false.

Lemma sliceRemoveLoop_idle (k j : nat) (arr : list A) (len : nat) :
  (len ≤ j)%nat → (j + k ≤ length arr)%nat →
  (∀ i, (len ≤ i)%nat → (i < length arr)%nat → arr !! i = Some z) →
  sliceRemoveLoop (Some z) (λ x, Some (p x)) (seq j k) arr len
  = Some (arr, len).
Proof.
  revert j. induction k as [|k IH]; intros j Hlen Hfit Hzero; [done|].
  cbn [seq sliceRemoveLoop]. rewrite (Hzero j) by lia.
  cbn [mbind option_bind]. rewrite zero_kept. apply IH; [lia | lia | done].
Qed.

Lemma sliceRemoveLoop_skipping (rest : list A) :
  ∀ (out : list A) (nz : nat),
    ∃ nz',
      sliceRemoveLoop (Some z) (λ x, Some (p x))
        (seq (length out) (length rest + nz))
        (out ++ rest ++ replicate nz z) (length out + length rest)
      = Some (out ++ removeSkipping p rest ++ replicate nz' z,
              (length out + length (removeSkipping p rest))%nat).
Proof.
  induction rest as [rest IH] using (induction_ltof1 _ (@length A)).
  unfold ltof in IH. intros out nz.
  destruct rest as [|x rest'].
  - exists nz. simpl. rewrite Nat.add_0_r.
    apply sliceRemoveLoop_idle; [lia | |].
    + rewrite length_app, length_replicate. lia.
    + intros i Hi Hlt. rewrite lookup_app_r by lia.
      apply lookup_replicate_2. rewrite length_app, length_replicate in Hlt. lia.
  - cbn [length Nat.add seq sliceRemoveLoop].
    rewrite lookup_app_r by lia. rewrite Nat.sub_diag.
    change (((x :: rest') ++ replicate nz z) !! 0%nat) with (Some x).
    cbn [mbind option_bind option_ret mret]. cbn beta.
    cbn [removeSkipping].
    destruct (p x) eqn:Hpx.
    + unfold sliceRemoveAt. rewrite decide_True by lia.
      cbn [mbind option_bind].
      assert (Harr : take (length out) (out ++ (x :: rest') ++ replicate nz z)
                     ++ drop (length out + 1)
                          (take (length out + S (length rest'))
                             (out ++ (x :: rest') ++ replicate nz z))
                     ++ [z]
                     ++ drop (length out + S (length rest'))
                          (out ++ (x :: rest') ++ replicate nz z)
                     = out ++ rest' ++ replicate (S nz) z).
      { rewrite take_app_length.
        rewrite (app_assoc out (x :: rest')).
        rewrite take_app_length' by (rewrite length_app; simpl; lia).
        rewrite (drop_app_length' (out ++ x :: rest'))
          by (rewrite length_app; simpl; lia).
        rewrite drop_app_ge by lia.
        replace (length out + 1 - length out)%nat with 1%nat by lia.
        simpl. reflexivity. }
      rewrite Harr.
      replace (length out + S (length rest') - 1)%nat
        with (length out + length rest')%nat by lia.
      destruct rest' as [|y rest''].
      * exists (S nz). simpl. rewrite Nat.add_0_r.
        apply sliceRemoveLoop_idle; [lia | |].
        -- rewrite length_app. simpl. rewrite length_replicate. lia.
        -- intros i Hi Hlt. rewrite lookup_app_r by lia.
           apply (lookup_replicate_2 (S nz)).
           rewrite length_app in Hlt. simpl in Hlt.
           rewrite length_replicate in Hlt. lia.
      * destruct (IH rest'' ltac:(simpl; lia) (out ++ [y]) (S nz)) as [nz' Hrun].
        exists nz'.
        etransitivity; [|etransitivity; [exact Hrun|]].
        -- f_equal.
           ++ f_equal; [rewrite length_app; simpl; lia | simpl; lia].
           ++ by rewrite <- app_assoc.
           ++ rewrite length_app. simpl. lia.
        -- rewrite <- app_assoc, length_app. simpl.
           f_equal. f_equal. lia.
    + destruct (IH rest' ltac:(simpl; lia) (out ++ [x]) nz) as [nz' Hrun].
      exists nz'.
      etransitivity; [|etransitivity; [exact Hrun|]].
      * f_equal.
        -- f_equal. rewrite length_app. simpl. lia.
        -- by rewrite <- app_assoc.
        -- rewrite length_app. simpl. lia.
      * rewrite <- app_assoc, length_app. simpl.
        f_equal. f_equal. lia.
Qed.

Lemma sliceRemoveAll_skipping (l : list A) :
  sliceRemoveAll (Some z) (λ x, Some (p x)) l = Some (removeSkipping p l).
Proof.
  unfold sliceRemoveAll.
  destruct (sliceRemoveLoop_skipping l [] 0%nat) as [nz' Hrun].
  simpl in Hrun. rewrite Nat.add_0_r, app_nil_r in Hrun.
  rewrite Hrun. simpl. f_equal. by rewrite take_app_length.
Qed.
End SliceLoop.

Lemma removeSkipping_filter {A} (p : A → bool) (l : list A) :
  adjacentPair p l = false →
  removeSkipping p l = filter (λ x, p x = false) l.
Proof.
  induction l as [l IH] using (induction_ltof1 _ (@length A)).
  unfold ltof in IH. intros Hadj.
  destruct l as [|x [|y l'']].
  - reflexivity.
  - simpl. rewrite filter_cons, filter_nil.
    destruct (p x) eqn:Hpx.
    + by rewrite decide_False.
    + by rewrite decide_True.
  - cbn [adjacentPair] in Hadj. apply orb_false_elim in Hadj as [Hxy Hrest].
    cbn [removeSkipping]. rewrite (filter_cons _ x).
    destruct (p x) eqn:Hpx.
    + simpl in Hxy. rewrite decide_False by done.
      rewrite filter_cons, decide_True by done.
      f_equal. apply IH; [simpl; lia|].
      destruct l'' as [|w r]; [done|].
      cbn [adjacentPair] in Hrest. by apply orb_false_elim in Hrest as [_ ?].
    + rewrite decide_True by done. f_equal.
      apply (IH (y :: l'')); [simpl; lia | done].
Qed.

(** The loop of [handleConfigForType] that removes the pools of a service
    from a stored config removes a pool of the service only where it
    examines one: the pool after a removed pool is kept unexamined.  It
    removes all pools of the service when no two of them are neighbours. *)
Lemma removePools_skipping (svcName : string) (pools : list Pool.t) :
  svcName ≠ "" →
  removePools svcName pools
  = Some (removeSkipping
            (λ pool, bool_decide (Pool.ServiceName pool = svcName)) pools).
Proof.
  intros Hname. unfold removePools.
  apply (sliceRemoveAll_skipping Pool.zero
           (λ pool, bool_decide (Pool.ServiceName pool = svcName))).
  apply bool_decide_eq_false_2. simpl. congruence.
Qed.

Lemma removePools_all_without_neighbours (svcName : string)
    (pools : list Pool.t) :
  svcName ≠ "" →
  adjacentPair (λ pool, bool_decide (Pool.ServiceName pool = svcName)) pools
  = false →
  removePools svcName pools
  = Some (filter (λ pool, Pool.ServiceName pool ≠ svcName) pools).
Proof.
  intros Hname Hadj. rewrite removePools_skipping by done.
  rewrite removeSkipping_filter by done. f_equal.
  apply list_filter_iff. intros pool.
  rewrite bool_decide_eq_false. done.
Qed.


(** The loop over the stored copies in the "not ours" branch runs to the
    end, and leaves the store pointing where it pointed. *)
Lemma forEach_removePools (rsName svcName : string)
    (cfgs : list (loc * serviceKey.t)) (m : Manager) :
  svcName ≠ "" →
  (∀ cfg key, (cfg, key) ∈ cfgs →
     is_Some (heap m !! cfg) ∧ resources m !! (key, rsName) = Some cfg) →
  ∃ h',
    forEach cfgs
      (λ '(cfg, key),
         sc ← deref cfg;
         pools ← lift (removePools svcName (ResourceConfig.Pools sc));
         store cfg (ResourceConfig.set_Pools pools sc);;
         Resources_Assign key rsName cfg) m
    = Some (tt, set_heap h' m)
    ∧ ∀ l, is_Some (heap m !! l) → is_Some (h' !! l).
Proof.
  intros Hname. revert m.
  induction cfgs as [|[cfg key] cfgs IH]; intros m Hcfgs.
  - exists (heap m). split; [by destruct m | done].
  - destruct (Hcfgs cfg key) as [[sc Hsc] Hres]; [by left|].
    set (sc' := ResourceConfig.set_Pools
                  (removeSkipping
                     (λ pool, bool_decide (Pool.ServiceName pool = svcName))
                     (ResourceConfig.Pools sc)) sc).
    set (m1 := set_heap (<[cfg := sc']> (heap m)) m).
    assert (Hbody :
      (sc ← deref cfg;
       pools ← lift (removePools svcName (ResourceConfig.Pools sc));
       store cfg (ResourceConfig.set_Pools pools sc);;
       Resources_Assign key rsName cfg) m = Some (tt, m1)).
    { unfold Resources_Assign. run. rewrite Hsc.
      rewrite removePools_skipping by done. simpl.
      rewrite insert_id by done. subst m1. by destruct m. }
    destruct (IH m1) as (h' & Hrun & Hdom).
    { intros cfg' key' Hin. destruct (Hcfgs cfg' key') as [Hsome Hres'];
        [by right|].
      split; [|exact Hres']. subst m1. cbn [heap set_heap].
      destruct (decide (cfg' = cfg)) as [->|Hne].
      - rewrite lookup_insert_eq. by eexists.
      - by rewrite lookup_insert_ne. }
    exists h'. split.
    + cbn [forEach]. rewrite (bind_run _ _ _ _ _ Hbody). exact Hrun.
    + intros l Hl. apply Hdom. subst m1. cbn [heap set_heap].
      destruct (decide (l = cfg)) as [->|Hne].
      * rewrite lookup_insert_eq. by eexists.
      * by rewrite lookup_insert_ne.
Qed.

(** The part of C7 that holds: for a candidate without a pool of the queued
    service, [handleConfigForType] returns "not ours" with both counts zero,
    leaves rsMap and the store's keys as they were, and only rewrites the
    pools of stored configs. *)
Lemma handleConfigForType_not_ours (rsCfg : loc) (sKey : serviceQueueKey.t)
    (rsMap : ResourceMap) (rsName : string) (svcPortMap : gset Z)
    (svc : option Service.t) (appInf : appInformer.t) (currRouteSvc : string)
    (m : Manager) (c : ResourceConfig.t) :
  heap m !! rsCfg = Some c →
  findPool (serviceQueueKey.ServiceName sKey) (ResourceConfig.Pools c) = None →
  serviceQueueKey.ServiceName sKey ≠ "" →
  (∀ e, e ∈ Resources_entries m → is_Some (heap m !! e.2)) →
  ∃ m',
    handleConfigForType rsCfg sKey rsMap rsName svcPortMap svc appInf
      currRouteSvc m = Some ((false, 0, 0, rsMap), m')
    ∧ resources m' = resources m.
Proof.
  intros Hc Hfind Hname Halloc.
  destruct (forEach_removePools rsName (serviceQueueKey.ServiceName sKey)
              (omap (λ e : serviceKey.t * string * loc,
                       if decide (e.1.2 = rsName) then Some (e.2, e.1.1)
                       else None) (Resources_entries m)) m Hname)
    as (h' & Hloop & _).
  { intros cfg key Hin. apply list_elem_of_omap in Hin.
    destruct Hin as ([[key' name'] cfg'] & He & Hf). simpl in Hf.
    destruct (decide (name' = rsName)) as [->|]; [|discriminate].
    injection Hf as -> ->. split; [by apply (Halloc _ He)|].
    unfold Resources_entries in He. by apply elem_of_map_to_list in He. }
  exists (set_heap h' m). split; [|reflexivity].
  unfold handleConfigForType.
  rewrite (bind_run (deref rsCfg) _ m m c) by (unfold deref; by rewrite Hc).
  rewrite Hfind.
  rewrite (bind_run (Resources_GetAllWithName rsName) _ m m _ eq_refl).
  by rewrite (bind_run _ _ _ _ _ Hloop).
Qed.

(** C7 fails on the code.  The stored copy of the Ingress virtual has the
    pools svcA:80, svcA:8080, svcB:80, the candidate has no pool of svcA.
    [handleConfigForType] for the key of svcA returns "not ours" with both
    counts zero, but the removal loop skips the pool that moved into the
    place of the one it removed: svcA:8080 stays in the stored copy. *)
Theorem handleConfigForType_skips_adjacent_pool :
  ∃ m' c',
    handleConfigForType 1%positive (serviceQueueKey.mk "ns1" "svcA") ∅
      "ns1_ing-ingress_80" ∅ None sampleInformer "" staleIngressManager
    = Some ((false, 0, 0, ∅), m')
    ∧ resources m' !! (serviceKey.mk "svcA" 80 "ns1", "ns1_ing-ingress_80")
      = Some 2%positive
    ∧ heap m' !! 2%positive = Some c'
    ∧ ResourceConfig.Pools c'
      = [samplePool "svcA" 8080 []; samplePool "svcB" 80 []].
Proof.
  eexists _, _. split; [vm_compute; reflexivity|].
  split; [vm_compute; reflexivity|].
  split; [vm_compute; reflexivity|].
  vm_compute. reflexivity.
Qed.

(** ** Accounting of handleConfigForType's results in the sub-syncs *)




(** ** Node updates *)

Lemma nodeUpdate_Some (newNodes : list string) (c : ResourceConfig.t)
    (p : Pool.t) :
  ResourceConfig.Pools c !! 0%nat = Some p →
  ∃ c',
    nodeUpdate newNodes c = Some c'
    ∧ MetaData.NodePort (ResourceConfig.MetaData c')
      = MetaData.NodePort (ResourceConfig.MetaData c)
    ∧ ResourceConfig.Pools c' !! 0%nat
      = Some (Pool.set_Members
                (nodeMembers newNodes
                   (MetaData.NodePort (ResourceConfig.MetaData c))) p)
    ∧ nodeUpdate newNodes c' = Some c'.
Proof.
  intros Hp. unfold nodeUpdate, ResourceConfig.set_PoolMembers.
  rewrite Hp. eexists. split; [reflexivity|]. split; [reflexivity|].
  assert (Hlt : (0 < length (ResourceConfig.Pools c))%nat)
    by (by eapply lookup_lt_Some).
  split.
  - simpl. by rewrite list_lookup_insert_eq.
  - simpl. rewrite list_lookup_insert_eq by done.
    unfold ResourceConfig.set_Pools. simpl.
    by rewrite list_insert_insert_eq.
Qed.

(** The [ForEach] loop of [ProcessNodeUpdate] applies [nodeUpdate] to every
    object the store points to, and to nothing else. *)
Lemma forEach_nodeUpdate (newNodes : list string)
    (es : list (serviceKey.t * string * loc)) (m : Manager) :
  (∀ e, e ∈ es →
     ∃ c p, heap m !! e.2 = Some c ∧ ResourceConfig.Pools c !! 0%nat = Some p) →
  ∃ h',
    forEach es
      (λ e, c ← deref e.2;
            setPoolMembers e.2 0
              (nodeMembers newNodes
                 (MetaData.NodePort (ResourceConfig.MetaData c)))) m
    = Some (tt, set_heap h' m)
    ∧ ∀ l, h' !! l
           = if decide (l ∈ es.*2) then heap m !! l ≫= nodeUpdate newNodes
             else heap m !! l.
Proof.
  revert m. induction es as [|e es IH]; intros m Hes.
  - exists (heap m). split; [by destruct m|]. intros l.
    rewrite decide_False; [done|]. simpl. apply not_elem_of_nil.
  - destruct (Hes e) as (c & p & Hc & Hp); [by left|].
    destruct (nodeUpdate_Some newNodes c p Hp) as (c' & Hupd & Hport & Hp' & Hidem).
    set (m1 := set_heap (<[e.2 := c']> (heap m)) m).
    assert (Hbody :
      (c ← deref e.2;
       setPoolMembers e.2 0
         (nodeMembers newNodes
            (MetaData.NodePort (ResourceConfig.MetaData c)))) m
      = Some (tt, m1)).
    { unfold setPoolMembers. run. rewrite Hc. simpl. rewrite Hc. simpl.
      unfold nodeUpdate in Hupd. rewrite Hupd. reflexivity. }
    destruct (IH m1) as (h' & Hrun & Hh').
    { intros e' He'. destruct (decide (e'.2 = e.2)) as [Heq|Hne].
      - exists c', (Pool.set_Members
                      (nodeMembers newNodes
                         (MetaData.NodePort (ResourceConfig.MetaData c))) p).
        split; [|exact Hp']. simpl. rewrite Heq. apply lookup_insert_eq.
      - destruct (Hes e') as (c0 & p0 & Hc0 & Hp0); [by right|].
        exists c0, p0. split; [|exact Hp0].
        simpl. by rewrite lookup_insert_ne. }
    exists h'. split.
    + cbn [forEach]. rewrite (bind_run _ _ _ _ _ Hbody). exact Hrun.
    + intros l. rewrite Hh'. subst m1. cbn [heap set_heap]. rewrite fmap_cons.
      destruct (decide (l = e.2)) as [->|Hne].
      * rewrite lookup_insert_eq, Hc. cbn [mbind option_bind].
        rewrite (decide_True (P := e.2 ∈ e.2 :: es.*2)) by (by left).
        rewrite Hupd. destruct (decide (e.2 ∈ es.*2)); [exact Hidem | done].
      * rewrite lookup_insert_ne by done.
        destruct (decide (l ∈ es.*2)) as [Hin|Hnin].
        -- rewrite decide_True; [done | by right].
        -- rewrite decide_False; [done|].
           intros [?|?]%elem_of_cons; done.
Qed.

(** C6, as the code has it.  [ProcessNodeUpdate] computes the sorted list of
    addresses (of the configured type) of the schedulable nodes.  While the
    initial-state flag is false, every call records that list as the
    baseline and does nothing else: nothing is emitted and no config
    changes.  Once the flag is true, a call whose list differs from the
    baseline (an unset baseline differs from every list) gives pool 0 of
    every stored config, each of which must have a pool, exactly the new
    addresses paired with the config's node port, emits the configuration
    and makes the new list the baseline; a call whose list equals the
    baseline changes nothing. *)
Theorem ProcessNodeUpdate_by_initial_state (nodes : list Node.t)
    (m : Manager) :
  let newNodes := newNodeList m nodes in
  (initialState m = false →
     ProcessNodeUpdate (Some nodes) None m
     = Some (tt, set_oldNodes (Some newNodes) m))
  ∧ (initialState m = true → oldNodes m = Some newNodes →
       ProcessNodeUpdate (Some nodes) None m = Some (tt, m))
  ∧ (initialState m = true → oldNodes m ≠ Some newNodes →
       (∀ e, e ∈ Resources_entries m →
          ∃ c p, heap m !! e.2 = Some c
                 ∧ ResourceConfig.Pools c !! 0%nat = Some p) →
       ∃ m',
         ProcessNodeUpdate (Some nodes) None m = Some (tt, m')
         ∧ emitted m m'
         ∧ oldNodes m' = Some newNodes
         ∧ resources m' = resources m
         ∧ ∀ e, e ∈ Resources_entries m →
             ∃ c c' p',
               heap m !! e.2 = Some c
               ∧ heap m' !! e.2 = Some c'
               ∧ MetaData.NodePort (ResourceConfig.MetaData c')
                 = MetaData.NodePort (ResourceConfig.MetaData c)
               ∧ ResourceConfig.Pools c' !! 0%nat = Some p'
               ∧ Pool.Members p'
                 = nodeMembers newNodes
                     (MetaData.NodePort (ResourceConfig.MetaData c'))).
Proof.
  intros newNodes.
  assert (Hstart : ∀ k : list string + error → M unit,
            (getNodeAddresses (Some nodes) ≫= k) m
            = k (inl (schedulableAddresses
                        (if useNodeInternal m then NodeInternalIP
                         else NodeExternalIP) nodes)) m)
    by (intros k; by apply bind_run).
  unfold ProcessNodeUpdate. rewrite Hstart. cbn beta iota.
  fold (newNodeList m nodes). fold newNodes.
  rewrite (bind_run get _ m m m eq_refl).
  repeat split.
  - intros Hinit. rewrite Hinit. reflexivity.
  - intros Hinit Hsame. rewrite Hinit.
    rewrite decide_False; [done|]. intros Hne. by apply Hne.
  - intros Hinit Hdiff Hpools.
    destruct (forEach_nodeUpdate newNodes (Resources_entries m) m Hpools)
      as (h' & Hloop & Hh').
    exists (set_oldNodes (Some newNodes)
              (set_written (S (written m)) (set_heap h' m))).
    split.
    { rewrite Hinit.
      rewrite decide_True by (intros Heq; by apply Hdiff).
      rewrite (bind_run _ _ _ _ _ Hloop). reflexivity. }
    split; [reflexivity|]. split; [reflexivity|]. split; [reflexivity|].
    intros e He. destruct (Hpools e He) as (c & p & Hc & Hp).
    destruct (nodeUpdate_Some newNodes c p Hp)
      as (c' & Hupd & Hport & Hp' & _).
    exists c, c', (Pool.set_Members
                     (nodeMembers newNodes
                        (MetaData.NodePort (ResourceConfig.MetaData c))) p).
    split; [exact Hc|]. split.
    { cbn [heap set_oldNodes set_written set_heap].
      rewrite Hh'. rewrite decide_True.
      - rewrite Hc. exact Hupd.
      - apply list_elem_of_fmap. by exists e. }
    split; [exact Hport|]. split; [exact Hp'|].
    simpl. by rewrite Hport.
Qed.

Lemma ProcessNodeUpdate_by_initial_state_witness :
  let nodes :=
    [sampleNode false "10.0.0.2" "2.2.2.2"; sampleNode true "10.0.0.9" "9.9.9.9";
     sampleNode false "10.0.0.1" "1.1.1.1"] in
  ProcessNodeUpdate (Some nodes) None (nodePortManager false)
  = Some (tt, set_oldNodes (Some ["10.0.0.1"; "10.0.0.2"])
                (nodePortManager false))
  ∧ ∃ m' c' p',
      ProcessNodeUpdate (Some nodes) None (nodePortManager true)
      = Some (tt, m')
      ∧ emitted (nodePortManager true) m'
      ∧ oldNodes m' = Some ["10.0.0.1"; "10.0.0.2"]
      ∧ heap m' !! 1%positive = Some c'
      ∧ ResourceConfig.Pools c' !! 0%nat = Some p'
      ∧ Pool.Members p'
        = [Member.mk "10.0.0.1" 30080 "user-enabled";
           Member.mk "10.0.0.2" 30080 "user-enabled"].
Proof.
  intros nodes.
  destruct (ProcessNodeUpdate_by_initial_state nodes (nodePortManager false))
    as (Hfirst & _ & _).
  destruct (ProcessNodeUpdate_by_initial_state nodes (nodePortManager true))
    as (_ & _ & Hlater).
  split; [exact (Hfirst eq_refl)|].
  assert (Hentries : Resources_entries (nodePortManager true)
                     = [(serviceKey.mk "svcA" 80 "ns1", "ns1_cm", 1%positive)])
    by (vm_compute; reflexivity).
  destruct Hlater as (m' & Hrun & Hemit & Hold & _ & Hall).
  - reflexivity.
  - discriminate.
  - intros e He. rewrite Hentries in He.
    apply list_elem_of_singleton in He. subst e.
    eexists _, _. split; reflexivity.
  - destruct (Hall (serviceKey.mk "svcA" 80 "ns1", "ns1_cm", 1%positive))
      as (c & c' & p' & Hc & Hc' & Hport & Hp' & Hmem).
    { rewrite Hentries. by left. }
    vm_compute in Hc. injection Hc as <-.
    exists m', c', p'. split; [exact Hrun|]. split; [exact Hemit|].
    split; [exact Hold|]. split; [exact Hc'|]. split; [exact Hp'|].
    rewrite Hmem, Hport. vm_compute. reflexivity.
Defined.

(** C6, as stated, fails.  The initial-state flag is false and stays false
    over two calls.  The second call is a later call whose list differs from
    the baseline the first call recorded, yet it emits nothing and leaves
    the members of the stored node-port config as they were: it only
    replaces the baseline. *)
Lemma ProcessNodeUpdate_later_call_before_initial_state :
  let first := [sampleNode false "10.0.0.1" "1.1.1.1"] in
  let later :=
    [sampleNode false "10.0.0.1" "1.1.1.1";
     sampleNode false "10.0.0.2" "2.2.2.2"] in
  ¬ (∀ m1 m2,
       ProcessNodeUpdate (Some first) None (nodePortManager false)
       = Some (tt, m1) →
       ProcessNodeUpdate (Some later) None m1 = Some (tt, m2) →
       oldNodes m1 ≠ Some (newNodeList m1 later) →
       nodeUpdateApplied (newNodeList m1 later) m1 m2).
Proof.
  intros first later Hclaim.
  destruct (ProcessNodeUpdate (Some first) None (nodePortManager false))
    as [[[] m1]|] eqn:H1; [|vm_compute in H1; discriminate].
  destruct (ProcessNodeUpdate (Some later) None m1)
    as [[[] m2]|] eqn:H2.
  2:{ vm_compute in H1. injection H1 as <-. vm_compute in H2. discriminate. }
  specialize (Hclaim m1 m2 eq_refl H2).
  vm_compute in H1. injection H1 as <-.
  vm_compute in H2. injection H2 as <-.
  destruct Hclaim as (Hemit & _); [vm_compute; discriminate|].
  vm_compute in Hemit. discriminate.
Qed.

(** ** The cluster default certificate *)

(** The first successful encounter: the profile is not stored and the file
    can be read.  The file is read once, the profile is stored for the
    namespace and reported as added. *)
Lemma loadDefaultCert_first (namespace data : string) (m : Manager) :
  customProfiles m !! defaultCertKey namespace = None →
  files m !! defaultCertPath = Some data →
  let profile :=
    ProfileRef.mk "openshift_route_cluster_default-server-ssl"
      DEFAULT_PARTITION customProfileServer in
  ∃ m',
    loadDefaultCert namespace m = Some ((Some profile, true), m')
    ∧ caReads m' = S (caReads m)
    ∧ customProfiles m' !! defaultCertKey namespace
      = Some (NewCustomProfile profile data).
Proof.
  intros Hnone Hfile profile. unfold loadDefaultCert, ReadFile.
  run. fold (defaultCertKey namespace). rewrite Hnone.
  rewrite bool_decide_eq_false_2 by (intros [? ?]; discriminate).
  simpl. rewrite Hfile. eexists. split; [reflexivity|].
  split; [reflexivity|]. simpl. apply lookup_insert_eq.
Qed.

(** While the profile is stored, the file is not read and nothing is
    reported as added. *)
Lemma loadDefaultCert_stored (namespace : string) (m : Manager) :
  is_Some (customProfiles m !! defaultCertKey namespace) →
  loadDefaultCert namespace m
  = Some ((Some (ProfileRef.mk "openshift_route_cluster_default-server-ssl"
                   DEFAULT_PARTITION customProfileServer), false), m).
Proof.
  intros Hsome. unfold loadDefaultCert. run.
  fold (defaultCertKey namespace).
  by rewrite bool_decide_eq_true_2.
Qed.

Section DefaultCert.
Context `{VirtualOps}.

(** [deleteUnusedProfiles] keeps a profile only if a stored config is
    named like the owning resource of its key and the key is of the
    namespace being synced.  A key whose owning resource names no stored
    config is dropped, and so is every key of another namespace. *)
Lemma deleteUnusedProfiles_drops (namespace : string) (key : secretKey.t)
    (m : Manager) :
  (∀ e c, e ∈ Resources_entries m → heap m !! e.2 = Some c →
     Virtual.VirtualServerName (ResourceConfig.Virtual c)
     ≠ secretKey.ResourceName key)
  ∨ secretKey.Namespace key ≠ namespace →
  ∃ m',
    deleteUnusedProfiles namespace m = Some (tt, m')
    ∧ customProfiles m' !! key = None
    ∧ heap m' = heap m ∧ resources m' = resources m
    ∧ caReads m' = caReads m.
Proof.
  intros Hcase. unfold deleteUnusedProfiles. run.
  eexists. split; [reflexivity|]. split; [|done].
  simpl. apply map_lookup_filter_None. right.
  intros profile _. simpl. intros Href.
  unfold profileReferenced in Href. apply existsb_exists in Href.
  destruct Href as (e & He & Hbody).
  apply list_elem_of_In in He.
  destruct (heap m !! e.2) as [c|] eqn:Hc; [|discriminate].
  apply andb_prop in Hbody as [Hbody _].
  apply andb_prop in Hbody as [Hname Hns].
  apply bool_decide_eq_true in Hname, Hns.
  destruct Hcase as [Hnames | Hother]; [|done].
  by apply (Hnames e c He Hc).
Qed.

End DefaultCert.

Section DefaultCertPass.
Context `{VirtualOps}.
Variables (sKey : serviceQueueKey.t) (rsCfg : loc) (route : Route.t)
  (tls : TLSConfig.t) (data : string).
Hypothesis route_tls : Route.TLS route = Some tls.
Hypothesis no_destination_ca : TLSConfig.DestinationCACertificate tls = "".
Hypothesis keeps_name : ∀ p v,
  Virtual.VirtualServerName (AddOrUpdateProfile p v)
  = Virtual.VirtualServerName v.

Lemma reencryptRoutePass_reads (m : Manager) :
  passReady sKey rsCfg data m →
  ∃ stats m',
    reencryptRoutePass sKey rsCfg route m = Some (stats, m')
    ∧ vsSyncStats.cpUpdated stats = 1
    ∧ caReads m' = S (caReads m)
    ∧ passReady sKey rsCfg data m'.
Proof.
  unfold passReady. intros (Hfile & Hnone & (c & Hc & Hname) & Hnames).
  destruct (loadDefaultCert_first _ data m Hnone Hfile)
    as (ma & Hload & Hreads & Hstored).
  assert (Hsame : heap ma = heap m ∧ resources ma = resources m
                  ∧ files ma = files m).
  { unfold loadDefaultCert, ReadFile in Hload. run.
    fold (defaultCertKey (serviceQueueKey.Namespace sKey)) in Hload.
    rewrite Hnone in Hload.
    rewrite bool_decide_eq_false_2 in Hload
      by (intros [? ?]; discriminate).
    simpl in Hload. rewrite Hfile in Hload.
    by injection Hload as <-. }
  destruct Hsame as (Hheap & Hres & Hfile').
  set (profile := ProfileRef.mk "openshift_route_cluster_default-server-ssl"
                    DEFAULT_PARTITION customProfileServer) in *.
  set (c1 := ResourceConfig.set_Virtual
               (AddOrUpdateProfile profile (ResourceConfig.Virtual c)) c).
  set (mb := set_heap (<[rsCfg := c1]> (heap ma)) ma).
  assert (Hset :
    setServerSslProfile vsSyncStats.zero sKey rsCfg route m
    = Some (vsSyncStats.add_cpUpdated 1 vsSyncStats.zero, mb)).
  { unfold setServerSslProfile. rewrite route_tls. cbn [lift].
    rewrite (bind_run (mret tls) _ m m tls eq_refl).
    rewrite decide_False by (intros Hn; by apply Hn).
    rewrite (bind_run _ _ _ _ _ Hload). cbn beta iota.
    unfold updateVirtual. run. rewrite Hheap, Hc. reflexivity. }
  destruct (deleteUnusedProfiles_drops (serviceQueueKey.Namespace sKey)
              (defaultCertKey (serviceQueueKey.Namespace sKey)) mb)
    as (m' & Hdel & Hgone & Hheap' & Hres' & Hreads').
  { left. intros e c' He. subst mb. cbn [heap set_heap].
    destruct (decide (e.2 = rsCfg)) as [->|Hne].
    - rewrite lookup_insert_eq. intros [= <-]. subst c1. simpl.
      by rewrite keeps_name.
    - rewrite lookup_insert_ne, Hheap by done. intros Hc'.
      apply (Hnames e c'); [|done].
      unfold Resources_entries in *. simpl in He. by rewrite Hres in He. }
  exists (vsSyncStats.add_cpUpdated 1 vsSyncStats.zero), m'.
  split.
  { unfold reencryptRoutePass. rewrite (bind_run _ _ _ _ _ Hset).
    by rewrite (bind_run _ _ _ _ _ Hdel). }
  split; [reflexivity|]. split; [rewrite Hreads'; exact Hreads|].
  assert (Hfile'' : files m' = files mb).
  { unfold deleteUnusedProfiles in Hdel. run. by injection Hdel as <-. }
  split; [rewrite Hfile''; simpl; by rewrite Hfile'|].
  split; [exact Hgone|]. split.
  - exists c1. rewrite Hheap'. subst mb. cbn [heap set_heap].
    split; [apply lookup_insert_eq|]. subst c1. simpl.
    by rewrite keeps_name.
  - intros e c' He. rewrite Hheap'. subst mb. cbn [heap set_heap].
    destruct (decide (e.2 = rsCfg)) as [->|Hne].
    + rewrite lookup_insert_eq. intros [= <-]. subst c1. simpl.
      by rewrite keeps_name.
    + rewrite lookup_insert_ne, Hheap by done. intros Hc'.
      apply (Hnames e c'); [|done].
      unfold Resources_entries in *. rewrite Hres' in He. simpl in He.
      by rewrite Hres in He.
Qed.

(** C8 fails on the code.  A reencrypt route has no destination CA
    certificate and the cluster CA file is readable.  A run stores the
    default profile under a key without owning resource and reports
    cpUpdated = 1; [deleteUnusedProfiles] at the end of the same run drops
    that profile, because no stored config has the empty name.  So the
    next run for the same namespace reads the file again and reports
    cpUpdated = 1 again: after two runs the file has been read twice. *)
Theorem default_cert_read_again_by_next_sync (m : Manager) :
  passReady sKey rsCfg data m →
  ∃ stats1 m1 stats2 m2,
    reencryptRoutePass sKey rsCfg route m = Some (stats1, m1)
    ∧ reencryptRoutePass sKey rsCfg route m1 = Some (stats2, m2)
    ∧ vsSyncStats.cpUpdated stats1 = 1
    ∧ customProfiles m1 !! defaultCertKey (serviceQueueKey.Namespace sKey)
      = None
    ∧ vsSyncStats.cpUpdated stats2 = 1
    ∧ caReads m2 = S (S (caReads m)).
Proof.
  intros Hready.
  destruct (reencryptRoutePass_reads m Hready)
    as (stats1 & m1 & Hrun1 & Hcp1 & Hreads1 & Hready1).
  destruct (reencryptRoutePass_reads m1 Hready1)
    as (stats2 & m2 & Hrun2 & Hcp2 & Hreads2 & _).
  exists stats1, m1, stats2, m2.
  split; [exact Hrun1|]. split; [exact Hrun2|]. split; [exact Hcp1|].
  split; [apply Hready1|]. split; [exact Hcp2|].
  by rewrite Hreads2, Hreads1.
Qed.

End DefaultCertPass.

Lemma default_cert_read_again_by_next_sync_witness :
  let sKey := serviceQueueKey.mk "ns1" "svcA" in
  ∃ stats1 m1 stats2 m2,
    @reencryptRoutePass sampleOps sKey 1%positive sampleReencryptRoute
      reencryptManager = Some (stats1, m1)
    ∧ @reencryptRoutePass sampleOps sKey 1%positive sampleReencryptRoute m1
      = Some (stats2, m2)
    ∧ vsSyncStats.cpUpdated stats1 = 1
    ∧ customProfiles m1 !! defaultCertKey "ns1" = None
    ∧ vsSyncStats.cpUpdated stats2 = 1
    ∧ caReads m2 = 2%nat.
Proof.
  intros sKey.
  apply (@default_cert_read_again_by_next_sync sampleOps sKey 1%positive
           sampleReencryptRoute
           (TLSConfig.mk TLSTerminationReencrypt "" "" "")
           "-----BEGIN CERTIFICATE-----" eq_refl eq_refl
           (λ _ _, eq_refl) reencryptManager).
  split; [reflexivity|]. split; [reflexivity|].
  assert (Hentries :
    Resources_entries reencryptManager
    = [(serviceKey.mk "svcA" 443 "ns1", "openshift_default_https", 1%positive)])
    by (vm_compute; reflexivity).
  split.
  - eexists. split; [reflexivity | discriminate].
  - intros e c He. rewrite Hentries in He.
    apply list_elem_of_singleton in He. subst e.
    intros Hc. vm_compute in Hc. injection Hc as <-. discriminate.
Defined.

(** * Further properties of the code *)

(** ** Watching namespaces *)

Lemma set_appInformers_id m : set_appInformers (appInformers m) m = m.
Proof. by destruct m. Qed.

Lemma watchingAll_run m :
  watchingAllNamespacesLocked m
  = Some (bool_decide (is_Some (appInformers m !! "")), m).
Proof.
  unfold watchingAllNamespacesLocked. run.
  destruct (decide _) as [Hs|Hs]; [|done].
  apply map_size_empty_iff in Hs. rewrite Hs, lookup_empty.
  rewrite bool_decide_eq_false_2; [done|]. by intros [? ?].
Qed.

Lemma getNamespaceInformerLocked_run ns m :
  getNamespaceInformerLocked ns m
  = Some (match appInformers m !! "" with
          | Some inf => Some inf
          | None => appInformers m !! ns
          end, m).
Proof.
  unfold getNamespaceInformerLocked.
  rewrite (bind_run _ _ _ _ _ (watchingAll_run m)). run.
  destruct (appInformers m !! "") eqn:E.
  - rewrite bool_decide_eq_true_2 by eauto. by rewrite E.
  - rewrite bool_decide_eq_false_2; [done|]. by intros [? ?].
Qed.

Lemma addNamespaceLocked_run ns sel rp m :
  addNamespaceLocked ns sel rp m
  = match appInformers m !! "" with
    | Some _ => Some ((None, Some ErrWatchingAll), m)
    | None =>
        if decide (ns = "" ∧ appInformers m ≠ ∅) then
          Some ((None, Some ErrWatchingSpecific), m)
        else match appInformers m !! ns with
             | Some inf => Some ((Some inf, None), m)
             | None =>
                 let inf := appInformer.mk ns sel rp ∅ ∅ (routeClientV1 m) in
                 Some ((Some inf, None),
                       set_appInformers (<[ns := inf]> (appInformers m)) m)
             end
    end.
Proof.
  unfold addNamespaceLocked.
  rewrite (bind_run _ _ _ _ _ (watchingAll_run m)).
  destruct (appInformers m !! "") eqn:E.
  - rewrite bool_decide_eq_true_2 by eauto. done.
  - rewrite bool_decide_eq_false_2 by (by intros [? ?]).
    unfold newAppInformer. run.
    destruct (decide (_ ∧ "" = ns)) as [[Hs <-]|Hn].
    + rewrite decide_True; [done|]. split; [done|].
      intros Hm. rewrite Hm, map_size_empty in Hs. lia.
    + rewrite decide_False.
      2:{ intros [-> Hm]. apply Hn. split; [|done].
          apply map_size_non_empty_iff in Hm. lia. }
      by destruct (appInformers m !! ns).
Qed.

Lemma AddNamespace_run ns sel rp m :
  AddNamespace ns sel rp m
  = match addNamespaceLocked ns sel rp m with
    | Some ((_, err), m') => Some (err, m')
    | None => None
    end.
Proof.
  unfold AddNamespace. run.
  destruct (addNamespaceLocked ns sel rp m) as [[[? ?] ?]|]; done.
Qed.

(** X1.  When the manager is not watching all namespaces, and for the
    all-namespaces name only while no informer exists, [AddNamespace]
    succeeds.  If the namespace already has an informer the manager is left
    as it was (the selector and resync period of the call are dropped);
    otherwise an informer with the arguments of the call is stored under the
    namespace.  Afterwards [getNamespaceInformer] finds the informer of the
    namespace. *)
Theorem AddNamespace_watches ns sel rp m :
  appInformers m !! "" = None →
  (ns = "" → appInformers m = ∅) →
  ∃ m',
    AddNamespace ns sel rp m = Some (None, m')
    ∧ appInformers m'
      = match appInformers m !! ns with
        | Some _ => appInformers m
        | None =>
            <[ns := appInformer.mk ns sel rp ∅ ∅ (routeClientV1 m)]>
              (appInformers m)
        end
    ∧ (is_Some (appInformers m !! ns) → m' = m)
    ∧ ∃ inf, getNamespaceInformer ns m' = Some (Some inf, m')
             ∧ appInformers m' !! ns = Some inf.
Proof.
  intros E0 Hall.
  rewrite AddNamespace_run, addNamespaceLocked_run, E0.
  rewrite decide_False by (intros [? ?]; auto).
  unfold getNamespaceInformer.
  destruct (appInformers m !! ns) as [inf|] eqn:En.
  - exists m. split; [done|]. split; [done|]. split; [done|].
    exists inf. rewrite getNamespaceInformerLocked_run, E0, En. done.
  - eexists. split; [reflexivity|]. cbn [appInformers set_appInformers].
    split; [done|]. split; [by intros [? ?]|].
    eexists. rewrite getNamespaceInformerLocked_run.
    cbn [appInformers set_appInformers].
    rewrite lookup_insert_eq. split; [|done].
    destruct (decide (ns = "")) as [->|Hne].
    + by rewrite lookup_insert_eq.
    + rewrite lookup_insert_ne by done. by rewrite E0.
Qed.

(** X2.  After a successful [AddNamespace], the same namespace can be added
    again without an error and without any change, whatever the selector of
    the second call; only for the all-namespaces name the second call fails
    with the watching-all error. *)
Theorem AddNamespace_again ns sel rp sel' rp' m m1 :
  AddNamespace ns sel rp m = Some (None, m1) →
  AddNamespace ns sel' rp' m1
  = Some (if decide (ns = "") then Some ErrWatchingAll else None, m1).
Proof.
  rewrite !AddNamespace_run, !addNamespaceLocked_run.
  destruct (appInformers m !! "") eqn:E0; [done|].
  destruct (decide (ns = "" ∧ _)) as [|Hn]; [done|].
  destruct (appInformers m !! ns) eqn:En.
  - intros [= <-]. rewrite E0.
    destruct (decide (ns = "")) as [->|Hne]; [congruence|].
    rewrite decide_False by naive_solver. by rewrite En.
  - intros [= <-]. cbn.
    destruct (decide (ns = "")) as [->|Hne].
    + by rewrite lookup_insert_eq.
    + rewrite lookup_insert_ne by done. rewrite E0.
      rewrite decide_False by (intros [? _]; done). by rewrite lookup_insert_eq.
Qed.

(** X3.  [removeNamespace] undoes [AddNamespace]: removing a namespace that
    the preceding call added restores the manager, and removing it once more
    (or before it was added) is refused with an error and changes nothing. *)
Theorem removeNamespace_after_AddNamespace ns sel rp m m1 :
  appInformers m !! ns = None →
  AddNamespace ns sel rp m = Some (None, m1) →
  removeNamespace ns m1 = Some (None, m)
  ∧ removeNamespace ns m = Some (Some (ErrNoInformers ns), m).
Proof.
  intros Hns. rewrite AddNamespace_run, addNamespaceLocked_run.
  destruct (appInformers m !! "") eqn:E0; [done|].
  destruct (decide (ns = "" ∧ _)) as [|Hn]; [done|].
  rewrite Hns. intros [= <-].
  unfold removeNamespace, removeNamespaceLocked. run.
  rewrite Hns. split; [|done].
  destruct m; cbn in *. rewrite lookup_insert_eq. cbn.
  rewrite delete_insert_eq, delete_id by done. done.
Qed.

Lemma exclusiveWatch_add ns sel rp r m m' :
  exclusiveWatch m → addNamespaceLocked ns sel rp m = Some (r, m') →
  exclusiveWatch m'.
Proof.
  intros Hinv. rewrite addNamespaceLocked_run.
  destruct (appInformers m !! "") eqn:E0; [by intros [= <- <-]|].
  destruct (decide (ns = "" ∧ _)) as [|Hn]; [by intros [= <- <-]|].
  destruct (appInformers m !! ns) eqn:En; intros [= <- <-]; [done|].
  unfold exclusiveWatch. cbn [appInformers set_appInformers].
  intros Hall ns' Hns'.
  destruct (decide (ns = "")) as [->|Hne].
  - destruct (decide (ns' = "")) as [|Hne']; [done|].
    rewrite lookup_insert_ne in Hns' by done.
    assert (appInformers m = ∅) as Hm.
    { destruct (decide (appInformers m = ∅)); [done|]. naive_solver. }
    rewrite Hm, lookup_empty in Hns'. by destruct Hns'.
  - rewrite lookup_insert_ne, E0 in Hall by done. by destruct Hall.
Qed.

Lemma exclusiveWatch_remove ns r m m' :
  exclusiveWatch m → removeNamespaceLocked ns m = Some (r, m') →
  exclusiveWatch m'.
Proof.
  intros Hinv. unfold removeNamespaceLocked. run.
  destruct (appInformers m !! ns) eqn:En; intros [= <- <-]; [|done].
  unfold exclusiveWatch. cbn [appInformers set_appInformers].
  intros [x Hall] ns' [y Hns'].
  apply lookup_delete_Some in Hall as [? Hall].
  apply lookup_delete_Some in Hns' as [? Hns'].
  apply Hinv; eauto.
Qed.

Lemma exclusiveWatch_appInformers m m' :
  appInformers m' = appInformers m → exclusiveWatch m → exclusiveWatch m'.
Proof. unfold exclusiveWatch. by intros ->. Qed.

Lemma set_resources_id m : set_resources (resources m) m = m.
Proof. by destruct m. Qed.

Lemma set_resources_twice R R' m :
  set_resources R (set_resources R' m) = set_resources R m.
Proof. done. Qed.

Lemma Exists_entries_key (key : serviceKey.t) m :
  Exists (λ e : (serviceKey.t * string) * loc, e.1.1 = key) (Resources_entries m)
  ↔ ∃ name l, resources m !! (key, name) = Some l.
Proof.
  unfold Resources_entries. rewrite Exists_exists. split.
  - intros [[[k name] l] [Hin Hk]]. cbn in Hk. subst k.
    apply elem_of_map_to_list in Hin. eauto.
  - intros (name & l & Hl). exists ((key, name), l).
    split; [by apply elem_of_map_to_list|done].
Qed.

Lemma syncNamespace_delete_loop (nsName : string)
    (es : list ((serviceKey.t * string) * loc)) : ∀ (n : Z) (m : Manager),
  ∃ n',
    foldM es
      (λ rsDeleted e,
         if decide (serviceKey.Namespace e.1.1 = nsName) then
           deleted ← Resources_DeleteKey e.1.1;
           mret (if deleted : bool then rsDeleted + 1 else rsDeleted)
         else mret rsDeleted) n m
    = Some (n',
            set_resources
              (filter (λ e : (serviceKey.t * string) * loc,
                         ¬ (serviceKey.Namespace e.1.1 = nsName
                            ∧ e.1.1 ∈ es.*1.*1))
                 (resources m)) m)
    ∧ n ≤ n'
    ∧ (n < n' ↔ ∃ e, e ∈ es ∧ serviceKey.Namespace e.1.1 = nsName
                     ∧ ∃ name l, resources m !! (e.1.1, name) = Some l).
Proof.
  induction es as [|x es IH]; intros n m.
  - exists n. cbn [foldM]. split; [|split; [lia|]].
    + rewrite map_filter_id, set_resources_id; [done|].
      intros i y _ [_ Hin]. cbn in Hin. by apply elem_of_nil in Hin.
    + split; [lia|]. intros (e & Hin & _). by apply elem_of_nil in Hin.
  - cbn [foldM].
    destruct (decide (serviceKey.Namespace x.1.1 = nsName)) as [Hx|Hx].
    + set (m1 := set_resources
                   (filter (λ e : (serviceKey.t * string) * loc, e.1.1 ≠ x.1.1)
                      (resources m)) m).
      set (b := bool_decide
                  (Exists (λ e : (serviceKey.t * string) * loc, e.1.1 = x.1.1)
                     (Resources_entries m))).
      destruct (IH (if b then n + 1 else n) m1) as (n' & Hrun & Hle & Hiff).
      exists n'. rewrite (bind_run _ _ m m1 (if b then n + 1 else n)) by reflexivity.
      rewrite Hrun. split; [|split].
      * f_equal. f_equal. subst m1. rewrite set_resources_twice.
        cbn [resources set_resources]. f_equal.
        rewrite map_filter_filter. apply map_filter_ext.
        intros [k nm] l _. cbn [fst snd]. rewrite !fmap_cons, elem_of_cons.
        split; [intros [H1 H2] [H3 [H4|H4]]; [congruence|tauto]|].
        intros H1. split; [intros [? ?]; tauto|]. intros ->. tauto.
      * destruct b; lia.
      * assert (Hb : b = true ↔ ∃ name l, resources m !! (x.1.1, name) = Some l).
        { subst b. rewrite bool_decide_eq_true. apply Exists_entries_key. }
        split.
        -- intros Hlt. destruct b eqn:Eb.
           ++ exists x. split; [left|]. split; [done|]. by apply Hb.
           ++ destruct Hiff as [Hiff _]. destruct (Hiff Hlt) as (e & Hin & He & name & l & Hl).
              exists e. split; [by right|]. split; [done|].
              subst m1. cbn [resources set_resources] in Hl.
              apply map_lookup_filter_Some in Hl as [Hl _]. eauto.
        -- intros (e & Hin & He & name & l & Hl).
           destruct b eqn:Eb; [lia|].
           apply Hiff. apply elem_of_cons in Hin as [->|Hin].
           ++ assert (false = true) by (apply Hb; eauto). done.
           ++ exists e. split; [done|]. split; [done|]. exists name, l.
              subst m1. cbn [resources set_resources].
              apply map_lookup_filter_Some. split; [done|]. cbn.
              intros Heq. assert (false = true); [|done].
              apply Hb. rewrite <- Heq. eauto.
    + destruct (IH n m) as (n' & Hrun & Hle & Hiff).
      exists n'. rewrite (bind_run _ _ m m n) by reflexivity.
      rewrite Hrun. split; [|split; [done|]].
      * f_equal. f_equal. f_equal. apply map_filter_ext.
        intros [k nm] l _. cbn [fst snd]. rewrite !fmap_cons, elem_of_cons.
        split; [intros H1 [H3 [H4|H4]]; [congruence|tauto]|tauto].
      * rewrite Hiff. split; intros (e & Hin & He & Hl).
        -- exists e. split; [by right|done].
        -- apply elem_of_cons in Hin as [->|Hin]; [done|]. eauto.
Qed.

(** X4.  The informer map never mixes the all-namespaces informer with
    informers of specific namespaces: [AddNamespace], [removeNamespace] and
    [syncNamespace] keep that invariant. *)
Theorem namespace_functions_keep_exclusive_watch m :
  exclusiveWatch m →
  (∀ ns sel rp r m', AddNamespace ns sel rp m = Some (r, m') → exclusiveWatch m')
  ∧ (∀ ns r m', removeNamespace ns m = Some (r, m') → exclusiveWatch m')
  ∧ (∀ nsCache ns r m', syncNamespace nsCache ns m = Some (r, m') →
       exclusiveWatch m').
Proof.
  intros Hinv. split; [|split].
  - intros ns sel rp r m'. rewrite AddNamespace_run.
    destruct (addNamespaceLocked ns sel rp m) as [[[a e] m1]|] eqn:E; [|done].
    intros [= <- <-]. eapply exclusiveWatch_add; eauto.
  - intros ns r m'. apply exclusiveWatch_remove, Hinv.
  - intros nsCache ns r m'. unfold syncNamespace.
    rewrite (bind_run _ _ m m m) by reflexivity.
    destruct (nsInformer m) as [i|]; [|done].
    rewrite (bind_run _ _ m m i) by reflexivity.
    rewrite (bind_run _ _ _ _ _ (getNamespaceInformerLocked_run ns m)).
    set (appInf := match appInformers m !! "" with
                   | Some inf => Some inf
                   | None => appInformers m !! ns
                   end).
    destruct (bool_decide (ns ∈ nsCache)); cbn [andb].
    + destruct (bool_decide (is_Some appInf)).
      * by intros [= <- <-].
      * destruct (addNamespaceLocked ns DefaultConfigMapLabel 0 m)
          as [[[a e] m1]|] eqn:E.
        -- rewrite (bind_run _ _ _ _ _ E).
           assert (exclusiveWatch m1) by (eapply exclusiveWatch_add; eauto).
           destruct e; by intros [= <- <-].
        -- unfold mbind, M_bind. by rewrite E.
    + destruct appInf as [inf|]; [|done].
      rewrite (bind_run _ _ m m tt) by reflexivity.
      destruct (removeNamespaceLocked ns m) as [[e m1]|] eqn:E.
      2:{ unfold mbind, M_bind. by rewrite E. }
      rewrite (bind_run _ _ _ _ _ E).
      assert (exclusiveWatch m1) as H1 by (eapply exclusiveWatch_remove; eauto).
      rewrite (bind_run _ _ m1 m1 m1) by reflexivity.
      destruct (syncNamespace_delete_loop ns (Resources_entries m1) 0 m1)
        as (n' & Hrun & _).
      rewrite (bind_run _ _ _ _ _ Hrun).
      destruct (decide (0 < n')); intros [= <- <-];
        by eapply exclusiveWatch_appInformers; [|exact H1].
Qed.

Lemma syncNamespace_start nsCache ns m i :
  nsInformer m = Some i →
  syncNamespace nsCache ns m
  = (let appInf := match appInformers m !! "" with
                   | Some inf => Some inf
                   | None => appInformers m !! ns
                   end in
     if bool_decide (ns ∈ nsCache) && bool_decide (is_Some appInf)
     then mret None
     else if bool_decide (ns ∈ nsCache) then
       '(appInf, err) ← addNamespaceLocked ns DefaultConfigMapLabel 0;
       match err with
       | Some err => mret (Some (ErrAddInformers ns err))
       | None => mret None
       end
     else
       stopInformers appInf;;
       removeNamespaceLocked ns;;
       m ← get;
       rsDeleted ←
         foldM (Resources_entries m)
           (λ rsDeleted e,
              if decide (serviceKey.Namespace e.1.1 = ns) then
                deleted ← Resources_DeleteKey e.1.1;
                mret (if deleted : bool then rsDeleted + 1 else rsDeleted)
              else mret rsDeleted)
           0;
       (if decide (0 < rsDeleted) then outputConfigLocked else mret tt);;
       mret None) m.
Proof.
  intros Hi. unfold syncNamespace.
  rewrite (bind_run _ _ m m m) by reflexivity. rewrite Hi.
  rewrite (bind_run _ _ m m i) by reflexivity.
  by rewrite (bind_run _ _ _ _ _ (getNamespaceInformerLocked_run ns m)).
Qed.

(** X5.  [syncNamespace] for a namespace that the label informer's cache
    holds: if the namespace is already served by an informer nothing changes;
    otherwise an informer for it is added, with the default ConfigMap label
    as selector and resync period 0.  No error is returned. *)
Theorem syncNamespace_adds_labelled_namespace nsCache ns m i :
  nsInformer m = Some i → ns ∈ nsCache → ns ≠ "" →
  syncNamespace nsCache ns m
  = Some (None,
          match appInformers m !! "", appInformers m !! ns with
          | None, None =>
              set_appInformers
                (<[ns := appInformer.mk ns DefaultConfigMapLabel 0 ∅ ∅
                           (routeClientV1 m)]> (appInformers m)) m
          | _, _ => m
          end).
Proof.
  intros Hi Hin Hne. rewrite (syncNamespace_start _ _ _ _ Hi). cbn zeta.
  rewrite (bool_decide_eq_true_2 _ Hin). cbn [andb].
  destruct (appInformers m !! "") as [a|] eqn:E0.
  { by rewrite bool_decide_eq_true_2 by eauto. }
  destruct (appInformers m !! ns) as [a|] eqn:En.
  { by rewrite bool_decide_eq_true_2 by eauto. }
  rewrite bool_decide_eq_false_2 by (by intros [? ?]).
  erewrite bind_run; [|rewrite addNamespaceLocked_run, E0, En;
                       rewrite decide_False by (intros [? ?]; congruence);
                       reflexivity].
  done.
Qed.

(** X6.  [syncNamespace] for a watched namespace that has left the label
    informer's cache removes its informer and every stored config whose key
    lies in the namespace, keeps the configs of other namespaces, the config
    objects and the custom profiles, and writes the configuration out exactly
    when at least one stored config was removed. *)
Theorem syncNamespace_removes_unlabelled_namespace nsCache ns m i inf :
  nsInformer m = Some i → ns ∉ nsCache →
  appInformers m !! "" = None → appInformers m !! ns = Some inf →
  ∃ m',
    syncNamespace nsCache ns m = Some (None, m')
    ∧ appInformers m' = delete ns (appInformers m)
    ∧ resources m'
      = filter (λ e : (serviceKey.t * string) * loc,
                  serviceKey.Namespace e.1.1 ≠ ns) (resources m)
    ∧ heap m' = heap m ∧ customProfiles m' = customProfiles m
    ∧ ((∃ key name l, resources m !! (key, name) = Some l
                      ∧ serviceKey.Namespace key = ns) →
       written m' = S (written m))
    ∧ ((∀ key name l, resources m !! (key, name) = Some l →
                      serviceKey.Namespace key ≠ ns) →
       written m' = written m).
Proof.
  intros Hi Hin E0 En. rewrite (syncNamespace_start _ _ _ _ Hi). cbn zeta.
  rewrite (bool_decide_eq_false_2 _ Hin). cbn [andb]. rewrite E0, En.
  rewrite (bind_run _ _ m m tt) by reflexivity.
  set (m1 := set_appInformers (delete ns (appInformers m)) m).
  rewrite (bind_run _ _ m m1 None).
  2:{ unfold removeNamespaceLocked. rewrite (bind_run _ _ m m m) by reflexivity.
      by rewrite En. }
  rewrite (bind_run _ _ m1 m1 m1) by reflexivity.
  destruct (syncNamespace_delete_loop ns (Resources_entries m1) 0 m1)
    as (n' & Hrun & _ & Hiff).
  rewrite (bind_run _ _ _ _ _ Hrun).
  assert (Hfilter :
    filter (λ e : (serviceKey.t * string) * loc,
              ¬ (serviceKey.Namespace e.1.1 = ns
                 ∧ e.1.1 ∈ (Resources_entries m1).*1.*1)) (resources m1)
    = filter (λ e : (serviceKey.t * string) * loc,
                serviceKey.Namespace e.1.1 ≠ ns) (resources m)).
  { apply map_filter_ext. intros [k nm] l Hl. cbn [fst snd].
    split; [|tauto]. intros Hn Hk. apply Hn. split; [done|].
    apply list_elem_of_fmap. exists (k, nm). split; [done|].
    apply list_elem_of_fmap. exists ((k, nm), l). split; [done|].
    by apply elem_of_map_to_list. }
  rewrite Hfilter.
  assert (Hany : 0 < n' ↔ ∃ key name l, resources m !! (key, name) = Some l
                                       ∧ serviceKey.Namespace key = ns).
  { rewrite Hiff. split.
    - intros ([[k nm] l] & Hel & Hk & name & l' & Hl). cbn [fst snd] in *. eauto.
    - intros (key & name & l & Hl & Hk). exists ((key, name), l).
      split; [by apply elem_of_map_to_list|]. split; [done|]. eauto. }
  destruct (decide (0 < n')) as [Hpos|Hzero].
  - eexists. split; [reflexivity|].
    cbn [appInformers resources heap customProfiles written set_written
         set_resources m1 set_appInformers].
    do 4 (split; [done|]). split; [done|]. intros Hnone.
    exfalso. apply Hany in Hpos as (key & name & l & Hl & Hk).
    exact (Hnone _ _ _ Hl Hk).
  - eexists. split; [reflexivity|].
    cbn [appInformers resources heap customProfiles written set_written
         set_resources m1 set_appInformers].
    do 4 (split; [done|]). split; [|done].
    intros Hex. apply Hany in Hex. lia.
Qed.

(** X7.  [syncNamespace] for a namespace that is neither in the label
    informer's cache nor served by an informer panics: it calls
    [stopInformers] on the nil informer that the lookup returned. *)
Theorem syncNamespace_never_watched_panics nsCache ns m :
  ns ∉ nsCache →
  appInformers m !! "" = None → appInformers m !! ns = None →
  syncNamespace nsCache ns m = None.
Proof.
  intros Hin E0 En. unfold syncNamespace.
  rewrite (bind_run _ _ m m m) by reflexivity.
  destruct (nsInformer m) as [i|]; [|done].
  rewrite (bind_run _ _ m m i) by reflexivity.
  rewrite (bind_run _ _ _ _ _ (getNamespaceInformerLocked_run ns m)).
  rewrite (bool_decide_eq_false_2 _ Hin). cbn [andb]. by rewrite E0, En.
Qed.

(** X8.  [GetWatchedNamespaces] returns every namespace that has an
    informer, each once, and nothing else; the manager is not changed. *)
Theorem GetWatchedNamespaces_lists_watched m :
  ∃ l, GetWatchedNamespaces m = Some (l, m)
       ∧ NoDup l
       ∧ ∀ ns, ns ∈ l ↔ is_Some (appInformers m !! ns).
Proof.
  eexists. split; [reflexivity|]. split.
  - apply NoDup_fst_map_to_list.
  - intros ns. rewrite list_elem_of_fmap. split.
    + intros ([k v] & -> & Hin). apply elem_of_map_to_list in Hin. eauto.
    + intros [v Hv]. exists (ns, v). split; [done|].
      by apply elem_of_map_to_list.
Qed.

Lemma AddNamespace_watches_witness :
  let m := watching ["ns1"] (NewManager false false true false ∅ ∅ ∅) in
  ∃ m' inf,
    AddNamespace "ns2" "f5type in (virtual-server)" 30 m = Some (None, m')
    ∧ getNamespaceInformer "ns2" m' = Some (Some inf, m').
Proof.
  intros m.
  destruct (AddNamespace_watches "ns2" "f5type in (virtual-server)" 30 m)
    as (m' & Hrun & _ & _ & inf & Hget & _).
  - vm_compute. reflexivity.
  - discriminate.
  - exists m', inf. split; assumption.
Defined.

Lemma AddNamespace_again_witness :
  let m := NewManager false false true false ∅ ∅ ∅ in
  let m1 := watching [""] m in
  AddNamespace "" "f5type in (virtual-server)" 0 m1
  = Some (Some ErrWatchingAll, m1).
Proof.
  intros m m1.
  apply (AddNamespace_again "" "f5type in (virtual-server)" 0
           "f5type in (virtual-server)" 0 m m1).
  vm_compute. reflexivity.
Defined.

Lemma removeNamespace_after_AddNamespace_witness :
  let m := watching ["ns1"] (NewManager false false true false ∅ ∅ ∅) in
  ∃ m1, AddNamespace "ns2" "f5type in (virtual-server)" 0 m = Some (None, m1)
        ∧ removeNamespace "ns2" m1 = Some (None, m).
Proof.
  intros m.
  destruct (AddNamespace "ns2" "f5type in (virtual-server)" 0 m)
    as [[[e|] m1]|] eqn:Hadd; try (vm_compute in Hadd; discriminate Hadd).
  exists m1. split; [reflexivity|].
  apply (removeNamespace_after_AddNamespace "ns2"
           "f5type in (virtual-server)" 0 m m1); [|exact Hadd].
  vm_compute. reflexivity.
Defined.

Lemma namespace_functions_keep_exclusive_watch_witness :
  let m := watching ["ns1"] (NewManager false false true false ∅ ∅ ∅) in
  ∃ m', AddNamespace "ns2" "f5type in (virtual-server)" 0 m = Some (None, m')
        ∧ exclusiveWatch m'.
Proof.
  intros m.
  destruct (AddNamespace "ns2" "f5type in (virtual-server)" 0 m)
    as [[[e|] m']|] eqn:Hadd; try (vm_compute in Hadd; discriminate Hadd).
  exists m'. split; [reflexivity|].
  destruct (namespace_functions_keep_exclusive_watch m) as [Hkeep _].
  - intros [x Hx]. vm_compute in Hx. discriminate Hx.
  - exact (Hkeep _ _ _ _ _ Hadd).
Defined.

Lemma syncNamespace_adds_labelled_namespace_witness :
  let m := set_nsInformer (Some (nsInformer.mk "watched=yes" 0))
             (NewManager false false true false ∅ ∅ ∅) in
  ∃ m', syncNamespace {["ns1"]} "ns1" m = Some (None, m')
        ∧ is_Some (appInformers m' !! "ns1").
Proof.
  intros m. eexists. split.
  - apply (syncNamespace_adds_labelled_namespace {["ns1"]} "ns1" m
             (nsInformer.mk "watched=yes" 0)).
    + reflexivity.
    + apply elem_of_singleton. reflexivity.
    + discriminate.
  - vm_compute. eauto.
Defined.

Lemma syncNamespace_removes_unlabelled_namespace_witness :
  let m := set_nsInformer (Some (nsInformer.mk "watched=yes" 0))
             (watching ["ns1"]
                (withStore
                   [(1%positive,
                     sampleConfig "configmap" "ns1_cm" 80 [samplePool "svcA" 80 []])]
                   [(serviceKey.mk "svcA" 80 "ns1", "ns1_cm", 1%positive)]
                   (NewManager false false true false ∅ ∅ ∅))) in
  ∃ m', syncNamespace ∅ "ns1" m = Some (None, m')
        ∧ appInformers m' = delete "ns1" (appInformers m)
        ∧ written m' = S (written m).
Proof.
  intros m.
  destruct (syncNamespace_removes_unlabelled_namespace ∅ "ns1" m
              (nsInformer.mk "watched=yes" 0) sampleInformer)
    as (m' & Hrun & Happ & _ & _ & _ & Hw & _).
  - reflexivity.
  - apply not_elem_of_empty.
  - vm_compute. reflexivity.
  - vm_compute. reflexivity.
  - exists m'. split; [exact Hrun|]. split; [exact Happ|].
    apply Hw. exists (serviceKey.mk "svcA" 80 "ns1"), "ns1_cm", 1%positive.
    split; [vm_compute|]; reflexivity.
Defined.

Lemma syncNamespace_never_watched_panics_witness :
  syncNamespace ∅ "ns1"
    (set_nsInformer (Some (nsInformer.mk "watched=yes" 0))
       (NewManager false false true false ∅ ∅ ∅)) = None.
Proof.
  apply syncNamespace_never_watched_panics.
  - apply not_elem_of_empty.
  - reflexivity.
  - reflexivity.
Defined.

(** ** What a computation leaves alone *)

Lemma preserves_ret {T A} (f : Manager → T) (a : A) : preserves f (mret a).
Proof. by intros m a' m' [= _ <-]. Qed.

Lemma preserves_bind {T A B} (f : Manager → T) (c : M A) (k : A → M B) :
  preserves f c → (∀ a, preserves f (k a)) → preserves f (c ≫= k).
Proof.
  intros Hc Hk m b m'. unfold mbind, M_bind.
  destruct (c m) as [[a m1]|] eqn:E; [|done].
  intros Hrun. rewrite (Hk _ _ _ _ Hrun). eauto.
Qed.

Lemma preserves_get {T} (f : Manager → T) : preserves f get.
Proof. by intros m a' m' [= _ <-]. Qed.

Lemma preserves_panic {T A} (f : Manager → T) : preserves f (@panic A).
Proof. by intros m a' m'. Qed.

Lemma preserves_lift {T A} (f : Manager → T) (o : option A) :
  preserves f (lift o).
Proof. destruct o; [apply preserves_ret|apply preserves_panic]. Qed.

Lemma preserves_modify {T} (f : Manager → T) (g : Manager → Manager) :
  (∀ m, f (g m) = f m) → preserves f (modify g).
Proof. intros Hg m a' m' [= _ <-]. apply Hg. Qed.

Lemma preserves_deref {T} (f : Manager → T) l : preserves f (deref l).
Proof.
  intros m a m'. unfold deref. destruct (heap m !! l); [|done].
  by intros [= _ <-].
Qed.

Lemma preserves_forEach {T A} (f : Manager → T) (xs : list A) body :
  (∀ x, preserves f (body x)) → preserves f (forEach xs body).
Proof.
  intros Hb. induction xs as [|x xs IH]; cbn [forEach].
  - apply preserves_ret.
  - apply preserves_bind; [apply Hb|]. intros _. apply IH.
Qed.

Lemma preserves_foldM {T A S} (f : Manager → T) (xs : list A)
    (body : S → A → M S) :
  (∀ s x, preserves f (body s x)) → ∀ s, preserves f (foldM xs body s).
Proof.
  intros Hb. induction xs as [|x xs IH]; intros s; cbn [foldM].
  - apply preserves_ret.
  - apply preserves_bind; [apply Hb|]. intros s'. apply IH.
Qed.

Lemma preserves_store {T} (f : Manager → T) l c :
  (∀ h m, f (set_heap h m) = f m) → preserves f (store l c).
Proof. intros Hf. apply preserves_modify. intros m. apply Hf. Qed.

Ltac preserve :=
  repeat first
    [ apply preserves_ret | apply preserves_get | apply preserves_panic
    | apply preserves_lift | apply preserves_deref
    | apply preserves_store; reflexivity
    | apply preserves_modify; reflexivity
    | apply preserves_bind; [|intros ?]
    | apply preserves_forEach; intros ?
    | apply preserves_foldM; intros ? ?
    | match goal with
      | |- preserves _ (if ?b then _ else _) => destruct b
      | |- preserves _ (match ?o with _ => _ end) => destruct o
      end ].

Lemma setPoolMembers_keeps_resources l i ms :
  preserves resources (setPoolMembers l i ms).
Proof. unfold setPoolMembers. preserve. Qed.

Lemma updatePoolMembersForNodePort_keeps_resources svc k l i :
  preserves resources (updatePoolMembersForNodePort svc k l i).
Proof.
  unfold updatePoolMembersForNodePort, getEndpointsForNodePort,
    getNodesFromCache, setPoolMembers. preserve.
Qed.

Lemma updatePoolMembersForCluster_keeps_resources svc k l inf i :
  preserves resources (updatePoolMembersForCluster svc k l inf i).
Proof. unfold updatePoolMembersForCluster, setPoolMembers. preserve. Qed.

(** ** Saving and deactivating a config *)

Lemma saveVirtualServer_cases k n l m b m' :
  saveVirtualServer k n l m = Some (b, m') →
  (b = true ∧ m' = set_resources (<[(k, n) := l]> (resources m)) m)
  ∨ (b = false ∧ m' = m
     ∧ ∃ l0 c, resources m !! (k, n) = Some l0
               ∧ heap m !! l0 = Some c ∧ heap m !! l = Some c).
Proof.
  unfold saveVirtualServer, Resources_Get, Resources_Assign. run.
  destruct (resources m !! (k, n)) as [l0|] eqn:E0.
  - destruct (heap m !! l0) as [c0|] eqn:H0; [|done].
    destruct (heap m !! l) as [c|] eqn:Hl; [|done].
    destruct (bool_decide (c0 = c)) eqn:Eb.
    + apply bool_decide_eq_true in Eb as ->. intros [= <- <-].
      right. eauto 10.
    + intros [= <- <-]. by left.
  - intros [= <- <-]. by left.
Qed.

Lemma saveVirtualServer_stored k n l m b m' :
  resources m !! (k, n) = Some l →
  saveVirtualServer k n l m = Some (b, m') → b = false ∧ m' = m.
Proof.
  intros Hs. unfold saveVirtualServer, Resources_Get, Resources_Assign. run.
  rewrite Hs. destruct (heap m !! l) as [c|] eqn:Hl; [|done].
  cbn beta iota. rewrite Hl.
  rewrite bool_decide_eq_true_2 by done. by intros [= <- <-].
Qed.

Lemma deactivateVirtualServer_result k n l i m b m' :
  deactivateVirtualServer k n l i m = Some (b, m') →
  if b then resources m' = <[(k, n) := l]> (resources m)
  else resources m' = resources m.
Proof.
  unfold deactivateVirtualServer, Resources_Get.
  rewrite (bind_run _ _ m m (resources m !! (k, n))) by reflexivity.
  destruct (resources m !! (k, n)) as [l0|] eqn:E0.
  - intros Hrun.
    assert (Hp : preserves resources
              (c ← deref l;
               store l (ResourceConfig.set_Active false c);;
               setPoolMembers l i [];;
               old ← deref l0; new ← deref l;
               mret (bool_decide (old ≠ new)))).
    { unfold setPoolMembers. preserve. }
    revert Hrun. unfold mbind at 1, M_bind at 1.
    match goal with |- context [match ?c m with _ => _ end] =>
      destruct (c m) as [[u m1]|] eqn:E1 end; [|done].
    apply Hp in E1. unfold Resources_Assign. run.
    destruct u; intros [= <- <-]; cbn [resources set_resources]; congruence.
  - run. unfold Resources_Assign. run. by intros [= <- <-].
Qed.

Lemma deactivateVirtualServer_stored k n l i m b m' :
  resources m !! (k, n) = Some l →
  deactivateVirtualServer k n l i m = Some (b, m') →
  b = false ∧ resources m' = resources m.
Proof.
  intros Hs Hrun.
  assert (b = false) as ->; [|by apply deactivateVirtualServer_result in Hrun].
  revert Hrun.
  unfold deactivateVirtualServer, Resources_Get, Resources_Assign, setPoolMembers.
  run. rewrite Hs.
  destruct (heap m !! l) as [c|]; [|done]. unfold modify. cbn [heap set_heap].
  rewrite lookup_insert_eq.
  destruct (ResourceConfig.set_PoolMembers _ _ _) as [c'|]; [|done].
  unfold mret, M_ret. repeat (cbn [heap set_heap]; rewrite lookup_insert_eq).
  rewrite bool_decide_eq_false_2 by (intros Hne; by apply Hne).
  by intros [= <- _].
Qed.

Lemma bind_inv {A B} (c : M A) (k : A → M B) m r :
  (c ≫= k) m = Some r → ∃ a m1, c m = Some (a, m1) ∧ k a m1 = Some r.
Proof.
  unfold mbind, M_bind. destruct (c m) as [[a m1]|]; [|done]. eauto.
Qed.

Lemma recordIngressEvent_keeps_resources ing reason rsName :
  preserves resources (recordIngressEvent ing reason rsName).
Proof. unfold recordIngressEvent, recordEvent. preserve. Qed.

Lemma handleConfigForType_first_step (svcKey : serviceKey.t) rsName rsCfg plIdx
    (P : Prop) `{Decision P} m u m2 :
  (if decide P then
     b ← deactivateVirtualServer svcKey rsName rsCfg plIdx;
     mret (if b : bool then 0 + 1 else 0)
   else mret 0) m = Some (u, m2) →
  (u = 0 ∨ u = 1)
  ∧ (u = 1 → resources m2 !! (svcKey, rsName) = Some rsCfg).
Proof.
  destruct (decide P).
  - intros Hrun. apply bind_inv in Hrun as (b & m1 & Hd & [= <- <-]).
    apply deactivateVirtualServer_result in Hd.
    destruct b; [|split; [by left|done]].
    split; [by right|]. intros _. rewrite Hd. by rewrite lookup_insert_eq.
  - intros [= <- <-]. split; [by left|done].
Qed.

(** X9.  Whatever [handleConfigForType] returns, the "found" count is 1
    when the result is "ours" and 0 otherwise, "ours" is returned exactly
    when the service exists and the candidate has a pool for the queued
    service, and the "updated" count is 0 or 1: the two places that can
    count an update never both do.  When an update is counted, the store
    holds the candidate itself under the key of that pool. *)
Theorem handleConfigForType_counts rsCfg sKey rsMap rsName svcPortMap svc
    appInf currRouteSvc m ok found updated rsMap' m' :
  handleConfigForType rsCfg sKey rsMap rsName svcPortMap svc appInf
    currRouteSvc m = Some ((ok, found, updated, rsMap'), m') →
  ∃ c, heap m !! rsCfg = Some c
    ∧ (ok = true ↔
       is_Some svc
       ∧ is_Some (findPool (serviceQueueKey.ServiceName sKey)
                    (ResourceConfig.Pools c)))
    ∧ found = (if ok then 1 else 0)
    ∧ (updated = 0 ∨ updated = 1)
    ∧ (updated = 1 →
       ∃ idx pool,
         findPool (serviceQueueKey.ServiceName sKey) (ResourceConfig.Pools c)
         = Some (idx, pool)
         ∧ resources m'
             !! (serviceKey.mk (Pool.ServiceName pool) (Pool.ServicePort pool)
                   (serviceQueueKey.Namespace sKey), rsName)
           = Some rsCfg).
Proof.
  unfold handleConfigForType. intros Hrun.
  apply bind_inv in Hrun as (c & m0 & Hc & Hrun).
  unfold deref in Hc. destruct (heap m !! rsCfg) as [c0|] eqn:Hh; [|done].
  injection Hc as <- <-. exists c0. split; [done|].
  destruct (findPool _ _) as [[plIdx pool]|] eqn:Hfind.
  - set (svcKey := serviceKey.mk _ _ _) in *.
    apply bind_inv in Hrun as (m1 & ? & [= <- <-] & Hrun).
    apply bind_inv in Hrun as (rsMap1 & m1' & Hl & Hrun).
    assert (m1' = m) as ->.
    { destruct (consumeResourceMap _ _ _ _ _ _); [by injection Hl|done]. }
    clear Hl.
    apply bind_inv in Hrun as (u & m2 & Hu & Hrun).
    apply handleConfigForType_first_step in Hu as [Hu01 Hu1].
    destruct svc as [svc|].
    + apply bind_inv in Hrun as (m2' & ? & [= <- <-] & Hrun).
      apply bind_inv in Hrun as ([correct reason] & m3 & Hupd & Hrun).
      assert (resources m3 = resources m2) as Hres.
      { destruct (isNodePort m2).
        - by apply updatePoolMembersForNodePort_keeps_resources in Hupd.
        - by apply updatePoolMembersForCluster_keeps_resources in Hupd. }
      apply bind_inv in Hrun as (saved & m4 & Hsave & Hrun).
      destruct saved.
      * apply bind_inv in Hrun as (c4 & m4' & Hc4 & Hrun).
        assert (m4' = m4) as ->.
        { unfold deref in Hc4. destruct (heap m4 !! rsCfg); [by injection Hc4|done]. }
        apply bind_inv in Hrun as ([] & m5 & Hev & Hret).
        injection Hret as ? ? ? ? ?; subst ok found updated rsMap' m'.
        assert (resources m5 = resources m4) as Hres5.
        { destruct (_ && _); [|by injection Hev as <-].
          by apply recordIngressEvent_keeps_resources in Hev. }
        assert (u = 0) as ->.
        { destruct Hu01 as [?| ->]; [done|].
          apply saveVirtualServer_stored in Hsave as [? _]; [done|].
          rewrite Hres. by apply Hu1. }
        split; [split; eauto|]. split; [done|]. split; [by right|].
        intros _. exists plIdx, pool. split; [done|].
        apply saveVirtualServer_cases in Hsave as [[_ ->]|[? _]]; [|done].
        rewrite Hres5. cbn [resources set_resources].
        by rewrite lookup_insert_eq.
      * injection Hrun as ? ? ? ? ?; subst ok found updated rsMap' m'.
        split; [split; eauto|]. split; [done|]. split; [done|].
        intros ->. exists plIdx, pool. split; [done|].
        apply saveVirtualServer_cases in Hsave as [[? _]|(_ & -> & _)]; [done|].
        rewrite Hres. by apply Hu1.
    + apply bind_inv in Hrun as (b & m3 & Hd & Hrun).
      apply bind_inv in Hrun as ([] & m5 & Hev & Hret).
        injection Hret as ? ? ? ? ?; subst ok found updated rsMap' m'.
      assert (resources m5 = resources m3) as Hres5.
      { destruct (strings.HasSuffix _ _); [|by injection Hev as <-].
        by apply recordIngressEvent_keeps_resources in Hev. }
      split; [split; [done|by intros [[? ?] _]]|]. split; [done|].
      destruct Hu01 as [->| ->].
      * pose proof (deactivateVirtualServer_result _ _ _ _ _ _ _ Hd) as Hr.
        destruct b; [|split; [by left|done]].
        split; [by right|]. intros _. exists plIdx, pool. split; [done|].
        rewrite Hres5, Hr. by rewrite lookup_insert_eq.
      * apply deactivateVirtualServer_stored in Hd as [-> Hr]; [|by apply Hu1].
        split; [by right|]. intros _. exists plIdx, pool. split; [done|].
        rewrite Hres5, Hr. by apply Hu1.
  - apply bind_inv in Hrun as (cfgs & m1 & _ & Hrun).
    apply bind_inv in Hrun as ([] & m2 & _ & Hret).
    injection Hret as ? ? ? ? ?; subst ok found updated rsMap' m'.
    split; [split; [done|by intros [_ [? ?]]]|]. split; [done|].
    split; [by left|done].
Qed.

Lemma handleConfigForType_counts_witness :
  ∃ ok found updated rsMap' m',
    handleConfigForType 1%positive (serviceQueueKey.mk "ns1" "svcA") ∅
      "ns1_cm" {[80]}
      (Some (Service.mk ServiceTypeClusterIP [ServicePort.mk "http" 80 0]))
      sampleInformer "" newConfigMapManager
    = Some ((ok, found, updated, rsMap'), m')
    ∧ found = (if ok then 1 else 0) ∧ (updated = 0 ∨ updated = 1).
Proof.
  destruct (handleConfigForType 1%positive (serviceQueueKey.mk "ns1" "svcA") ∅
              "ns1_cm" {[80]}
              (Some (Service.mk ServiceTypeClusterIP
                       [ServicePort.mk "http" 80 0]))
              sampleInformer "" newConfigMapManager)
    as [[[[[ok found] updated] rsMap1] m1]|] eqn:Hrun;
    [|vm_compute in Hrun; discriminate].
  destruct (handleConfigForType_counts _ _ _ _ _ _ _ _ _ _ _ _ _ _ Hrun)
    as (c & _ & _ & Hfound & Hupd & _).
  exists ok, found, updated, rsMap1, m1. split; [reflexivity|]. split; assumption.
Defined.

Lemma saveVirtualServer_run k n l m :
  saveVirtualServer k n l m
  = match resources m !! (k, n) with
    | Some l0 =>
        match heap m !! l0, heap m !! l with
        | Some c0, Some c =>
            if bool_decide (c0 = c) then Some (false, m)
            else Some (true, set_resources (<[(k, n) := l]> (resources m)) m)
        | _, _ => None
        end
    | None => Some (true, set_resources (<[(k, n) := l]> (resources m)) m)
    end.
Proof.
  unfold saveVirtualServer, Resources_Get, Resources_Assign. run.
  destruct (resources m !! (k, n)) as [l0|]; [|done].
  destruct (heap m !! l0) as [c0|]; [|done]. cbn beta iota.
  destruct (heap m !! l) as [c|]; [|done]. by destruct (bool_decide _).
Qed.

(** X10.  [saveVirtualServer] for a valid candidate: afterwards the store
    holds, under the key and name, a config equal to the candidate, and no
    other entry and no config object has changed.  It returns false exactly
    when an equal config was already stored; then nothing changes at all
    (the stored pointer is kept).  Saving the same candidate once more
    returns false and changes nothing. *)
Theorem saveVirtualServer_stores_candidate k n l m c :
  heap m !! l = Some c →
  (∀ l0, resources m !! (k, n) = Some l0 → is_Some (heap m !! l0)) →
  ∃ b m',
    saveVirtualServer k n l m = Some (b, m')
    ∧ heap m' = heap m
    ∧ (∃ l', resources m' !! (k, n) = Some l' ∧ heap m' !! l' = Some c)
    ∧ (b = false ↔ ∃ l0, resources m !! (k, n) = Some l0
                         ∧ heap m !! l0 = Some c)
    ∧ (b = false → m' = m)
    ∧ (∀ key name, (key, name) ≠ (k, n) →
         resources m' !! (key, name) = resources m !! (key, name))
    ∧ saveVirtualServer k n l m' = Some (false, m').
Proof.
  intros Hl Hvalid.
  assert (Hnew : ∀ m1, m1 = set_resources (<[(k, n) := l]> (resources m)) m →
            heap m1 = heap m
            ∧ (∃ l', resources m1 !! (k, n) = Some l' ∧ heap m1 !! l' = Some c)
            ∧ (∀ key name, (key, name) ≠ (k, n) →
                 resources m1 !! (key, name) = resources m !! (key, name))
            ∧ saveVirtualServer k n l m1 = Some (false, m1)).
  { intros m1 ->. rewrite saveVirtualServer_run.
    cbn [heap resources set_resources]. rewrite lookup_insert_eq, Hl.
    rewrite bool_decide_eq_true_2 by done.
    split; [done|]. split; [eauto|]. split; [|done].
    intros key name Hk. by rewrite lookup_insert_ne. }
  rewrite saveVirtualServer_run.
  destruct (resources m !! (k, n)) as [l0|] eqn:E0.
  - destruct (Hvalid l0 eq_refl) as [c0 Hc0]. rewrite Hc0, Hl.
    destruct (decide (c0 = c)) as [->|Hne].
    + rewrite bool_decide_eq_true_2 by done.
      exists false, m. rewrite saveVirtualServer_run, E0, Hc0, Hl.
      rewrite bool_decide_eq_true_2 by done.
      do 2 (split; [done|]). split; [eauto|]. split; [split; eauto|]. done.
    + rewrite bool_decide_eq_false_2 by done.
      eexists true, _. split; [reflexivity|].
      destruct (Hnew _ eq_refl) as (H1 & H2 & H3 & H4).
      split; [done|]. split; [done|].
      split; [split; [done|intros (? & [= <-] & ?); congruence]|].
      split; [done|]. split; done.
  - eexists true, _. split; [reflexivity|].
    destruct (Hnew _ eq_refl) as (H1 & H2 & H3 & H4).
    split; [done|]. split; [done|].
    split; [split; [done|intros (? & [=] & ?)]|].
    split; [done|]. split; done.
Qed.

Lemma saveVirtualServer_stores_candidate_witness :
  ∃ m', saveVirtualServer (serviceKey.mk "svcA" 80 "ns1")
          "openshift_default_http" 1%positive routeManager = Some (false, m')
        ∧ m' = routeManager.
Proof.
  destruct (saveVirtualServer_stores_candidate (serviceKey.mk "svcA" 80 "ns1")
              "openshift_default_http" 1%positive routeManager
              (activeRouteConfig
                 [samplePool "svcA" 80 [Member.mk "10.2.0.1" 8080 "user-enabled"];
                  samplePool "svcB" 80 [Member.mk "10.2.0.2" 8080 "user-enabled"]]))
    as (b & m' & Hrun & _ & _ & Hb & Hsame & _).
  - reflexivity.
  - intros l0 Hl0. vm_compute in Hl0. injection Hl0 as <-. vm_compute. eauto.
  - assert (b = false) as ->.
    { apply Hb. exists 2%positive. split; reflexivity. }
    exists m'. split; [exact Hrun|]. by apply Hsame.
Defined.

(** X11.  When nothing is stored under the key and name,
    [deactivateVirtualServer] stores the candidate as it is, without
    deactivating it, and reports an update.  A second call then finds the
    candidate itself in the store: it deactivates the object in place (flag
    off, members of the indexed pool dropped) and reports no update. *)
Theorem deactivateVirtualServer_without_stored_config k n l i m c c' :
  resources m !! (k, n) = None →
  heap m !! l = Some c →
  ResourceConfig.set_PoolMembers i [] (ResourceConfig.set_Active false c)
  = Some c' →
  let m1 := set_resources (<[(k, n) := l]> (resources m)) m in
  deactivateVirtualServer k n l i m = Some (true, m1)
  ∧ deactivateVirtualServer k n l i m1
    = Some (false, set_heap (<[l := c']> (heap m)) m1).
Proof.
  intros Hnone Hl Hc' m1. split.
  - unfold deactivateVirtualServer, Resources_Get, Resources_Assign. run.
    by rewrite Hnone.
  - unfold deactivateVirtualServer, Resources_Get, Resources_Assign,
      setPoolMembers. subst m1. run. unfold modify.
    cbn [heap resources set_resources]. rewrite lookup_insert_eq.
    cbn beta iota. cbn [heap resources set_resources]. rewrite Hl. cbn [heap set_heap]. rewrite lookup_insert_eq.
    rewrite Hc'. unfold mret, M_ret.
    repeat (cbn [heap set_heap]; rewrite lookup_insert_eq).
    rewrite bool_decide_eq_false_2 by (intros Hne; by apply Hne).
    f_equal. f_equal. unfold set_heap. cbn. by rewrite insert_insert_eq.
Qed.

Lemma deactivateVirtualServer_without_stored_config_witness :
  ∃ m1 m2,
    deactivateVirtualServer (serviceKey.mk "svcA" 80 "ns1") "ns1_cm"
      1%positive 0 newConfigMapManager = Some (true, m1)
    ∧ deactivateVirtualServer (serviceKey.mk "svcA" 80 "ns1") "ns1_cm"
        1%positive 0 m1 = Some (false, m2).
Proof.
  destruct (deactivateVirtualServer_without_stored_config
              (serviceKey.mk "svcA" 80 "ns1") "ns1_cm" 1%positive 0
              newConfigMapManager
              (sampleConfig "configmap" "ns1_cm" 80 [samplePool "svcA" 80 []])
              (sampleConfig "configmap" "ns1_cm" 80 [samplePool "svcA" 80 []])
              eq_refl eq_refl eq_refl) as [H1 H2].
  eexists _, _. split; [exact H1|exact H2].
Defined.

(** ** The configs of a service *)

Lemma getResourcesForKey_fold (sKey : serviceQueueKey.t)
    (es : list ((serviceKey.t * string) * loc)) :
  let acc :=
    foldl
      (λ (rsMap : ResourceMap) (e : serviceKey.t * string * loc),
         let key := e.1.1 in
         if decide (serviceKey.Namespace key = serviceQueueKey.Namespace sKey
                    ∧ serviceKey.ServiceName key
                        = serviceQueueKey.ServiceName sKey)
         then <[serviceKey.ServicePort key :=
                  default [] (rsMap !! serviceKey.ServicePort key) ++ [e.2]]>
                rsMap
         else rsMap)
      ∅ es in
  (∀ port l,
     l ∈ default [] (acc !! port)
     ↔ ∃ name,
         ((serviceKey.mk (serviceQueueKey.ServiceName sKey) port
             (serviceQueueKey.Namespace sKey), name), l) ∈ es)
  ∧ (∀ port cfgs, acc !! port = Some cfgs → cfgs ≠ []).
Proof.
  induction es as [|e es IH] using rev_ind; cbn zeta; unfold ResourceMap in *.
  - cbn [foldl]. split.
    + intros port l. rewrite lookup_empty. cbn. rewrite elem_of_nil.
      split; [done|]. intros [name Hin]. by apply elem_of_nil in Hin.
    + intros port cfgs. by rewrite lookup_empty.
  - rewrite foldl_app. cbn [foldl]. cbn zeta in IH.
    set (acc := foldl _ ∅ es) in *. destruct IH as [IHin IHne].
    destruct e as [[[svc p ns] name] l0]. cbn [fst snd serviceKey.Namespace
      serviceKey.ServiceName serviceKey.ServicePort].
    destruct (decide (ns = _ ∧ svc = _)) as [[-> ->]|Hno].
    + split.
      * intros port l. destruct (decide (port = p)) as [->|Hp].
        -- rewrite lookup_insert_eq. cbn [from_option id].
           rewrite elem_of_app, list_elem_of_singleton, IHin. split.
           ++ intros [[nm Hin]| ->].
              ** exists nm. apply elem_of_app. by left.
              ** exists name. apply elem_of_app. right. by apply list_elem_of_singleton.
           ++ intros [nm Hin]. apply elem_of_app in Hin as [Hin|Hin]; [eauto|].
              apply list_elem_of_singleton in Hin. injection Hin as _ <-. by right.
        -- rewrite lookup_insert_ne by done. rewrite IHin. split.
           ++ intros [nm Hin]. exists nm. apply elem_of_app. by left.
           ++ intros [nm Hin]. apply elem_of_app in Hin as [Hin|Hin]; [eauto|].
              apply list_elem_of_singleton in Hin. congruence.
      * intros port cfgs. destruct (decide (port = p)) as [->|Hp].
        -- rewrite lookup_insert_eq. intros [= <-]. by destruct (default _ _).
        -- rewrite lookup_insert_ne by done. apply IHne.
    + split; [|done]. intros port l. rewrite IHin. split.
      * intros [nm Hin]. exists nm. apply elem_of_app. by left.
      * intros [nm Hin]. apply elem_of_app in Hin as [Hin|Hin]; [eauto|].
        apply list_elem_of_singleton in Hin. injection Hin as H1 H2 H3 _ _.
        destruct Hno. by split.
Qed.

(** X12.  [getResourcesForKey] does not change the manager and returns a map
    in which a config is listed under a port exactly when the store holds it
    under some resource name for the key (service, port, namespace) of the
    queued service; no port is mapped to an empty list. *)
Theorem getResourcesForKey_collects_service sKey m :
  ∃ rsMap,
    getResourcesForKey sKey m = Some (rsMap, m)
    ∧ (∀ port l,
         l ∈ default [] (rsMap !! port)
         ↔ ∃ name,
             resources m
               !! (serviceKey.mk (serviceQueueKey.ServiceName sKey) port
                     (serviceQueueKey.Namespace sKey), name) = Some l)
    ∧ (∀ port cfgs, rsMap !! port = Some cfgs → cfgs ≠ []).
Proof.
  eexists. split; [reflexivity|].
  destruct (getResourcesForKey_fold sKey (Resources_entries m)) as [Hin Hne].
  split; [|exact Hne].
  intros port l. rewrite Hin. unfold Resources_entries.
  split; intros [name Hn]; exists name; by apply elem_of_map_to_list.
Qed.

(** ** Deleting the configs left in the resource map *)

Lemma elem_of_flat_map {A B} (f : A → list B) (l : list A) (x : B) :
  x ∈ flat_map f l ↔ ∃ y, y ∈ l ∧ x ∈ f y.
Proof.
  induction l as [|a l IH]; cbn [flat_map].
  - rewrite elem_of_nil. split; [done|]. intros (y & Hy & _).
    by apply elem_of_nil in Hy.
  - rewrite elem_of_app, IH. split.
    + intros [Hx|(y & Hy & Hx)]; [exists a|exists y];
        (split; [|done]); apply elem_of_cons; auto.
    + intros (y & Hy & Hx). apply elem_of_cons in Hy as [->|Hy]; eauto.
Qed.










(** ** Sorting the node addresses *)

Lemma string_compare_trans (a : string) : ∀ b c,
  String.compare a b ≠ Gt → String.compare b c ≠ Gt → String.compare a c ≠ Gt.
Proof.
  induction a as [|x a IH]; intros [|y b] [|z c]; cbn; try done.
  destruct (Ascii.compare x y) eqn:Exy.
  - apply Ascii.compare_eq_iff in Exy as ->.
    destruct (Ascii.compare y z); [apply IH|done|done].
  - intros _. destruct (Ascii.compare y z) eqn:Eyz; [| |done].
    + apply Ascii.compare_eq_iff in Eyz as <-. by rewrite Exy.
    + unfold Ascii.compare in *. apply N.compare_lt_iff in Exy, Eyz.
      intros _. by rewrite (proj2 (N.compare_lt_iff _ _) (N.lt_trans _ _ _ Exy Eyz)).
  - done.
Qed.

Lemma string_le_iff a b : string_le a b ↔ String.compare a b ≠ Gt.
Proof. unfold string_le, String.leb. by destruct (String.compare a b). Qed.

Lemma string_le_trans : Transitive string_le.
Proof.
  intros a b c. rewrite !string_le_iff. apply string_compare_trans.
Qed.

Lemma string_le_antisym : AntiSymm (=) string_le.
Proof. intros a b. apply String.leb_antisym. Qed.

Lemma sortInsert_perm x l : sortInsert x l ≡ₚ x :: l.
Proof.
  induction l as [|y l IH]; cbn [sortInsert]; [done|].
  destruct (String.leb x y); [done|]. rewrite IH. apply Permutation_swap.
Qed.

Lemma sortStrings_perm l : sortStrings l ≡ₚ l.
Proof.
  induction l as [|x l IH]; [done|].
  unfold sortStrings in *. cbn [foldr]. by rewrite sortInsert_perm, IH.
Qed.

Lemma sortInsert_sorted x l :
  Sorted string_le l → Sorted string_le (sortInsert x l).
Proof.
  induction 1 as [|y l Hl IH Hhd]; cbn [sortInsert].
  - by repeat constructor.
  - destruct (String.leb x y) eqn:E.
    + constructor; [by constructor|]. by constructor.
    + constructor; [done|].
      assert (string_le y x) as Hyx.
      { destruct (String.leb_total x y) as [H|H]; [congruence|done]. }
      destruct Hhd as [|z l' Hz]; cbn [sortInsert]; [by constructor|].
      destruct (String.leb x z); by constructor.
Qed.

Lemma sortStrings_sorted l : Sorted string_le (sortStrings l).
Proof.
  induction l as [|x l IH]; [constructor|].
  unfold sortStrings in *. cbn [foldr]. by apply sortInsert_sorted.
Qed.

Lemma sortStrings_Permutation l l' :
  l ≡ₚ l' → sortStrings l = sortStrings l'.
Proof.
  intros Hp.
  apply (@Sorted_unique _ string_le string_le_trans string_le_antisym);
    [apply sortStrings_sorted..|].
  by rewrite !sortStrings_perm.
Qed.

Lemma flat_map_Permutation {A B} (f : A → list B) l l' :
  l ≡ₚ l' → flat_map f l ≡ₚ flat_map f l'.
Proof.
  induction 1 as [|x l l' _ IH|x y l|l1 l2 l3 _ IH1 _ IH2]; cbn [flat_map].
  - done.
  - by rewrite IH.
  - rewrite !(assoc (++)). f_equiv. apply Permutation_app_comm.
  - by rewrite IH1.
Qed.

(** X14.  [ProcessNodeUpdate] does not depend on the order in which the
    node list names the nodes: for two lists that are permutations of each
    other it does the same to the manager. *)
Theorem ProcessNodeUpdate_order_independent nodes nodes' m :
  nodes ≡ₚ nodes' →
  ProcessNodeUpdate (Some nodes) None m = ProcessNodeUpdate (Some nodes') None m.
Proof.
  intros Hp. unfold ProcessNodeUpdate, getNodeAddresses.
  rewrite !(bind_run _ _ m m
              (inl (schedulableAddresses
                      (if useNodeInternal m then NodeInternalIP
                       else NodeExternalIP) nodes))) by reflexivity.
  rewrite (bind_run _ _ m m
              (inl (schedulableAddresses
                      (if useNodeInternal m then NodeInternalIP
                       else NodeExternalIP) nodes'))) by reflexivity.
  cbn zeta.
  set (addrType := if useNodeInternal m then NodeInternalIP else NodeExternalIP).
  rewrite (sortStrings_Permutation
             (schedulableAddresses addrType nodes)
             (schedulableAddresses addrType nodes'));
    [done|].
  by apply flat_map_Permutation.
Qed.

Lemma ProcessNodeUpdate_order_independent_witness :
  ProcessNodeUpdate
    (Some [sampleNode false "10.0.0.2" "1.2.3.5";
           sampleNode false "10.0.0.1" "1.2.3.4"]) None (nodePortManager true)
  = ProcessNodeUpdate
      (Some [sampleNode false "10.0.0.1" "1.2.3.4";
             sampleNode false "10.0.0.2" "1.2.3.5"]) None
      (nodePortManager true).
Proof.
  apply ProcessNodeUpdate_order_independent. apply Permutation_swap.
Defined.

Lemma schedulableAddresses_elem addrType nodes a :
  a ∈ schedulableAddresses addrType nodes
  ↔ ∃ node addr,
      node ∈ nodes ∧ Node.Unschedulable node = false
      ∧ addr ∈ Node.Addresses node
      ∧ NodeAddress.Type_ addr = addrType ∧ NodeAddress.Address addr = a.
Proof.
  unfold schedulableAddresses. rewrite elem_of_flat_map. split.
  - intros (node & Hnode & Ha).
    destruct (Node.Unschedulable node) eqn:Eu; [by apply elem_of_nil in Ha|].
    apply elem_of_flat_map in Ha as (addr & Haddr & Ha).
    destruct (decide _) as [Ht|]; [|by apply elem_of_nil in Ha].
    apply list_elem_of_singleton in Ha. eauto 10.
  - intros (node & addr & Hnode & Hu & Haddr & Ht & Ha).
    exists node. split; [done|]. rewrite Hu.
    apply elem_of_flat_map. exists addr. split; [done|].
    rewrite decide_True by done. by apply list_elem_of_singleton.
Qed.

(** X15.  After every [ProcessNodeUpdate] that is given a node list and no
    error, the node cache holds the addresses of the configured type
    (internal or external) of the nodes that are not unschedulable: each
    address once per occurrence, in ascending order. *)
Theorem ProcessNodeUpdate_records_sorted_addresses nodes m m' :
  ProcessNodeUpdate (Some nodes) None m = Some (tt, m') →
  let addrType :=
    if useNodeInternal m then NodeInternalIP else NodeExternalIP in
  ∃ l,
    oldNodes m' = Some l
    ∧ Sorted string_le l
    ∧ l ≡ₚ schedulableAddresses addrType nodes
    ∧ ∀ a, a ∈ l
           ↔ ∃ node addr,
               node ∈ nodes ∧ Node.Unschedulable node = false
               ∧ addr ∈ Node.Addresses node
               ∧ NodeAddress.Type_ addr = addrType
               ∧ NodeAddress.Address addr = a.
Proof.
  intros Hrun addrType.
  exists (sortStrings (schedulableAddresses addrType nodes)).
  split; [|split; [apply sortStrings_sorted|split; [apply sortStrings_perm|]]].
  2:{ intros a. rewrite sortStrings_perm. apply schedulableAddresses_elem. }
  revert Hrun. unfold ProcessNodeUpdate, getNodeAddresses.
  rewrite (bind_run _ _ m m (inl (schedulableAddresses addrType nodes)))
    by reflexivity.
  cbn zeta. rewrite (bind_run _ _ m m m) by reflexivity.
  destruct (initialState m).
  - destruct (decide (Some _ ≠ oldNodes m)) as [Hne|Heq].
    + intros Hrun. apply bind_inv in Hrun as ([] & m1 & _ & Hrun).
      apply bind_inv in Hrun as ([] & m2 & _ & Hrun).
      by injection Hrun as <-.
    + intros [= <-]. by destruct (decide (Some (sortStrings
        (schedulableAddresses addrType nodes)) = oldNodes m)) as [<-|].
  - by intros [= <-].
Qed.

Lemma ProcessNodeUpdate_records_sorted_addresses_witness :
  ∃ m' l,
    ProcessNodeUpdate
      (Some [sampleNode false "10.0.0.2" "1.2.3.5";
             sampleNode true "10.0.0.3" "1.2.3.6";
             sampleNode false "10.0.0.1" "1.2.3.4"]) None
      (nodePortManager false) = Some (tt, m')
    ∧ oldNodes m' = Some l ∧ Sorted string_le l.
Proof.
  destruct (ProcessNodeUpdate
              (Some [sampleNode false "10.0.0.2" "1.2.3.5";
                     sampleNode true "10.0.0.3" "1.2.3.6";
                     sampleNode false "10.0.0.1" "1.2.3.4"]) None
              (nodePortManager false)) as [[[] m']|] eqn:Hrun;
    [|vm_compute in Hrun; discriminate Hrun].
  destruct (ProcessNodeUpdate_records_sorted_addresses _ _ _ Hrun)
    as (l & Hl & Hsorted & _).
  exists m', l. split; [reflexivity|]. split; assumption.
Defined.

(** ** Pool members of a matched service *)

Lemma forEach_filter {A} (P : A → Prop) `{∀ x, Decision (P x)}
    (xs : list A) (body : A → M unit) (m : Manager) :
  forEach xs (λ x, if decide (P x) then body x else mret tt) m
  = forEach (filter P xs) body m.
Proof.
  revert m. induction xs as [|x xs IH]; intros m; [done|].
  cbn [forEach]. destruct (decide (P x)) as [Hx|Hx].
  - rewrite filter_cons_True by done. cbn [forEach].
    unfold mbind, M_bind. destruct (body x m) as [[[] m1]|]; [apply IH|done].
  - rewrite filter_cons_False by done.
    rewrite (bind_run _ _ m m tt) by reflexivity. apply IH.
Qed.

(** X16.  [updatePoolMembersForNodePort] on a valid candidate with a pool at
    the index.  For a service that is not of type NodePort it returns false
    with the reason "IncorrectBackendServiceType" and changes nothing.  For
    a NodePort service no port of which is the key's port it returns true and
    changes nothing.  For a NodePort service with one port spec for the key's
    port it returns true, turns the config active, records the node port and
    sets the members of the indexed pool to the cached node addresses at
    that node port; nothing else changes. *)
Theorem updatePoolMembersForNodePort_spec svc svcKey rsCfg index m c p :
  heap m !! rsCfg = Some c →
  ResourceConfig.Pools c !! index = Some p →
  (Service.Type_ svc ≠ ServiceTypeNodePort →
   updatePoolMembersForNodePort svc svcKey rsCfg index m
   = Some ((false, "IncorrectBackendServiceType"), m))
  ∧ (Service.Type_ svc = ServiceTypeNodePort →
     filter (λ ps, ServicePort.Port ps = serviceKey.ServicePort svcKey)
       (Service.Ports svc) = [] →
     updatePoolMembersForNodePort svc svcKey rsCfg index m
     = Some ((true, ""), m))
  ∧ (∀ portSpec,
       Service.Type_ svc = ServiceTypeNodePort →
       filter (λ ps, ServicePort.Port ps = serviceKey.ServicePort svcKey)
         (Service.Ports svc) = [portSpec] →
       updatePoolMembersForNodePort svc svcKey rsCfg index m
       = Some ((true, ""),
               set_heap
                 (<[rsCfg :=
                      ResourceConfig.mk
                        (MetaData.mk true (ServicePort.NodePort portSpec)
                           (MetaData.ResourceType (ResourceConfig.MetaData c)))
                        (ResourceConfig.Virtual c)
                        (<[index :=
                             Pool.set_Members
                               (nodeMembers (default [] (oldNodes m))
                                  (ServicePort.NodePort portSpec)) p]>
                           (ResourceConfig.Pools c))
                        (ResourceConfig.Policies c)
                        (ResourceConfig.Monitors c)]> (heap m)) m)).
Proof.
  intros Hc Hp. unfold updatePoolMembersForNodePort. split; [|split].
  - intros Hty. by rewrite decide_False.
  - intros Hty Hnone. rewrite decide_True by done.
    unfold mbind, M_bind. by rewrite forEach_filter, Hnone.
  - intros portSpec Hty Hone. rewrite decide_True by done.
    unfold mbind at 1, M_bind at 1. rewrite forEach_filter, Hone.
    cbn [forEach]. unfold getEndpointsForNodePort, getNodesFromCache,
      setPoolMembers. run. unfold modify. rewrite Hc.
    repeat (cbn [heap set_heap oldNodes]; rewrite lookup_insert_eq).
    unfold ResourceConfig.set_PoolMembers.
    cbn [ResourceConfig.Pools ResourceConfig.set_NodePort
         ResourceConfig.set_Active]. rewrite Hp.
    unfold mret, M_ret. cbn [heap set_heap]. f_equal. f_equal.
    unfold set_heap. cbn. f_equal. by rewrite insert_insert_eq.
Qed.

Lemma updatePoolMembersForNodePort_spec_witness :
  let m := set_oldNodes (Some ["10.0.0.1"; "10.0.0.2"]) newConfigMapManager in
  ∃ m',
    updatePoolMembersForNodePort
      (Service.mk ServiceTypeNodePort
         [ServicePort.mk "http" 80 30080; ServicePort.mk "https" 443 30443])
      (serviceKey.mk "svcA" 80 "ns1") 1%positive 0 m = Some ((true, ""), m')
    ∧ (ResourceConfig.Pools <$> heap m' !! 1%positive)
      = Some [samplePool "svcA" 80
                [Member.mk "10.0.0.1" 30080 "user-enabled";
                 Member.mk "10.0.0.2" 30080 "user-enabled"]].
Proof.
  intros m.
  destruct (updatePoolMembersForNodePort_spec
              (Service.mk ServiceTypeNodePort
                 [ServicePort.mk "http" 80 30080;
                  ServicePort.mk "https" 443 30443])
              (serviceKey.mk "svcA" 80 "ns1") 1%positive 0 m
              (sampleConfig "configmap" "ns1_cm" 80 [samplePool "svcA" 80 []])
              (samplePool "svcA" 80 []) eq_refl eq_refl) as (_ & _ & Hone).
  eexists. split.
  - apply (Hone (ServicePort.mk "http" 80 30080)); reflexivity.
  - vm_compute. reflexivity.
Defined.

(** X17.  [updatePoolMembersForCluster] on a valid candidate with a pool at
    the index.  Without an Endpoints object for the service it returns false
    with the reason "EndpointsNotFound" and changes nothing (the config is
    not deactivated).  With one, and no port of the service equal to the
    key's port, it returns true and changes nothing.  With one port spec for
    the key's port it returns true, turns the config active and sets the
    members of the indexed pool to the endpoints of the port's name; the
    node port and everything else stay. *)
Theorem updatePoolMembersForCluster_spec svc sKey rsCfg appInf index m c p :
  heap m !! rsCfg = Some c →
  ResourceConfig.Pools c !! index = Some p →
  let svcKey :=
    serviceKey.Namespace sKey +:+ "/" +:+ serviceKey.ServiceName sKey in
  (appInformer.endptInformer appInf !! svcKey = None →
   updatePoolMembersForCluster svc sKey rsCfg appInf index m
   = Some ((false, "EndpointsNotFound"), m))
  ∧ (is_Some (appInformer.endptInformer appInf !! svcKey) →
     filter (λ ps, ServicePort.Port ps = serviceKey.ServicePort sKey)
       (Service.Ports svc) = [] →
     updatePoolMembersForCluster svc sKey rsCfg appInf index m
     = Some ((true, ""), m))
  ∧ (∀ eps portSpec,
       appInformer.endptInformer appInf !! svcKey = Some eps →
       filter (λ ps, ServicePort.Port ps = serviceKey.ServicePort sKey)
         (Service.Ports svc) = [portSpec] →
       updatePoolMembersForCluster svc sKey rsCfg appInf index m
       = Some ((true, ""),
               set_heap
                 (<[rsCfg :=
                      ResourceConfig.mk
                        (MetaData.mk true
                           (MetaData.NodePort (ResourceConfig.MetaData c))
                           (MetaData.ResourceType (ResourceConfig.MetaData c)))
                        (ResourceConfig.Virtual c)
                        (<[index :=
                             Pool.set_Members
                               (getEndpointsForService
                                  (ServicePort.Name portSpec) (Some eps)) p]>
                           (ResourceConfig.Pools c))
                        (ResourceConfig.Policies c)
                        (ResourceConfig.Monitors c)]> (heap m)) m)).
Proof.
  intros Hc Hp svcKey. unfold updatePoolMembersForCluster. fold svcKey.
  split; [|split].
  - by intros ->.
  - intros [eps ->] Hnone.
    unfold mbind, M_bind. by rewrite forEach_filter, Hnone.
  - intros eps portSpec -> Hone.
    unfold mbind at 1, M_bind at 1. rewrite forEach_filter, Hone.
    cbn [forEach]. unfold setPoolMembers. run. unfold modify. rewrite Hc.
    repeat (cbn [heap set_heap]; rewrite lookup_insert_eq).
    unfold ResourceConfig.set_PoolMembers.
    cbn [ResourceConfig.Pools ResourceConfig.set_Active]. rewrite Hp.
    unfold mret, M_ret. cbn [heap set_heap]. f_equal. f_equal.
    unfold set_heap. cbn. f_equal. by rewrite insert_insert_eq.
Qed.

Lemma updatePoolMembersForCluster_spec_witness :
  ∃ m',
    updatePoolMembersForCluster
      (Service.mk ServiceTypeClusterIP [ServicePort.mk "http" 80 0])
      (serviceKey.mk "svcA" 80 "ns1") 1%positive
      (appInformer.mk "ns1" "f5type in (virtual-server)" 0 ∅
         {[ "ns1/svcA" :=
              Endpoints.mk
                [EndpointSubset.mk ["10.2.0.1"; "10.2.0.2"]
                   [EndpointPort.mk "http" 8080; EndpointPort.mk "admin" 9090]] ]}
         false)
      0 newConfigMapManager = Some ((true, ""), m')
    ∧ (ResourceConfig.Pools <$> heap m' !! 1%positive)
      = Some [samplePool "svcA" 80
                [Member.mk "10.2.0.1" 8080 "user-enabled";
                 Member.mk "10.2.0.2" 8080 "user-enabled"]].
Proof.
  destruct (updatePoolMembersForCluster_spec
              (Service.mk ServiceTypeClusterIP [ServicePort.mk "http" 80 0])
              (serviceKey.mk "svcA" 80 "ns1") 1%positive
              (appInformer.mk "ns1" "f5type in (virtual-server)" 0 ∅
                 {[ "ns1/svcA" :=
                      Endpoints.mk
                        [EndpointSubset.mk ["10.2.0.1"; "10.2.0.2"]
                           [EndpointPort.mk "http" 8080;
                            EndpointPort.mk "admin" 9090]] ]}
                 false)
              0 newConfigMapManager
              (sampleConfig "configmap" "ns1_cm" 80 [samplePool "svcA" 80 []])
              (samplePool "svcA" 80 []) eq_refl eq_refl) as (_ & _ & Hone).
  eexists. split.
  - apply (Hone (Endpoints.mk
                   [EndpointSubset.mk ["10.2.0.1"; "10.2.0.2"]
                      [EndpointPort.mk "http" 8080;
                       EndpointPort.mk "admin" 9090]])
             (ServicePort.mk "http" 80 0)); reflexivity.
  - vm_compute. reflexivity.
Defined.

(** X18.  [getEndpointsForService] returns no member for a nil Endpoints
    object; otherwise its members are exactly the pairs of an address of a
    subset with the port number of a port of the same subset that carries
    the requested name, each enabled. *)
Theorem getEndpointsForService_members portName eps mem :
  getEndpointsForService portName None = []
  ∧ (mem ∈ getEndpointsForService portName (Some eps)
     ↔ ∃ subset p addr,
         subset ∈ Endpoints.Subsets eps
         ∧ p ∈ EndpointSubset.Ports subset
         ∧ EndpointPort.Name p = portName
         ∧ addr ∈ EndpointSubset.Addresses subset
         ∧ mem = Member.mk addr (EndpointPort.Port p) "user-enabled").
Proof.
  split; [done|]. unfold getEndpointsForService.
  rewrite elem_of_flat_map. split.
  - intros (subset & Hs & Hm). apply elem_of_flat_map in Hm as (p & Hp & Hm).
    destruct (decide _) as [->|]; [|by apply elem_of_nil in Hm].
    apply list_elem_of_fmap in Hm as (addr & -> & Ha). eauto 10.
  - intros (subset & p & addr & Hs & Hp & Hn & Ha & ->).
    exists subset. split; [done|]. apply elem_of_flat_map.
    exists p. split; [done|]. rewrite decide_True by done.
    apply list_elem_of_fmap. eauto.
Qed.

(** ** Profiles of routes and the garbage collection of profiles *)

Section Profiles.
Context `{VirtualOps}.

(** X19.  [deleteUnusedProfiles] for a namespace, on a store whose pointers
    are valid, changes nothing but the custom profiles, and a profile
    survives exactly when its key lies in that namespace and some stored
    config whose name is the key's resource name references it.  In
    particular the profiles of every other namespace are deleted. *)
Theorem deleteUnusedProfiles_keeps_iff namespace m :
  (∀ k n l, resources m !! (k, n) = Some l → is_Some (heap m !! l)) →
  ∃ m',
    deleteUnusedProfiles namespace m = Some (tt, m')
    ∧ m' = set_customProfiles (customProfiles m') m
    ∧ ∀ key profile,
        customProfiles m' !! key = Some profile
        ↔ customProfiles m !! key = Some profile
          ∧ secretKey.Namespace key = namespace
          ∧ ∃ k n l c,
              resources m !! (k, n) = Some l ∧ heap m !! l = Some c
              ∧ Virtual.VirtualServerName (ResourceConfig.Virtual c)
                = secretKey.ResourceName key
              ∧ ReferencesProfile (ResourceConfig.Virtual c) profile = true.
Proof.
  intros Hvalid. eexists. split; [reflexivity|].
  cbn [customProfiles set_customProfiles]. split; [done|].
  intros key profile. rewrite map_lookup_filter_Some. cbn [fst snd].
  unfold profileReferenced. rewrite existsb_exists.
  split.
  - intros (Hp & [[k n] l] & Hin & Hb).
    apply list_elem_of_In, elem_of_map_to_list in Hin. cbn [snd] in Hb.
    destruct (heap m !! l) as [c|] eqn:Hc; [|done].
    apply andb_prop in Hb as [Hb Href]. apply andb_prop in Hb as [Hn Hns].
    apply bool_decide_eq_true in Hn, Hns. eauto 12.
  - intros (Hp & Hns & k & n & l & c & Hl & Hc & Hn & Href).
    split; [done|]. exists ((k, n), l). split.
    + apply list_elem_of_In. by apply elem_of_map_to_list.
    + cbn [snd]. rewrite Hc, Href.
      rewrite !bool_decide_eq_true_2 by done. done.
Qed.

(** X20.  [setClientSslProfile] on a route with a TLS section.  Without a
    certificate or without a key it attaches the profile name
    "Common/clientssl" to the virtual and touches neither the custom profiles
    nor the statistics.  With both it stores the profile built from the
    route under the key (route name with "-https-cert", namespace of the
    queue key, name of the virtual), overwriting whatever was there, attaches
    "<partition>/<route name>-https-cert", and counts a profile update
    exactly when a different profile had been stored under the key: storing
    a profile for the first time is not counted. *)
Theorem setClientSslProfile_spec stats sKey rsCfg route tls m c :
  Route.TLS route = Some tls →
  heap m !! rsCfg = Some c →
  let cp :=
    CustomProfile.mk (Route.Name route +:+ "-https-cert")
      (Virtual.Partition (ResourceConfig.Virtual c)) customProfileClient
      (TLSConfig.Certificate tls) (TLSConfig.Key tls) (Route.Host route) in
  let skey :=
    secretKey.mk (Route.Name route +:+ "-https-cert")
      (serviceQueueKey.Namespace sKey)
      (Virtual.VirtualServerName (ResourceConfig.Virtual c)) in
  let attach name m :=
    set_heap
      (<[rsCfg := ResourceConfig.set_Virtual
                    (AddFrontendSslProfileName name (ResourceConfig.Virtual c))
                    c]> (heap m)) m in
  (TLSConfig.Certificate tls = "" ∨ TLSConfig.Key tls = "" →
   setClientSslProfile stats sKey rsCfg route m
   = Some (stats, attach "Common/clientssl" m))
  ∧ (TLSConfig.Certificate tls ≠ "" → TLSConfig.Key tls ≠ "" →
     setClientSslProfile stats sKey rsCfg route m
     = Some (match customProfiles m !! skey with
             | Some prof =>
                 if decide (prof ≠ cp) then vsSyncStats.add_cpUpdated 1 stats
                 else stats
             | None => stats
             end,
             attach (Virtual.Partition (ResourceConfig.Virtual c) +:+ "/"
                       +:+ Route.Name route +:+ "-https-cert")
               (set_customProfiles (<[skey := cp]> (customProfiles m)) m))).
Proof.
  intros Htls Hc cp skey attach. unfold setClientSslProfile, updateVirtual.
  rewrite Htls. cbn [lift]. split.
  - intros Hempty. run. rewrite decide_False by tauto.
    unfold mret, M_ret. cbn beta iota. by rewrite Hc.
  - intros Hcert Hkey. run. rewrite decide_True by done.
    rewrite Hc. unfold modify. cbn beta iota.
    cbn [heap set_customProfiles]. by rewrite Hc.
Qed.

(** X21.  [setServerSslProfile] on a route with a destination CA
    certificate stores the server profile built around it, named after the
    route's rule name with "-server-ssl", attaches its reference to the
    virtual, and counts a profile update exactly when a different profile had
    been stored under the key.  The cluster CA file is not read. *)
Theorem setServerSslProfile_destination_ca stats sKey rsCfg route tls m c :
  Route.TLS route = Some tls →
  heap m !! rsCfg = Some c →
  TLSConfig.DestinationCACertificate tls ≠ "" →
  let profile :=
    ProfileRef.mk (formatRouteRuleName route +:+ "-server-ssl")
      (Virtual.Partition (ResourceConfig.Virtual c)) customProfileServer in
  let cp := NewCustomProfile profile (TLSConfig.DestinationCACertificate tls) in
  let skey :=
    secretKey.mk (CustomProfile.Name cp) (serviceQueueKey.Namespace sKey)
      (Virtual.VirtualServerName (ResourceConfig.Virtual c)) in
  setServerSslProfile stats sKey rsCfg route m
  = Some (match customProfiles m !! skey with
          | Some prof =>
              if decide (prof ≠ cp) then vsSyncStats.add_cpUpdated 1 stats
              else stats
          | None => stats
          end,
          set_heap
            (<[rsCfg := ResourceConfig.set_Virtual
                          (AddOrUpdateProfile profile (ResourceConfig.Virtual c))
                          c]> (heap m))
            (set_customProfiles (<[skey := cp]> (customProfiles m)) m)).
Proof.
  intros Htls Hc Hca profile cp skey.
  unfold setServerSslProfile, updateVirtual. rewrite Htls. cbn [lift].
  run. rewrite decide_True by done. rewrite Hc. unfold modify.
  cbn beta iota. cbn [heap set_customProfiles]. by rewrite Hc.
Qed.

(** X22.  [setServerSslProfile] on a reencrypt route without destination CA
    certificate, when the default profile is not stored and the cluster CA
    file cannot be read: nothing is stored, nothing is attached, nothing is
    counted; only the read is attempted, and it is attempted again by the
    next call. *)
Theorem setServerSslProfile_unreadable_default_cert stats sKey rsCfg route tls m :
  Route.TLS route = Some tls →
  TLSConfig.DestinationCACertificate tls = "" →
  customProfiles m
    !! secretKey.mk defaultCertProfileName (serviceQueueKey.Namespace sKey) ""
  = None →
  files m !! defaultCertPath = None →
  let m1 := set_caReads (S (caReads m)) m in
  setServerSslProfile stats sKey rsCfg route m = Some (stats, m1)
  ∧ setServerSslProfile stats sKey rsCfg route m1
    = Some (stats, set_caReads (S (S (caReads m))) m).
Proof.
  intros Htls Hca Hnone Hfile m1.
  assert (Hload : ∀ m0, customProfiles m0 = customProfiles m →
            files m0 = files m →
            setServerSslProfile stats sKey rsCfg route m0
            = Some (stats, set_caReads (S (caReads m0)) m0)).
  { intros m0 Hcp Hf. unfold setServerSslProfile, loadDefaultCert, ReadFile.
    rewrite Htls. cbn [lift]. run.
    rewrite decide_False by (intros Hne; by apply Hne).
    rewrite Hcp, Hnone.
    rewrite bool_decide_eq_false_2 by (by intros [? ?]).
    cbn [negb]. by rewrite Hf, Hfile. }
  split; [by apply Hload|]. by rewrite Hload.
Qed.

(** X23.  [handleIngressTls] on the HTTP virtual of an Ingress with TLS (the
    port of the virtual differs from the HTTPS port) returns false and
    stores no profile.  Unless the ssl-redirect annotation is false it
    attaches the redirect iRule of the default partition to the virtual:
    the standard rule for HTTPS port 443, and otherwise a rule named after
    the port, which it also registers in the iRule map under the default
    partition.  With ssl-redirect false nothing changes.  The partition is
    [DEFAULT_PARTITION], whatever its value. *)
Theorem handleIngressTls_http_virtual rsCfg ing m c va :
  Ingress.TLS ing ≠ [] →
  heap m !! rsCfg = Some c →
  Virtual.VirtualAddress (ResourceConfig.Virtual c) = Some va →
  virtualAddress.BindAddr va ≠ "" →
  let httpsPort :=
    portAnnotation (Ingress.Annotations ing) httpsPortAnnotation
      DEFAULT_HTTPS_PORT in
  virtualAddress.Port va ≠ httpsPort →
  let attach name m :=
    set_heap
      (<[rsCfg := ResourceConfig.set_Virtual
                    (AddIRule name (ResourceConfig.Virtual c)) c]> (heap m))
      m in
  handleIngressTls rsCfg ing m
  = Some (false,
          if getBooleanAnnotation (Ingress.Annotations ing)
               ingressSslRedirect true
          then
            if decide (httpsPort = DEFAULT_HTTPS_PORT) then
              attach ("/" +:+ DEFAULT_PARTITION +:+ "/"
                        +:+ httpRedirectIRuleName) m
            else
              attach (("/" +:+ DEFAULT_PARTITION +:+ "/"
                         +:+ httpRedirectIRuleName) +:+ "_"
                        +:+ pretty httpsPort)
                (set_irulesMap
                   (<[nameRef.mk
                        (("/" +:+ DEFAULT_PARTITION +:+ "/"
                            +:+ httpRedirectIRuleName) +:+ "_"
                           +:+ pretty httpsPort) DEFAULT_PARTITION :=
                        httpRedirectIRule httpsPort]> (irulesMap m)) m)
          else m).
Proof.
  intros Htls Hc Hva Hbind httpsPort Hport attach.
  unfold handleIngressTls, updateVirtual, addIRule.
  rewrite decide_False by (by destruct (Ingress.TLS ing)).
  run. rewrite Hc, Hva. rewrite decide_False by done.
  fold httpsPort. rewrite decide_False by done.
  destruct (getBooleanAnnotation _ _ _); [|done].
  destruct (decide (httpsPort = DEFAULT_HTTPS_PORT)) as [Heq|Hne].
  - rewrite decide_False by (intros Hn; by apply Hn).
    unfold mret, M_ret. cbn beta iota. by rewrite Hc.
  - rewrite decide_True by done. unfold modify, mret, M_ret.
    cbn beta iota. cbn [heap set_irulesMap]. by rewrite Hc.
Qed.

(** X24.  [handleIngressTls] does nothing and returns false for an Ingress
    without TLS entries and for a virtual without bind address (pool-only
    mode); [syncIngresses] then counts no profile update. *)
Theorem handleIngressTls_nothing_to_do rsCfg ing m c :
  heap m !! rsCfg = Some c →
  Ingress.TLS ing = []
  ∨ Virtual.VirtualAddress (ResourceConfig.Virtual c) = None
  ∨ (∃ va, Virtual.VirtualAddress (ResourceConfig.Virtual c) = Some va
           ∧ virtualAddress.BindAddr va = "") →
  handleIngressTls rsCfg ing m = Some (false, m)
  ∧ ∀ stats, syncIngresses_tls stats rsCfg ing m = Some (stats, m).
Proof.
  intros Hc Hcase.
  assert (handleIngressTls rsCfg ing m = Some (false, m)) as Hrun.
  { unfold handleIngressTls.
    destruct (decide (length (Ingress.TLS ing) = 0%nat)) as [|Hlen]; [done|].
    run. rewrite Hc.
    destruct Hcase as [Hnil|[Hnone|(va & Hva & Hbind)]].
    - by rewrite Hnil in Hlen.
    - by rewrite Hnone.
    - rewrite Hva. by rewrite decide_True. }
  split; [done|]. intros stats. unfold syncIngresses_tls.
  by rewrite (bind_run _ _ _ _ _ Hrun).
Qed.

End Profiles.

Lemma deleteUnusedProfiles_keeps_iff_witness :
  ∃ m',
    @deleteUnusedProfiles sampleOps "ns1" tlsManager = Some (tt, m')
    ∧ customProfiles m'
        !! secretKey.mk "secret1" "ns1" "ns1_ing-ingress_443" = None.
Proof.
  destruct (@deleteUnusedProfiles_keeps_iff sampleOps "ns1" tlsManager)
    as (m' & Hrun & _ & Hiff).
  - intros k n l Hl. vm_compute in Hl. discriminate Hl.
  - exists m'. split; [exact Hrun|].
    destruct (customProfiles m'
                !! secretKey.mk "secret1" "ns1" "ns1_ing-ingress_443")
      as [p|] eqn:E; [|reflexivity].
    apply Hiff in E as (_ & _ & k & n & l & c & Hl & _).
    vm_compute in Hl. discriminate Hl.
Defined.

Lemma setClientSslProfile_spec_witness :
  ∃ m',
    @setClientSslProfile sampleOps vsSyncStats.zero
      (serviceQueueKey.mk "ns1" "svcA") 1%positive
      (Route.mk "ns1" "r1" "a.example" "svcA"
         (Some (TLSConfig.mk TLSTerminationEdge "cert" "key" "")))
      reencryptManager = Some (vsSyncStats.zero, m')
    ∧ is_Some (customProfiles m'
                 !! secretKey.mk "r1-https-cert" "ns1" "openshift_default_https").
Proof.
  destruct (@setClientSslProfile_spec sampleOps vsSyncStats.zero
              (serviceQueueKey.mk "ns1" "svcA") 1%positive
              (Route.mk "ns1" "r1" "a.example" "svcA"
                 (Some (TLSConfig.mk TLSTerminationEdge "cert" "key" "")))
              (TLSConfig.mk TLSTerminationEdge "cert" "key" "")
              reencryptManager
              (ResourceConfig.mk (MetaData.mk true 0 "route")
                 (sampleVirtual "openshift_default_https" 443)
                 [samplePool "svcA" 443
                    [Member.mk "10.2.0.1" 8443 "user-enabled"]] [] [])
              eq_refl eq_refl) as [_ Hcustom].
  eexists. split.
  - apply Hcustom; discriminate.
  - vm_compute. eauto.
Defined.

Lemma setServerSslProfile_destination_ca_witness :
  ∃ m',
    @setServerSslProfile sampleOps vsSyncStats.zero
      (serviceQueueKey.mk "ns1" "svcA") 1%positive
      (Route.mk "ns1" "r1" "a.example" "svcA"
         (Some (TLSConfig.mk TLSTerminationReencrypt "" "" "dest-ca")))
      reencryptManager = Some (vsSyncStats.zero, m')
    ∧ caReads m' = caReads reencryptManager.
Proof.
  eexists. split.
  - apply (@setServerSslProfile_destination_ca sampleOps vsSyncStats.zero
             (serviceQueueKey.mk "ns1" "svcA") 1%positive
             (Route.mk "ns1" "r1" "a.example" "svcA"
                (Some (TLSConfig.mk TLSTerminationReencrypt "" "" "dest-ca")))
             (TLSConfig.mk TLSTerminationReencrypt "" "" "dest-ca")
             reencryptManager
             (ResourceConfig.mk (MetaData.mk true 0 "route")
                (sampleVirtual "openshift_default_https" 443)
                [samplePool "svcA" 443
                   [Member.mk "10.2.0.1" 8443 "user-enabled"]] [] [])
             eq_refl eq_refl).
    discriminate.
  - reflexivity.
Defined.

Lemma setServerSslProfile_unreadable_default_cert_witness :
  @setServerSslProfile sampleOps vsSyncStats.zero
    (serviceQueueKey.mk "ns1" "svcA") 1%positive sampleReencryptRoute
    routeManager
  = Some (vsSyncStats.zero, set_caReads 1 routeManager).
Proof.
  apply (@setServerSslProfile_unreadable_default_cert sampleOps
           vsSyncStats.zero (serviceQueueKey.mk "ns1" "svcA") 1%positive
           sampleReencryptRoute
           (TLSConfig.mk TLSTerminationReencrypt "" "" "") routeManager);
    reflexivity.
Defined.

Lemma handleIngressTls_http_virtual_witness :
  ∃ m',
    @handleIngressTls sampleOps 1%positive
      (sampleTlsIngress {[ "virtual-server.f5.com/https-port" := "8443" ]}
         ["secret1"])
      (withStore
         [(1%positive,
           sampleConfig "ingress" "ns1_ing-ingress_80" 80
             [samplePool "svcA" 80 []])]
         [] (NewManager false false false true ∅ ∅ ∅)) = Some (false, m')
    ∧ irulesMap m'
        !! nameRef.mk
             ("/" +:+ DEFAULT_PARTITION +:+ "/http_redirect_irule_8443")
             DEFAULT_PARTITION
      = Some "redirect to 8443".
Proof.
  eexists. split.
  - apply (@handleIngressTls_http_virtual sampleOps 1%positive
             (sampleTlsIngress
                {[ "virtual-server.f5.com/https-port" := "8443" ]} ["secret1"])
             (withStore
                [(1%positive,
                  sampleConfig "ingress" "ns1_ing-ingress_80" 80
                    [samplePool "svcA" 80 []])]
                [] (NewManager false false false true ∅ ∅ ∅))
             (sampleConfig "ingress" "ns1_ing-ingress_80" 80
                [samplePool "svcA" 80 []])
             (virtualAddress.mk "10.0.0.1" 80)).
    + discriminate.
    + reflexivity.
    + reflexivity.
    + discriminate.
    + vm_compute. discriminate.
  - vm_compute. reflexivity.
Defined.

Lemma handleIngressTls_nothing_to_do_witness :
  @handleIngressTls sampleOps 1%positive (sampleTlsIngress ∅ []) tlsManager
  = Some (false, tlsManager).
Proof.
  apply (@handleIngressTls_nothing_to_do sampleOps 1%positive
           (sampleTlsIngress ∅ []) tlsManager
           (sampleConfig "ingress" "ns1_ing-ingress_443" 443
              [samplePool "svcA" 80 []])).
  - reflexivity.
  - left. reflexivity.
Defined.

(** ** The copies of a route virtual *)

Lemma syncRoutes_broadcast_loop (rsCfg : loc) (c : ResourceConfig.t)
    (cfgs : list (loc * serviceKey.t)) : ∀ m,
  heap m !! rsCfg = Some c →
  (∀ cfg key, (cfg, key) ∈ cfgs → is_Some (heap m !! cfg)) →
  ∃ R',
    forEach cfgs (λ '(cfg, key),
      sc ← deref cfg;
      c ← deref rsCfg;
      if decide (Virtual.Partition (ResourceConfig.Virtual sc)
                 = Virtual.Partition (ResourceConfig.Virtual c))
      then Resources_Assign key
             (Virtual.VirtualServerName (ResourceConfig.Virtual c)) rsCfg
      else mret tt) m
    = Some (tt, set_resources R' m)
    ∧ ∀ i,
        R' !! i
        = if bool_decide
               (Exists (λ e : loc * serviceKey.t,
                          i = (e.2, Virtual.VirtualServerName
                                      (ResourceConfig.Virtual c))
                          ∧ (Virtual.Partition ∘ ResourceConfig.Virtual)
                              <$> heap m !! e.1
                            = Some (Virtual.Partition
                                      (ResourceConfig.Virtual c))) cfgs)
          then Some rsCfg
          else resources m !! i.
Proof.
  induction cfgs as [|[cfg key] cfgs IH]; intros m Hc Hvalid.
  - exists (resources m). cbn [forEach]. rewrite set_resources_id.
    split; [done|]. intros i.
    rewrite bool_decide_eq_false_2; [done|]. by intros ?%Exists_nil.
  - destruct (Hvalid cfg key) as [sc Hsc]; [by left|].
    cbn [forEach].
    set (match_ := Virtual.Partition (ResourceConfig.Virtual sc)
                   = Virtual.Partition (ResourceConfig.Virtual c)).
    set (m1 := if decide match_
               then set_resources
                      (<[(key, Virtual.VirtualServerName
                                 (ResourceConfig.Virtual c)) := rsCfg]>
                         (resources m)) m
               else m).
    rewrite (bind_run _ _ m m1 tt).
    2:{ unfold deref, Resources_Assign. run. rewrite Hsc.
        cbn beta iota. rewrite Hc. subst m1 match_.
        by destruct (decide _). }
    assert (heap m1 = heap m) as Hheap.
    { subst m1. by destruct (decide match_). }
    destruct (IH m1) as (R' & Hrun & HR').
    { by rewrite Hheap. }
    { intros cfg' key' Hin. rewrite Hheap. eapply Hvalid. by right. }
    exists R'. split.
    + rewrite Hrun. subst m1. by destruct (decide match_).
    + intros i. rewrite HR'. rewrite Hheap.
      destruct (bool_decide (Exists _ cfgs)) eqn:Etl.
      * apply bool_decide_eq_true in Etl.
        rewrite bool_decide_eq_true_2; [done|]. by apply Exists_cons_tl.
      * apply bool_decide_eq_false in Etl.
        destruct (decide (i = (key, Virtual.VirtualServerName
                                      (ResourceConfig.Virtual c))
                          ∧ match_)) as [[-> Hm]|Hno].
        -- rewrite bool_decide_eq_true_2.
           2:{ apply Exists_cons_hd. split; [done|]. cbn [fst].
               rewrite Hsc. cbn. by rewrite Hm. }
           subst m1. rewrite decide_True by done.
           cbn [resources set_resources]. by rewrite lookup_insert_eq.
        -- rewrite bool_decide_eq_false_2.
           2:{ intros Hex. apply Exists_cons in Hex as [[-> Hp]|Hex]; [|done].
               apply Hno. split; [done|]. cbn [fst] in Hp.
               rewrite Hsc in Hp. by injection Hp. }
           subst m1. destruct (decide match_) as [Hm|]; [|done].
           cbn [resources set_resources].
           rewrite lookup_insert_ne; [done|]. intros <-. by apply Hno.
Qed.

(** X25.  The block of [syncRoutes] that brings the copies of a route
    virtual in line, on a store whose pointers under the candidate's name are
    valid: afterwards every key that held a config of the candidate's name in
    the candidate's partition holds the candidate itself, whether or not the
    stored config was already equal to it; every other entry is as before,
    and no key is added. *)
Theorem syncRoutes_broadcast_unifies_copies rsCfg m c :
  heap m !! rsCfg = Some c →
  (∀ key l,
     resources m
       !! (key, Virtual.VirtualServerName (ResourceConfig.Virtual c)) = Some l →
     is_Some (heap m !! l)) →
  ∃ m',
    syncRoutes_broadcast rsCfg m = Some (tt, m')
    ∧ m' = set_resources (resources m') m
    ∧ (∀ key name l,
         resources m !! (key, name) = Some l →
         resources m' !! (key, name)
         = Some (if bool_decide
                      (name = Virtual.VirtualServerName
                                (ResourceConfig.Virtual c)
                       ∧ (Virtual.Partition ∘ ResourceConfig.Virtual)
                           <$> heap m !! l
                         = Some (Virtual.Partition (ResourceConfig.Virtual c)))
                 then rsCfg else l))
    ∧ (∀ key name,
         resources m !! (key, name) = None →
         resources m' !! (key, name) = None).
Proof.
  intros Hc Hvalid. unfold syncRoutes_broadcast.
  rewrite (bind_run _ _ m m c) by (unfold deref; by rewrite Hc).
  set (name := Virtual.VirtualServerName (ResourceConfig.Virtual c)) in *.
  set (cfgs := omap (λ e : serviceKey.t * string * loc,
                       if decide (e.1.2 = name) then Some (e.2, e.1.1)
                       else None) (Resources_entries m)).
  rewrite (bind_run _ _ m m cfgs) by reflexivity.
  assert (Hcfgs : ∀ cfg key, (cfg, key) ∈ cfgs
                             ↔ resources m !! (key, name) = Some cfg).
  { intros cfg key. subst cfgs. rewrite list_elem_of_omap. split.
    - intros ([[k n] l] & Hin & Hsome). cbn [fst snd] in Hsome.
      destruct (decide (n = name)) as [->|]; [|done].
      injection Hsome as <- <-. by apply elem_of_map_to_list.
    - intros Hl. exists ((key, name), cfg). split.
      + by apply elem_of_map_to_list.
      + cbn [fst snd]. by rewrite decide_True. }
  destruct (syncRoutes_broadcast_loop rsCfg c cfgs m Hc) as (R' & Hrun & HR').
  { intros cfg key Hin. apply Hcfgs in Hin. eauto. }
  fold name in Hrun, HR'.
  exists (set_resources R' m). split; [exact Hrun|]. split; [done|].
  cbn [resources set_resources]. split.
  - intros key n l Hl. rewrite HR'.
    destruct (bool_decide (Exists _ cfgs)) eqn:Eex.
    + apply bool_decide_eq_true, Exists_exists in Eex
        as ([cfg key'] & Hin & [= -> ->] & Hp).
      apply Hcfgs in Hin. rewrite Hin in Hl. injection Hl as <-.
      by rewrite bool_decide_eq_true_2.
    + apply bool_decide_eq_false in Eex. rewrite Hl.
      rewrite bool_decide_eq_false_2; [done|]. intros [-> Hp].
      apply Eex, Exists_exists. exists (l, key). split; [by apply Hcfgs|].
      by split.
  - intros key n Hnone. rewrite HR'.
    rewrite bool_decide_eq_false_2; [done|].
    intros ([cfg key'] & Hin & [= -> ->] & _)%Exists_exists.
    apply Hcfgs in Hin. congruence.
Qed.

Lemma syncRoutes_broadcast_unifies_copies_witness :
  ∃ m',
    syncRoutes_broadcast 1%positive routeManager = Some (tt, m')
    ∧ resources m' !! (serviceKey.mk "svcA" 80 "ns1", "openshift_default_http")
      = Some 1%positive
    ∧ resources m' !! (serviceKey.mk "svcB" 80 "ns1", "openshift_default_http")
      = Some 1%positive.
Proof.
  destruct (syncRoutes_broadcast_unifies_copies 1%positive routeManager
              (activeRouteConfig
                 [samplePool "svcA" 80 [Member.mk "10.2.0.1" 8080 "user-enabled"];
                  samplePool "svcB" 80 [Member.mk "10.2.0.2" 8080 "user-enabled"]]))
    as (m' & Hrun & _ & Hsome & _).
  - reflexivity.
  - intros key l Hl. unfold routeManager, withStore in Hl.
    cbn [resources set_resources] in Hl.
    apply elem_of_list_to_map_2 in Hl.
    apply elem_of_cons in Hl as [Hl|Hl].
    + injection Hl as -> ->. vm_compute. eauto.
    + apply elem_of_cons in Hl as [Hl|Hl]; [|by apply elem_of_nil in Hl].
      injection Hl as -> ->. vm_compute. eauto.
  - exists m'. split; [exact Hrun|]. split.
    + rewrite (Hsome _ _ 2%positive); reflexivity.
    + rewrite (Hsome _ _ 2%positive); reflexivity.
Defined.

(** ** A queued key of a namespace that is not watched *)

Section Unwatched.
Context `{VirtualOps} `{SubSyncs}.

(** X26.  [syncVirtualServer] for a key whose namespace has no informer
    (and all namespaces are not watched) returns no error and changes
    nothing: no sub-sync runs, nothing is deleted, nothing is written. *)
Theorem syncVirtualServer_unwatched_namespace sKey m :
  appInformers m !! "" = None →
  appInformers m !! serviceQueueKey.Namespace sKey = None →
  syncVirtualServer sKey m = Some (None, m).
Proof.
  intros E0 En. unfold syncVirtualServer, syncVirtualServer_collect,
    getNamespaceInformer.
  rewrite (bind_run _ _ m m (Returned None)); [done|].
  rewrite (bind_run _ _ _ _ _ (getNamespaceInformerLocked_run _ m)).
  by rewrite E0, En.
Qed.

End Unwatched.

Lemma syncVirtualServer_unwatched_namespace_witness :
  let m := watching ["ns1"] staleIngressManager in
  @syncVirtualServer sampleOps idleSubSyncs (serviceQueueKey.mk "ns2" "svcA") m
  = Some (None, m).
Proof.
  intros m.
  apply (@syncVirtualServer_unwatched_namespace sampleOps idleSubSyncs);
    reflexivity.
Defined.

(** ** Port annotations *)

Lemma digit_range c d : strconv.digit c = Some d → 0 ≤ d ≤ 9.
Proof.
  unfold strconv.digit. destruct (_ && _) eqn:E; [|done].
  intros [= <-]. apply andb_prop in E as [E1 E2]. lia.
Qed.

Lemma ParseUint_loop_range cs : ∀ n,
  0 ≤ n ≤ 2 ^ 32 - 1 →
  0 ≤ (strconv.ParseUint_loop cs n).1 ≤ 2 ^ 32 - 1.
Proof.
  induction cs as [|c cs IH]; intros n Hn; cbn [strconv.ParseUint_loop fst].
  - done.
  - destruct (strconv.digit c) as [d|] eqn:Ed; [|cbn; lia].
    apply digit_range in Ed.
    destruct (2 ^ 32 - 1 <? n * 10 + d) eqn:Eo; [cbn; lia|].
    apply IH. apply Z.ltb_ge in Eo. lia.
Qed.

Lemma ParseUint_range s : 0 ≤ (strconv.ParseUint s).1 ≤ 2 ^ 32 - 1.
Proof.
  unfold strconv.ParseUint. destruct s; [cbn; lia|].
  apply ParseUint_loop_range. lia.
Qed.

Lemma ParseInt_range s :
  - 2 ^ 31 ≤ (strconv.ParseInt s).1 ≤ 2 ^ 31 - 1
  ∧ ((strconv.ParseInt s).2 = Some strconv.ErrSyntax →
     (strconv.ParseInt s).1 = 0).
Proof.
  unfold strconv.ParseInt. destruct s as [|c rest]; [cbn; split; [lia|done]|].
  cbn zeta.
  set (neg := bool_decide (c = "-"%char)).
  set (s' := if _ || neg then rest else String c rest).
  pose proof (ParseUint_range s') as Hr.
  destruct (strconv.ParseUint s') as [un [[]|]]; cbn [fst snd] in *.
  - split; [lia|done].
  - destruct (negb neg && (2 ^ 31 <=? un)) eqn:E1; [cbn; split; [lia|done]|].
    destruct (neg && (2 ^ 31 <? un)) eqn:E2; [cbn; split; [lia|done]|].
    cbn [fst snd]. split; [|done].
    destruct neg; cbn in E1, E2.
    + apply Z.ltb_ge in E2. lia.
    + apply Z.leb_gt in E1. lia.
  - destruct (negb neg && (2 ^ 31 <=? un)) eqn:E1; [cbn; split; [lia|done]|].
    destruct (neg && (2 ^ 31 <? un)) eqn:E2; [cbn; split; [lia|done]|].
    cbn [fst snd]. split; [|done].
    destruct neg; cbn in E1, E2.
    + apply Z.ltb_ge in E2. lia.
    + apply Z.leb_gt in E1. lia.
Qed.

(** X27.  The ports of [virtualPorts] lie in the 32-bit range, so that the
    conversion [int32(p)] of the parsed annotation never truncates; each
    entry is the http entry with the port of the http-port annotation
    (default 80) or the https entry with the port of the https-port
    annotation (default 443); an annotation that is not a number gives port
    0; there are one or two entries; and the https entry is present exactly
    when the Ingress has TLS entries. *)
Theorem virtualPorts_ports ing :
  let ann := Ingress.Annotations ing in
  let port key dflt :=
    match ann !! key with
    | Some v => (strconv.ParseInt v).1
    | None => dflt
    end in
  (∀ ps, ps ∈ virtualPorts ing →
     - 2 ^ 31 ≤ portStruct.port ps ≤ 2 ^ 31 - 1
     ∧ (portStruct.protocol ps = "http"
        ∧ portStruct.port ps = port "virtual-server.f5.com/http-port" 80
        ∨ portStruct.protocol ps = "https"
          ∧ portStruct.port ps = port "virtual-server.f5.com/https-port" 443))
  ∧ (∀ key v, ann !! key = Some v →
       (strconv.ParseInt v).2 = Some strconv.ErrSyntax →
       port key 80 = 0 ∧ port key 443 = 0)
  ∧ (1 ≤ length (virtualPorts ing) ≤ 2)%nat
  ∧ (portStruct.mk "https" (port "virtual-server.f5.com/https-port" 443)
       ∈ virtualPorts ing ↔ Ingress.TLS ing ≠ []).
Proof.
  intros ann port.
  assert (Hrange : ∀ key dflt, - 2 ^ 31 ≤ dflt ≤ 2 ^ 31 - 1 →
            - 2 ^ 31 ≤ port key dflt ≤ 2 ^ 31 - 1).
  { intros key dflt Hd. unfold port. destruct (ann !! key); [|done].
    apply ParseInt_range. }
  unfold virtualPorts, portAnnotation, httpPortAnnotation, httpsPortAnnotation,
    DEFAULT_HTTP_PORT, DEFAULT_HTTPS_PORT.
  fold ann. fold (port "virtual-server.f5.com/http-port" 80).
  fold (port "virtual-server.f5.com/https-port" 443).
  set (http := portStruct.mk "http" _). set (https := portStruct.mk "https" _).
  assert (Hhttp : - 2 ^ 31 ≤ portStruct.port http ≤ 2 ^ 31 - 1)
    by (apply Hrange; lia).
  assert (Hhttps : - 2 ^ 31 ≤ portStruct.port https ≤ 2 ^ 31 - 1)
    by (apply Hrange; lia).
  split; [|split; [|split]].
  - intros ps Hps.
    assert (ps = http ∨ ps = https) as [-> | ->].
    { destruct (bool_decide _); [destruct (_ || _)|];
        repeat (apply elem_of_cons in Hps as [Hps|Hps]; [by auto|]);
        by apply elem_of_nil in Hps. }
    + split; [done|]. by left.
    + split; [done|]. by right.
  - intros key v Hv Herr. unfold port. rewrite Hv.
    split; by apply ParseInt_range.
  - destruct (bool_decide _); [destruct (_ || _)|]; cbn; lia.
  - destruct (Ingress.TLS ing) as [|t ts] eqn:Etls; cbn [List.length].
    + rewrite bool_decide_eq_false_2 by lia. split; [|done].
      intros Hin. apply list_elem_of_singleton in Hin. discriminate Hin.
    + rewrite bool_decide_eq_true_2 by lia. split; [done|]. intros _.
      destruct (_ || _); [right; left|left].
Qed.

Lemma virtualPorts_ports_witness :
  portStruct.mk "https" 0
  ∈ virtualPorts
      (sampleTlsIngress
         {[ "virtual-server.f5.com/https-port" := "eight" ]} ["secret1"]).
Proof.
  destruct (virtualPorts_ports
              (sampleTlsIngress
                 {[ "virtual-server.f5.com/https-port" := "eight" ]}
                 ["secret1"])) as (_ & _ & _ & Hhttps).
  apply Hhttps. discriminate.
Defined.

(** ** Events for an Ingress named by its virtual *)

Lemma recordIngressEvent_short_name reason rsName m :
  (String.length rsName
   < String.length (strings.SplitUnderscoreFirst rsName) + 9)%nat →
  recordIngressEvent None reason rsName m = None.
Proof.
  intros Hshort. unfold recordIngressEvent, strings.slice.
  change (String.length "-ingress") with 8%nat.
  rewrite decide_False by lia. done.
Qed.

(** X28.  [recordIngressEvent] without an Ingress, from the name of a
    virtual.  With [namespace] the part of the name before the first
    underscore: if the name is shorter than [namespace], one separator and
    the eight characters of "-ingress", the slice expression that cuts out
    the Ingress name panics.  Otherwise the Ingress of that namespace and
    name is looked up, and the event is recorded exactly when it is found. *)
Theorem recordIngressEvent_by_name reason rsName m :
  let namespace := strings.SplitUnderscoreFirst rsName in
  let name :=
    String.substring (String.length namespace + 1)
      (String.length rsName - 8 - (String.length namespace + 1)) rsName in
  ((String.length rsName < String.length namespace + 9)%nat →
   recordIngressEvent None reason rsName m = None)
  ∧ ((String.length namespace + 9 ≤ String.length rsName)%nat →
     recordIngressEvent None reason rsName m
     = Some (tt,
             match kubeIngresses m !! (namespace, name) with
             | Some ing =>
                 set_events
                   (events m ++ [Event.mk (Ingress.Namespace ing)
                                   (Ingress.Name ing) reason]) m
             | None => m
             end)).
Proof.
  intros namespace name. split.
  - apply recordIngressEvent_short_name.
  - unfold recordIngressEvent, strings.slice.
    fold namespace. change (String.length "-ingress") with 8%nat.
    intros Hlong. rewrite decide_True by lia. cbn [lift].
    rewrite (bind_run _ _ m m
               (String.substring
                  (Z.to_nat (Z.of_nat (String.length namespace) + 1))
                  (Z.to_nat (Z.of_nat (String.length rsName) - Z.of_nat 8
                             - (Z.of_nat (String.length namespace) + 1)))
                  rsName)) by reflexivity.
    rewrite (bind_run _ _ m m m) by reflexivity.
    replace (Z.to_nat (Z.of_nat (String.length namespace) + 1))
      with (String.length namespace + 1)%nat by lia.
    replace (Z.to_nat (Z.of_nat (String.length rsName) - Z.of_nat 8
                       - (Z.of_nat (String.length namespace) + 1)))
      with (String.length rsName - 8 - (String.length namespace + 1))%nat
      by lia.
    fold name. by destruct (kubeIngresses m !! (namespace, name)).
Qed.

Lemma recordIngressEvent_by_name_witness :
  recordIngressEvent None "ServiceNotFound" "ns1_ingress"
    (NewManager false false false true ∅ ∅ ∅) = None.
Proof.
  apply (recordIngressEvent_by_name "ServiceNotFound" "ns1_ingress"
           (NewManager false false false true ∅ ∅ ∅)).
  vm_compute. lia.
Defined.

Lemma bind_None {A B} (c : M A) (k : A → M B) m :
  (∀ a m1, c m = Some (a, m1) → k a m1 = None) → (c ≫= k) m = None.
Proof.
  intros Hk. unfold mbind, M_bind. destruct (c m) as [[a m1]|]; [|done].
  by apply Hk.
Qed.

(** X29.  [handleConfigForType] panics when the service does not exist, the
    candidate has a pool for the queued service, and the resource name ends
    in "ingress" but is too short to hold "-ingress" after its namespace
    prefix (the virtual of a ConfigMap named "ingress", for one): the event
    for the missing service cannot cut the Ingress name out of it. *)
Theorem handleConfigForType_short_ingress_name_panics rsCfg sKey rsMap rsName
    svcPortMap appInf currRouteSvc m c :
  heap m !! rsCfg = Some c →
  is_Some (findPool (serviceQueueKey.ServiceName sKey)
             (ResourceConfig.Pools c)) →
  strings.HasSuffix rsName "ingress" = true →
  (String.length rsName
   < String.length (strings.SplitUnderscoreFirst rsName) + 9)%nat →
  handleConfigForType rsCfg sKey rsMap rsName svcPortMap None appInf
    currRouteSvc m = None.
Proof.
  intros Hc [[plIdx pool] Hfind] Hsuffix Hshort. unfold handleConfigForType.
  rewrite (bind_run _ _ m m c) by (unfold deref; by rewrite Hc).
  rewrite Hfind.
  apply bind_None. intros m0 m1 _.
  apply bind_None. intros rsMap1 m2 _.
  apply bind_None. intros u m3 _.
  apply bind_None. intros b m4 _.
  apply bind_None. intros [] m5 Hev.
  rewrite Hsuffix in Hev.
  by rewrite (recordIngressEvent_short_name _ _ _ Hshort) in Hev.
Qed.

Lemma handleConfigForType_short_ingress_name_panics_witness :
  handleConfigForType 1%positive (serviceQueueKey.mk "ns1" "svcA") ∅
    "ns1_ingress" ∅ None sampleInformer ""
    (withStore
       [(1%positive,
         sampleConfig "configmap" "ns1_ingress" 80 [samplePool "svcA" 80 []])]
       [] (NewManager false false false true ∅ ∅ ∅)) = None.
Proof.
  apply (handleConfigForType_short_ingress_name_panics 1%positive
           (serviceQueueKey.mk "ns1" "svcA") ∅ "ns1_ingress" ∅ sampleInformer ""
           _ (sampleConfig "configmap" "ns1_ingress" 80
                [samplePool "svcA" 80 []])).
  - reflexivity.
  - vm_compute. eauto.
  - vm_compute. reflexivity.
  - vm_compute. lia.
Defined.

(** ** Taking the candidate out of the resource map *)

Lemma sliceRemoveLoop_no_match {A} (zero : option A) (p : A → option bool)
    (js : list nat) (arr : list A) (len : nat) :
  (∀ j, j ∈ js → ∃ x, arr !! j = Some x ∧ p x = Some false) →
  sliceRemoveLoop zero p js arr len = Some (arr, len).
Proof.
  induction js as [|j js IH]; intros Hjs; [done|].
  cbn [sliceRemoveLoop]. destruct (Hjs j) as (x & -> & Hp); [by left|].
  cbn [mbind option_bind]. rewrite Hp. cbn [mbind option_bind].
  apply IH. intros j' Hj'. apply Hjs. by right.
Qed.

Lemma sliceRemoveLoop_app {A} (zero : option A) (p : A → option bool)
    (js1 js2 : list nat) (arr : list A) (len : nat) :
  sliceRemoveLoop zero p (js1 ++ js2) arr len
  = '(arr', len') ← sliceRemoveLoop zero p js1 arr len;
    sliceRemoveLoop zero p js2 arr' len'.
Proof.
  revert arr len. induction js1 as [|j js1 IH]; intros arr len; [done|].
  cbn [app sliceRemoveLoop].
  destruct (arr !! j) as [x|]; [|done]. cbn [mbind option_bind].
  destruct (p x) as [[]|]; [|apply IH|done]. cbn [mbind option_bind].
  destruct (sliceRemoveAt zero j arr len) as [[arr' len']|]; [|done].
  cbn [mbind option_bind]. apply IH.
Qed.

Lemma sliceRemoveAll_single_match {A} (p : A → option bool)
    (pre post : list A) (x : A) :
  p x = Some true →
  (∀ y, y ∈ pre ++ post → p y = Some false) →
  sliceRemoveAll None p (pre ++ x :: post) = Some (pre ++ post).
Proof.
  intros Hx Hrest. unfold sliceRemoveAll.
  rewrite length_app. cbn [length].
  replace (length pre + S (length post))%nat
    with (length pre + (1 + length post))%nat by lia.
  rewrite seq_app. rewrite sliceRemoveLoop_app.
  rewrite sliceRemoveLoop_no_match.
  2:{ intros j Hj. apply elem_of_seq in Hj.
      destruct (lookup_lt_is_Some_2 pre j) as [y Hy]; [lia|].
      exists y. split; [by rewrite lookup_app_l by lia|].
      apply Hrest, elem_of_app. left. by eapply list_elem_of_lookup_2. }
  cbn [mbind option_bind]. rewrite seq_app. cbn [seq app sliceRemoveLoop].
  rewrite Nat.add_0_l.
  rewrite lookup_app_r by lia. rewrite Nat.sub_diag. cbn [lookup list_lookup].
  cbn [mbind option_bind]. rewrite Hx. cbn [mbind option_bind].
  unfold sliceRemoveAt. rewrite decide_True by lia. cbn [mbind option_bind].
  set (n := (length pre + (1 + length post))%nat).
  set (arr' := take (length pre) (pre ++ x :: post) ++ _).
  assert (Harr : arr' = pre ++ post
                          ++ take 1 (drop (n - 1) (pre ++ x :: post))).
  { subst arr'. rewrite take_app_length.
    rewrite (take_ge (pre ++ x :: post) n)
      by (rewrite length_app; cbn [length]; lia).
    rewrite (drop_ge (pre ++ x :: post) n)
      by (rewrite length_app; cbn [length]; lia).
    rewrite app_nil_r. f_equal.
    rewrite drop_app_ge by lia.
    replace (length pre + 1 - length pre)%nat with 1%nat by lia. done. }
  rewrite sliceRemoveLoop_no_match.
  - cbn [mbind option_bind]. f_equal. rewrite Harr.
    rewrite app_assoc. rewrite take_app_length'; [done|].
    rewrite length_app. lia.
  - intros j Hj. apply elem_of_seq in Hj.
    assert (length arr' = n) as Hlen.
    { rewrite Harr. rewrite !length_app, length_take, length_drop, length_app.
      cbn [length]. lia. }
    destruct (lookup_lt_is_Some_2 arr' j) as [y Hy]; [lia|].
    exists y. split; [done|]. apply Hrest.
    apply list_elem_of_lookup_2 in Hy. rewrite Harr in Hy.
    apply elem_of_app in Hy as [Hy|Hy]; [apply elem_of_app; by left|].
    apply elem_of_app in Hy as [Hy|Hy]; [apply elem_of_app; by right|].
    destruct post as [|y0 post'] using rev_ind; [cbn in Hj; lia|].
    clear IHpost'. apply elem_of_app. right.
    assert (drop (n - 1) (pre ++ x :: post' ++ [y0]) = [y0]) as Hlast.
    { subst n. rewrite length_app. cbn [length].
      replace (pre ++ x :: post' ++ [y0]) with ((pre ++ x :: post') ++ [y0])
        by (by rewrite <- app_assoc).
      rewrite drop_app_length'; [done|]. rewrite length_app. cbn [length]. lia. }
    rewrite Hlast in Hy. cbn in Hy. apply list_elem_of_singleton in Hy as ->.
    apply elem_of_app. right. by apply list_elem_of_singleton.
Qed.

(** X30.  How [handleConfigForType] takes the candidate out of the resource
    map.  For a route whose service is not the queued one the map is left
    alone.  Otherwise: a port with a single config loses its entry, whatever
    the name of that config; from a longer list in which exactly one config
    has the candidate's name, that config is removed and the others stay in
    order; a list of another length without a config of the candidate's
    name, and a port without entry, leave the map as it is. *)
Theorem consumeResourceMap_cases (h : gmap loc ResourceConfig.t)
    (rsMap : ResourceMap) (port : Z) (rsName currRouteSvc svcName : string) :
  let named (l : loc) :=
    ∃ c, h !! l = Some c
         ∧ Virtual.VirtualServerName (ResourceConfig.Virtual c) = rsName in
  let other (l : loc) :=
    ∃ c, h !! l = Some c
         ∧ Virtual.VirtualServerName (ResourceConfig.Virtual c) ≠ rsName in
  (currRouteSvc ≠ "" → currRouteSvc ≠ svcName →
   consumeResourceMap h rsMap port rsName currRouteSvc svcName = Some rsMap)
  ∧ (currRouteSvc = "" ∨ currRouteSvc = svcName →
     (∀ l, rsMap !! port = Some [l] →
        consumeResourceMap h rsMap port rsName currRouteSvc svcName
        = Some (delete port rsMap))
     ∧ (∀ pre l post,
          rsMap !! port = Some (pre ++ l :: post) → pre ++ post ≠ [] →
          named l → (∀ l', l' ∈ pre ++ post → other l') →
          consumeResourceMap h rsMap port rsName currRouteSvc svcName
          = Some (<[port := pre ++ post]> rsMap))
     ∧ (∀ cfgs,
          rsMap !! port = Some cfgs → length cfgs ≠ 1%nat →
          (∀ l', l' ∈ cfgs → other l') →
          consumeResourceMap h rsMap port rsName currRouteSvc svcName
          = Some rsMap)
     ∧ (rsMap !! port = None →
        consumeResourceMap h rsMap port rsName currRouteSvc svcName
        = Some rsMap)).
Proof.
  intros named other. unfold consumeResourceMap, ResourceMap in *.
  split.
  - intros H1 H2. by rewrite decide_False by (intros [?|?]; done).
  - intros Hcur. rewrite decide_True by done.
    assert (Hother : ∀ cfgs : list loc, (∀ l', l' ∈ cfgs → other l') →
              ∀ j, j ∈ seq 0 (length cfgs) →
                ∃ x, cfgs !! j = Some x
                     ∧ (c ← h !! x;
                        Some (bool_decide
                                (Virtual.VirtualServerName
                                   (ResourceConfig.Virtual c) = rsName)))
                       = Some false).
    { intros cfgs Hall j Hj. apply elem_of_seq in Hj.
      destruct (lookup_lt_is_Some_2 cfgs j) as [x Hx]; [lia|].
      exists x. split; [done|].
      destruct (Hall x) as (c & -> & Hne); [by eapply list_elem_of_lookup_2|].
      cbn. by rewrite bool_decide_eq_false_2. }
    split; [|split; [|split]].
    + intros l ->. cbn [default from_option id length]. by rewrite decide_True.
    + intros pre l post -> Hmore (c & Hc & Hname) Hrest.
      cbn [default from_option id].
      assert (length (pre ++ l :: post) ≠ 1)%nat as Hlen.
      { rewrite length_app. cbn [length].
        destruct pre, post; cbn [length]; try lia. done. }
      rewrite decide_False by done.
      rewrite decide_True
        by (rewrite length_app in *; cbn [length] in *; lia).
      rewrite sliceRemoveAll_single_match; [done| |].
      * rewrite Hc. cbn. by rewrite bool_decide_eq_true_2.
      * intros y Hy. destruct (Hrest y Hy) as (cy & -> & Hne).
        cbn. by rewrite bool_decide_eq_false_2.
    + intros cfgs Hcfgs Hlen Hall. rewrite Hcfgs. cbn [default from_option id].
      rewrite decide_False by done.
      destruct (decide (1 < length cfgs)%nat); [|done].
      unfold sliceRemoveAll.
      rewrite sliceRemoveLoop_no_match by (by apply Hother).
      cbn [mbind option_bind]. rewrite firstn_all.
      by rewrite insert_id.
    + intros ->. cbn [default from_option id length].
      rewrite decide_False by lia. by rewrite decide_False by lia.
Qed.

Lemma consumeResourceMap_cases_witness :
  consumeResourceMap (heap routeManager)
    {[ 80 := [1%positive; 2%positive] ]} 80 "other_name" "" "svcA"
  = Some {[ 80 := [1%positive; 2%positive] ]}.
Proof.
  destruct (consumeResourceMap_cases (heap routeManager)
              {[ 80 := [1%positive; 2%positive] ]} 80 "other_name" "" "svcA")
    as (_ & Hcur).
  destruct (Hcur (or_introl eq_refl)) as (_ & _ & Hnone & _).
  apply (Hnone [1%positive; 2%positive]).
  - reflexivity.
  - discriminate.
  - intros l' Hl'.
    exists (activeRouteConfig
              [samplePool "svcA" 80 [Member.mk "10.2.0.1" 8080 "user-enabled"];
               samplePool "svcB" 80 [Member.mk "10.2.0.2" 8080 "user-enabled"]]).
    apply elem_of_cons in Hl' as [->|Hl'].
    + split; [reflexivity|discriminate].
    + apply elem_of_cons in Hl' as [->|Hl']; [|by apply elem_of_nil in Hl'].
      split; [reflexivity|discriminate].
Defined.

(** ** Instances on the sample data *)

Lemma GetWatchedNamespaces_lists_watched_witness :
  ∃ l, GetWatchedNamespaces
         (watching ["ns1"; "ns2"] (NewManager false false true false ∅ ∅ ∅))
       = Some (l, watching ["ns1"; "ns2"]
                    (NewManager false false true false ∅ ∅ ∅))
       ∧ "ns2" ∈ l.
Proof.
  destruct (GetWatchedNamespaces_lists_watched
              (watching ["ns1"; "ns2"]
                 (NewManager false false true false ∅ ∅ ∅)))
    as (l & Hrun & _ & Hiff).
  exists l. split; [exact Hrun|]. apply Hiff. vm_compute. eauto.
Defined.

Lemma getResourcesForKey_collects_service_witness :
  ∃ rsMap,
    getResourcesForKey (serviceQueueKey.mk "ns1" "svcA") routeManager
    = Some (rsMap, routeManager)
    ∧ 2%positive ∈ default [] (rsMap !! 80).
Proof.
  destruct (getResourcesForKey_collects_service
              (serviceQueueKey.mk "ns1" "svcA") routeManager)
    as (rsMap & Hrun & Hiff & _).
  exists rsMap. split; [exact Hrun|]. apply Hiff.
  exists "openshift_default_http". reflexivity.
Defined.

Lemma getEndpointsForService_members_witness :
  Member.mk "10.2.0.1" 8080 "user-enabled"
  ∈ getEndpointsForService "http"
      (Some (Endpoints.mk
               [EndpointSubset.mk ["10.2.0.1"]
                  [EndpointPort.mk "admin" 9090; EndpointPort.mk "http" 8080]])).
Proof.
  apply (getEndpointsForService_members "http"
           (Endpoints.mk
              [EndpointSubset.mk ["10.2.0.1"]
                 [EndpointPort.mk "admin" 9090; EndpointPort.mk "http" 8080]])).
  exists (EndpointSubset.mk ["10.2.0.1"]
            [EndpointPort.mk "admin" 9090; EndpointPort.mk "http" 8080]),
    (EndpointPort.mk "http" 8080), "10.2.0.1".
  split; [by left|]. split; [right; by left|]. split; [reflexivity|].
  split; [by left|reflexivity].
Defined.
